(** * Construction-materials system: inventory ledger and procurement saga

    A shallow embedding of the inventory service (domain entity [Material],
    the SQLAlchemy repository, the availability / reservation use cases and
    the message publishers) and of the procurement service (supplier
    selection, shortage processing, order status updates), followed by the
    properties of the specification that concern them.

    Conventions of the embedding.
    - Python [int] is [Z]; [str] is [string]; [Optional[T]] is [option T].
    - A [datetime] is kept as its ISO-8601 text, so [isoformat()] is the
      identity; every call of [datetime.utcnow()] reads the parameter [now].
    - [str(uuid.uuid4())] is the parameter [uuid] of the operation that
      draws it.
    - A database table with a primary key is a [gmap] from the key to the
      row; the append-only [stock_movements] table is a list, oldest first.
    - Code that can raise returns a [result]; code that mutates the session
      or a collaborator returns the new state next to its value.
    - A [float] rating and a [Decimal] price are the rational numbers they
      denote ([Q]); negation and comparison are exact on [Q], and the one
      product, of a [Decimal] price by an [int], is rounded as [Decimal]
      arithmetic rounds it (module [Decimal]).  NaN ratings are outside the
      model.
    - [logging] output is kept only for the RabbitMQ publisher, where the
      specification speaks about it. *)

From Stdlib Require Import ZArith Ascii String List Lia.
From Stdlib Require Import QArith Qround Qabs Qpower Lqa.
From Stdlib Require Import Sorting.Sorted Permutation.
From stdpp Require Import base option gmap strings list pretty.

Local Open Scope string_scope.
Local Open Scope Z_scope.

(** ** Exceptions and results *)

Inductive exn : Type :=
  | ValueError (msg : string)
  | RuntimeError (msg : string)
  | ConnectionError (msg : string).

Inductive result (A : Type) : Type :=
  | Ok (a : A)
  | Raise (e : exn).
Arguments Ok {A} a.
Arguments Raise {A} e.

Definition datetime := string.

(** [f"{x}"] for an optional string: [None] prints as the text None. *)
Definition fmt_opt (o : option string) : string :=
  match o with Some s => s | None => "None" end.

(** Truth value of a Python string in a condition. *)
Definition truthy (s : string) : bool := negb (String.eqb s "").

(** [repr(s)] of a string, as [Enum] puts it in its [ValueError]: the
    text between apostrophes, or between double quotes when it holds an
    apostrophe and no double quote; the enclosing quote and the backslash
    are escaped with a backslash, tab, line feed and carriage return are
    written [\t], [\n], [\r], and the other control characters [\xhh].
    A string is its UTF-8 text; the characters outside ASCII are taken to
    be printable ones, which [repr] copies. *)
Fixpoint contains (c : ascii) (s : string) : bool :=
  match s with
  | EmptyString => false
  | String c' s' => Ascii.eqb c c' || contains c s'
  end.

Definition hex_digit (n : N) : ascii :=
  default "0"%char (list_ascii_of_string "0123456789abcdef" !! N.to_nat n).

Definition repr_char (quote c : ascii) : string :=
  let backslash := "092"%char in
  let code := N_of_ascii c in
  if Ascii.eqb c quote || Ascii.eqb c backslash then
    String backslash (String c "")
  else if Ascii.eqb c "009" then String backslash "t"
  else if Ascii.eqb c "010" then String backslash "n"
  else if Ascii.eqb c "013" then String backslash "r"
  else if (code <? 32)%N || (code =? 127)%N then
    String backslash
      (String "x"
         (String (hex_digit (code / 16)) (String (hex_digit (code mod 16)) "")))
  else String c "".

Fixpoint repr_body (quote : ascii) (s : string) : string :=
  match s with
  | EmptyString => ""
  | String c s' => repr_char quote c +:+ repr_body quote s'
  end.

Definition repr (s : string) : string :=
  let quote :=
    if contains "039" s && negb (contains "034" s) then "034"%char
    else "039"%char in
  String quote (repr_body quote s +:+ String quote "").

(** ** Inventory service: domain entities (domain/entities/material.py) *)

Inductive MaterialUnit : Type :=
  | PIECES | METERS | KILOGRAMS | LITERS | CUBIC_METERS | SQUARE_METERS.

Module MaterialUnit_.
Definition value (u : MaterialUnit) : string :=
  match u with
  | PIECES => "pieces" | METERS => "meters" | KILOGRAMS => "kg"
  | LITERS => "liters" | CUBIC_METERS => "m3" | SQUARE_METERS => "m2"
  end.

(** [MaterialUnit(s)]: lookup by value, [ValueError] when there is none. *)
Definition of_value (s : string) : result MaterialUnit :=
  if String.eqb s "pieces" then Ok PIECES
  else if String.eqb s "meters" then Ok METERS
  else if String.eqb s "kg" then Ok KILOGRAMS
  else if String.eqb s "liters" then Ok LITERS
  else if String.eqb s "m3" then Ok CUBIC_METERS
  else if String.eqb s "m2" then Ok SQUARE_METERS
  else Raise (ValueError (repr s +:+ " is not a valid MaterialUnit")).
End MaterialUnit_.

Inductive StockUpdateReason : Type :=
  | PURCHASE | MANUAL_ADJUSTMENT | CONSUMPTION | RESERVATION | RELEASE | INITIAL.

Module Material.
Record t : Type := mk {
  id : string;
  name : string;
  unit : MaterialUnit;
  category : string;
  quantity : Z;
  reserved : Z;
  min_threshold : Z;
  created_at : datetime;
  updated_at : datetime
}.

Definition set_reserved (r : Z) (now : datetime) (m : t) : t :=
  mk (id m) (name m) (unit m) (category m) (quantity m) r
     (min_threshold m) (created_at m) now.

Definition set_quantity (q : Z) (now : datetime) (m : t) : t :=
  mk (id m) (name m) (unit m) (category m) q (reserved m)
     (min_threshold m) (created_at m) now.

(** [@property available]: [max(0, self.quantity - self.reserved)]. *)
Definition available (m : t) : Z := Z.max 0 (quantity m - reserved m).

Definition is_low_stock (m : t) : bool := available m <? min_threshold m.

Definition can_reserve (m : t) (qty : Z) : bool := available m >=? qty.

(** The methods mutate [self]; they return their value and the entity. *)
Definition reserve (qty : Z) (now : datetime) (m : t) : bool * t :=
  if negb (can_reserve m qty) then (false, m)
  else (true, set_reserved (reserved m + qty) now m).

Definition release (qty : Z) (now : datetime) (m : t) : bool * t :=
  if qty >? reserved m then (false, m)
  else (true, set_reserved (reserved m - qty) now m).

Definition update_quantity (delta : Z) (reason : StockUpdateReason)
    (now : datetime) (m : t) : Z * t :=
  let m' := set_quantity (Z.max 0 (quantity m + delta)) now m in
  (quantity m', m').
End Material.

(** ** Inventory service: tables (infrastructure/database/models.py) *)

Module MaterialModel.
Record t : Type := mk {
  id : string;
  name : string;
  unit : string;
  category : option string;
  quantity : Z;
  reserved : Z;
  min_threshold : Z;
  created_at : datetime;
  updated_at : datetime
}.

Definition set_reserved (r : Z) (now : datetime) (m : t) : t :=
  mk (id m) (name m) (unit m) (category m) (quantity m) r
     (min_threshold m) (created_at m) now.

Definition set_quantity (q : Z) (now : datetime) (m : t) : t :=
  mk (id m) (name m) (unit m) (category m) q (reserved m)
     (min_threshold m) (created_at m) now.
End MaterialModel.

Module StockMovementModel.
Record t : Type := mk {
  id : string;
  material_id : string;
  quantity_delta : Z;
  reason : string;
  reference_id : option string;
  notes : option string;
  created_at : datetime
}.
End StockMovementModel.

Module ReservationModel.
Record t : Type := mk {
  id : string;
  material_id : string;
  request_id : string;
  quantity : Z;
  status : string;
  created_at : datetime;
  fulfilled_at : option datetime
}.

Definition set_status (s : string) (r : t) : t :=
  mk (id r) (material_id r) (request_id r) (quantity r) s
     (created_at r) (fulfilled_at r).
End ReservationModel.

(** The committed content of the three tables behind one session. *)
Record Db : Type := mkDb {
  materials : gmap string MaterialModel.t;
  stock_movements : list StockMovementModel.t;
  reservations : gmap string ReservationModel.t
}.

(** ** Inventory service: repository (infrastructure/database/repository.py) *)

Definition _model_to_entity (model : MaterialModel.t) : result Material.t :=
  match MaterialUnit_.of_value (MaterialModel.unit model) with
  | Raise e => Raise e
  | Ok u =>
      Ok (Material.mk (MaterialModel.id model) (MaterialModel.name model) u
            (default "" (MaterialModel.category model))
            (MaterialModel.quantity model) (MaterialModel.reserved model)
            (MaterialModel.min_threshold model)
            (MaterialModel.created_at model) (MaterialModel.updated_at model))
  end.

Module SQLAlchemyMaterialRepository.

Definition get_by_id (material_id : string) (db : Db)
    : result (option Material.t) :=
  match materials db !! material_id with
  | None => Ok None
  | Some model =>
      match _model_to_entity model with
      | Ok m => Ok (Some m)
      | Raise e => Raise e
      end
  end.

Definition update_quantity (material_id : string) (delta : Z)
    (reason : string) (reference_id : option string)
    (uuid : string) (now : datetime) (db : Db)
    : result (option Material.t) * Db :=
  match materials db !! material_id with
  | None => (Ok None, db)
  | Some model =>
      let model' :=
        MaterialModel.set_quantity
          (Z.max 0 (MaterialModel.quantity model + delta)) now model in
      let movement :=
        StockMovementModel.mk uuid material_id delta reason reference_id
          None now in
      let db' :=
        mkDb (<[material_id := model']> (materials db))
             (stock_movements db ++ [movement])
             (reservations db) in
      (match _model_to_entity model' with
       | Ok m => Ok (Some m)
       | Raise e => Raise e
       end, db')
  end.

Definition reserve (material_id : string) (quantity : Z)
    (request_id : string) (uuid : string) (now : datetime) (db : Db)
    : option string * Db :=
  match materials db !! material_id with
  | None => (None, db)
  | Some model =>
      let available :=
        MaterialModel.quantity model - MaterialModel.reserved model in
      if available <? quantity then (None, db)
      else
        let model' :=
          MaterialModel.set_reserved
            (MaterialModel.reserved model + quantity) now model in
        let reservation :=
          ReservationModel.mk uuid material_id request_id quantity
            "ACTIVE" now None in
        (Some uuid,
         mkDb (<[material_id := model']> (materials db))
              (stock_movements db)
              (<[uuid := reservation]> (reservations db)))
  end.

Definition release_reservation (reservation_id : string)
    (now : datetime) (db : Db) : bool * Db :=
  match reservations db !! reservation_id with
  | None => (false, db)
  | Some reservation =>
      if negb (String.eqb (ReservationModel.status reservation) "ACTIVE")
      then (false, db)
      else
        let mid := ReservationModel.material_id reservation in
        let materials' :=
          match materials db !! mid with
          | Some material =>
              <[mid := MaterialModel.set_reserved
                         (Z.max 0 (MaterialModel.reserved material
                                   - ReservationModel.quantity reservation))
                         now material]> (materials db)
          | None => materials db
          end in
        (true,
         mkDb materials' (stock_movements db)
              (<[reservation_id :=
                   ReservationModel.set_status "CANCELLED" reservation]>
                 (reservations db)))
  end.

End SQLAlchemyMaterialRepository.

(** ** Inventory service: DTOs (application/dto/material_dto.py) *)

Module AvailabilityCheckDTO.
Record t : Type := mk { material_id : string; requested_quantity : Z }.
End AvailabilityCheckDTO.

Module AvailabilityResultDTO.
Record t : Type := mk {
  material_id : string;
  material_name : string;
  is_available : bool;
  available_quantity : Z;
  requested_quantity : Z;
  shortage : Z
}.
End AvailabilityResultDTO.

Module ReserveMaterialDTO.
Record t : Type := mk {
  material_id : string; quantity : Z; request_id : string
}.
End ReserveMaterialDTO.

Module ReservationResultDTO.
Record t : Type := mk {
  success : bool;
  reservation_id : option string;
  reserved_quantity : Z;
  error_message : option string
}.
End ReservationResultDTO.

Module MaterialShortageEventDTO.
Record t : Type := mk {
  material_id : string;
  material_name : string;
  current_quantity : Z;
  requested_quantity : Z;
  shortage : Z;
  triggered_by_request_id : option string;
  timestamp : string
}.
End MaterialShortageEventDTO.

(** ** Message publisher port and its two adapters
    (application/ports/message_publisher.py,
     infrastructure/message_queue/rabbitmq_publisher.py) *)

(** The payload handed to [publish] by the availability check is
    [event.__dict__]: the fields of the shortage event. *)
Definition Message : Type := MaterialShortageEventDTO.t.

(** The port.  Only [publish] is called by the use cases; it returns a
    boolean, or raises, and may change the publisher. *)
Class MessagePublisher (P : Type) : Type :=
  publish : string → string → Message → P → result bool * P.

Definition exn_str (e : exn) : string :=
  match e with
  | ValueError m => m | RuntimeError m => m | ConnectionError m => m
  end.

Module StubMessagePublisher.
Record entry : Type := mk_entry {
  exchange : string; routing_key : string; message : Message
}.
Record t : Type := mk { messages : list entry; connected : bool }.

Definition publish (exchange routing_key : string) (message : Message)
    (self : t) : result bool * t :=
  (Ok true,
   mk (messages self ++ [mk_entry exchange routing_key message])
      (connected self)).
End StubMessagePublisher.

#[export] Instance StubMessagePublisher_port
  : MessagePublisher StubMessagePublisher.t := StubMessagePublisher.publish.

Module RabbitMQPublisher.
(** What the broker answers to the two [aio_pika] calls made on it. *)
Record Broker : Type := mk_broker {
  channel_declare_exchange : string → result unit;
  exchange_publish : string → string → Message → result unit
}.

Inductive level : Type := DEBUG | INFO | ERROR.

Record t : Type := mk {
  channel : bool;                       (* [self.channel] is not [None] *)
  _exchanges : gset string;             (* keys of [self._exchanges] *)
  broker : Broker;
  delivered : list (string * string * Message);
  log : list (level * string)
}.

Definition logged (l : level) (s : string) (self : t) : t :=
  mk (channel self) (_exchanges self) (broker self) (delivered self)
     (log self ++ [(l, s)]).

Definition declare_exchange (exchange : string) (self : t)
    : result unit * t :=
  if negb (channel self) then
    (Raise (RuntimeError "Not connected to RabbitMQ"), self)
  else
    match channel_declare_exchange (broker self) exchange with
    | Raise e => (Raise e, self)
    | Ok _ =>
        (Ok tt,
         logged DEBUG ("Declared exchange: " +:+ exchange)
           (mk (channel self) ({[exchange]} ∪ _exchanges self)
               (broker self) (delivered self) (log self)))
    end.

(** The body of the [try] block of [publish]. *)
Definition publish_try (exchange routing_key : string) (message : Message)
    (self : t) : result bool * t :=
  let '(r, self1) :=
    if decide (exchange ∈ _exchanges self) then (Ok tt, self)
    else declare_exchange exchange self in
  match r with
  | Raise e => (Raise e, self1)
  | Ok _ =>
      match exchange_publish (broker self1) exchange routing_key message with
      | Raise e => (Raise e, self1)
      | Ok _ =>
          (Ok true,
           logged INFO
             ("Published message to " +:+ exchange +:+ "/" +:+ routing_key)
             (mk (channel self1) (_exchanges self1) (broker self1)
                 (delivered self1 ++ [(exchange, routing_key, message)])
                 (log self1)))
      end
  end.

Definition publish (exchange routing_key : string) (message : Message)
    (self : t) : result bool * t :=
  if negb (channel self) then
    (Ok false, logged ERROR "Not connected to RabbitMQ" self)
  else
    match publish_try exchange routing_key message self with
    | (Ok b, self') => (Ok b, self')
    | (Raise e, self') =>
        (Ok false,
         logged ERROR ("Failed to publish message: " +:+ exn_str e) self')
    end.
End RabbitMQPublisher.

#[export] Instance RabbitMQPublisher_port
  : MessagePublisher RabbitMQPublisher.t := RabbitMQPublisher.publish.

(** ** Inventory service: use cases
    (application/use_cases/material_use_cases.py) *)

Module CheckAvailabilityUseCase.
Section WithPublisher.
Context {P : Type} `{MessagePublisher P}.

(** The event built when a shortage is published. *)
Definition shortage_event (material : Material.t)
    (dto : AvailabilityCheckDTO.t) (shortage : Z)
    (request_id : option string) (now : datetime) : Message :=
  MaterialShortageEventDTO.mk
    (Material.id material) (Material.name material)
    (Material.available material)
    (AvailabilityCheckDTO.requested_quantity dto)
    shortage request_id now.

Definition execute (db : Db) (message_publisher : option P)
    (dto : AvailabilityCheckDTO.t) (request_id : option string)
    (publish_shortage : bool) (now : datetime)
    : result AvailabilityResultDTO.t * option P :=
  match SQLAlchemyMaterialRepository.get_by_id
          (AvailabilityCheckDTO.material_id dto) db with
  | Raise e => (Raise e, message_publisher)
  | Ok None =>
      (Raise (ValueError
                ("Material with ID '"
                 +:+ AvailabilityCheckDTO.material_id dto
                 +:+ "' not found")),
       message_publisher)
  | Ok (Some material) =>
      let requested := AvailabilityCheckDTO.requested_quantity dto in
      let is_available := Material.available material >=? requested in
      let shortage := Z.max 0 (requested - Material.available material) in
      let result :=
        AvailabilityResultDTO.mk
          (Material.id material) (Material.name material) is_available
          (Material.available material) requested shortage in
      if (shortage >? 0) && publish_shortage then
        match message_publisher with
        | None => (Ok result, None)
        | Some p =>
            let event :=
              shortage_event material dto shortage request_id now in
            match publish "materials.events" "material.shortage"
                    event p with
            | (Ok _, p') => (Ok result, Some p')
            | (Raise e, p') => (Raise e, Some p')
            end
        end
      else (Ok result, message_publisher)
  end.
End WithPublisher.
End CheckAvailabilityUseCase.

Module ReserveMaterialUseCase.
Definition not_found_message (material_id : string) : string :=
  "Material with ID '" +:+ material_id +:+ "' not found".

Definition insufficient_message (available requested : Z) : string :=
  "Insufficient quantity. Available: " +:+ pretty available
  +:+ ", Requested: " +:+ pretty requested.

Definition execute (dto : ReserveMaterialDTO.t)
    (uuid : string) (now : datetime) (db : Db)
    : result ReservationResultDTO.t * Db :=
  let material_id := ReserveMaterialDTO.material_id dto in
  let quantity := ReserveMaterialDTO.quantity dto in
  match SQLAlchemyMaterialRepository.get_by_id material_id db with
  | Raise e => (Raise e, db)
  | Ok None =>
      (Ok (ReservationResultDTO.mk false None 0
             (Some (not_found_message material_id))), db)
  | Ok (Some material) =>
      if negb (Material.can_reserve material quantity) then
        (Ok (ReservationResultDTO.mk false None 0
               (Some (insufficient_message
                        (Material.available material) quantity))), db)
      else
        let '(reservation_id, db') :=
          SQLAlchemyMaterialRepository.reserve material_id quantity
            (ReserveMaterialDTO.request_id dto) uuid now db in
        match reservation_id with
        | Some rid =>
            if truthy rid then
              (Ok (ReservationResultDTO.mk true (Some rid) quantity None),
               db')
            else
              (Ok (ReservationResultDTO.mk false None 0
                     (Some "Failed to create reservation")), db')
        | None =>
            (Ok (ReservationResultDTO.mk false None 0
                   (Some "Failed to create reservation")), db')
        end
  end.
End ReserveMaterialUseCase.

Module ReleaseReservationUseCase.
Definition execute (reservation_id : string) (now : datetime) (db : Db)
    : bool * Db :=
  SQLAlchemyMaterialRepository.release_reservation reservation_id now db.
End ReleaseReservationUseCase.

(** ** Procurement service: domain entities (domain/entities/procurement.py) *)

Inductive OrderStatus : Type := PENDING | ORDERED | DELIVERED | CANCELLED.

Module OrderStatus_.
Definition value (s : OrderStatus) : string :=
  match s with
  | PENDING => "PENDING" | ORDERED => "ORDERED"
  | DELIVERED => "DELIVERED" | CANCELLED => "CANCELLED"
  end.

(** [OrderStatus(s)]: lookup by value, [ValueError] when there is none. *)
Definition of_value (s : string) : result OrderStatus :=
  if String.eqb s "PENDING" then Ok PENDING
  else if String.eqb s "ORDERED" then Ok ORDERED
  else if String.eqb s "DELIVERED" then Ok DELIVERED
  else if String.eqb s "CANCELLED" then Ok CANCELLED
  else Raise (ValueError (repr s +:+ " is not a valid OrderStatus")).
End OrderStatus_.

Module Supplier.
Record t : Type := mk {
  id : string;
  name : string;
  email : string;
  phone : string;
  rating : Q;
  is_active : bool;
  created_at : datetime
}.
End Supplier.

Module SupplierMaterial.
Record t : Type := mk {
  id : string;
  supplier_id : string;
  material_id : string;
  material_name : string;
  unit_price : Q
}.
End SupplierMaterial.

(** [Decimal] arithmetic in the default context, which the services never
    change: an operation computes the exact result and rounds it to
    [prec = 28] significant digits, ties going to the even neighbour
    ([ROUND_HALF_EVEN]).  A [Decimal] is kept as the rational number it
    denotes, in lowest terms after an operation.  The exponent limits of
    the context ([Emax = 999999], [Emin = -999999]) are not modelled: the
    results are taken to lie within them. *)
Module Decimal.
Definition prec : Z := 28.

(** Number of decimal digits of a non-negative integer, [len(str(n))]. *)
Definition digits (n : Z) : Z := Z.of_nat (String.length (pretty n)).

(** The exponent of the leading digit of a non-zero number:
    [10 ^ adjusted q ≤ |q| < 10 ^ (adjusted q + 1)]. *)
Definition adjusted (q : Q) : Z :=
  let e := digits (Z.abs (Qnum q)) - digits (Z.pos (Qden q)) in
  if Qle_bool (10 ^ e) (Qabs q) then e else e - 1.

(** The nearest integer, ties to the even one. *)
Definition round_half_even (q : Q) : Z :=
  let f := Qfloor q in
  match (q - inject_Z f ?= 1 # 2)%Q with
  | Lt => f
  | Gt => f + 1
  | Eq => if Z.even f then f else f + 1
  end.

(** Rounding to [prec] significant digits: the last digit kept has
    exponent [adjusted q - (prec - 1)]. *)
Definition round (q : Q) : Q :=
  if Qeq_bool q 0 then 0%Q
  else
    let e := adjusted q - (prec - 1) in
    Qred (inject_Z (round_half_even (q / 10 ^ e)) * 10 ^ e).

(** [x * n] for a [Decimal] [x] and an [int] [n], which is converted
    exactly. *)
Definition mul (x : Q) (n : Z) : Q := round (x * inject_Z n).
End Decimal.

Module PurchaseOrder.
Record t : Type := mk {
  id : string;
  material_id : string;
  material_name : string;
  supplier_id : string;
  supplier_name : string;
  quantity : Z;
  unit_price : Q;
  total_price : Q;
  status : OrderStatus;
  external_order_id : option string;
  triggered_by_request_id : option string;
  expected_delivery : option datetime;
  created_at : datetime;
  updated_at : datetime
}.

(** Plain attribute assignment [order.status = s]. *)
Definition set_status (s : OrderStatus) (o : t) : t :=
  mk (id o) (material_id o) (material_name o) (supplier_id o)
     (supplier_name o) (quantity o) (unit_price o) (total_price o) s
     (external_order_id o) (triggered_by_request_id o)
     (expected_delivery o) (created_at o) (updated_at o).

Definition set_updated_at (now : datetime) (o : t) : t :=
  mk (id o) (material_id o) (material_name o) (supplier_id o)
     (supplier_name o) (quantity o) (unit_price o) (total_price o)
     (status o) (external_order_id o) (triggered_by_request_id o)
     (expected_delivery o) (created_at o) now.

Definition calculate_total (o : t) : Q * t :=
  let total := Decimal.mul (unit_price o) (quantity o) in
  (total,
   mk (id o) (material_id o) (material_name o) (supplier_id o)
      (supplier_name o) (quantity o) (unit_price o) total (status o)
      (external_order_id o) (triggered_by_request_id o)
      (expected_delivery o) (created_at o) (updated_at o)).

Definition mark_as_ordered (external_order_id' : string)
    (expected_delivery' : datetime) (now : datetime) (o : t) : t :=
  mk (id o) (material_id o) (material_name o) (supplier_id o)
     (supplier_name o) (quantity o) (unit_price o) (total_price o)
     ORDERED (Some external_order_id') (triggered_by_request_id o)
     (Some expected_delivery') (created_at o) now.

Definition mark_as_delivered (now : datetime) (o : t) : t :=
  set_updated_at now (set_status DELIVERED o).

Definition cancel (now : datetime) (o : t) : t :=
  set_updated_at now (set_status CANCELLED o).
End PurchaseOrder.

Module OrderConfirmation.
Record t : Type := mk {
  order_id : string;
  external_order_id : string;
  status : string;
  estimated_delivery : option datetime;
  error_message : option string
}.

Definition is_success (c : t) : bool :=
  String.eqb (status c) "CONFIRMED"
  || String.eqb (status c) "ACCEPTED"
  || String.eqb (status c) "SUCCESS".
End OrderConfirmation.

(** ** Procurement service: ports
    (application/ports/supplier_adapter.py and the repository interfaces of
     application/use_cases/procurement_use_cases.py) *)

Class SupplierAdapter (A : Type) : Type :=
  place_order :
    Supplier.t → PurchaseOrder.t → A → result OrderConfirmation.t * A.

Class PurchaseOrderRepository (R : Type) : Type := {
  order_save : PurchaseOrder.t → R → R;
  order_get_by_id : string → R → option PurchaseOrder.t;
  order_update : PurchaseOrder.t → R → R
}.

Class SupplierRepository (S : Type) : Type := {
  get_for_material : string → S → list Supplier.t;
  get_materials : string → S → list SupplierMaterial.t
}.

(** Modelled from the spec: the repository has no implementation in the
    sources, only the interface above.  The in-memory double keeps the
    purchase orders in a dictionary keyed by order id; [save] and [update]
    store the order under its id. *)
Module InMemoryOrderRepository.
Definition save (o : PurchaseOrder.t) (r : gmap string PurchaseOrder.t)
    : gmap string PurchaseOrder.t := <[PurchaseOrder.id o := o]> r.
Definition get_by_id (order_id : string) (r : gmap string PurchaseOrder.t)
    : option PurchaseOrder.t := r !! order_id.
End InMemoryOrderRepository.

#[export] Instance InMemoryOrderRepository_port
  : PurchaseOrderRepository (gmap string PurchaseOrder.t) := {
  order_save := InMemoryOrderRepository.save;
  order_get_by_id := InMemoryOrderRepository.get_by_id;
  order_update := InMemoryOrderRepository.save
}.

(** Modelled from the spec: the supplier directory has no implementation in
    the sources.  [get_for_material] is restricted to active suppliers
    having at least one offer for the material; [get_materials] lists the
    offers of one supplier. *)
Module InMemorySupplierRepository.
Record t : Type := mk {
  suppliers : list Supplier.t;
  offers : gmap string (list SupplierMaterial.t)
}.

Definition get_materials (supplier_id : string) (r : t)
    : list SupplierMaterial.t := default [] (offers r !! supplier_id).

Definition get_for_material (material_id : string) (r : t)
    : list Supplier.t :=
  filter
    (λ s, Supplier.is_active s = true
          ∧ existsb (λ m, String.eqb (SupplierMaterial.material_id m)
                                     material_id)
                    (get_materials (Supplier.id s) r) = true)
    (suppliers r).
End InMemorySupplierRepository.

#[export] Instance InMemorySupplierRepository_port
  : SupplierRepository InMemorySupplierRepository.t := {
  get_for_material := InMemorySupplierRepository.get_for_material;
  get_materials := InMemorySupplierRepository.get_materials
}.

(** ** Procurement service: supplier selection *)

Module SupplierSelector.
Definition candidate : Type := Supplier.t * SupplierMaterial.t.

(** The sort key [(-x[0].rating, x[1].unit_price)]. *)
Definition key (c : candidate) : Q * Q :=
  ((- Supplier.rating (fst c))%Q, SupplierMaterial.unit_price (snd c)).

(** Python's [<] on pairs: lexicographic. *)
Definition key_lt (a b : Q * Q) : bool :=
  match (fst a ?= fst b)%Q with
  | Lt => true
  | Gt => false
  | Eq => match (snd a ?= snd b)%Q with Lt => true | _ => false end
  end.

(** [list.sort(key=...)] is a stable sort; a stable sort has one possible
    outcome, computed here by insertion from the right. *)
Fixpoint insert (x : candidate) (l : list candidate) : list candidate :=
  match l with
  | [] => [x]
  | y :: l' =>
      if key_lt (key y) (key x) then y :: insert x l' else x :: y :: l'
  end.

Definition sort (l : list candidate) : list candidate :=
  foldr insert [] l.

(** [next((m for m in materials if m.material_id == material_id), None)] *)
Definition material_info (material_id : string)
    (materials : list SupplierMaterial.t) : option SupplierMaterial.t :=
  find (λ m, String.eqb (SupplierMaterial.material_id m) material_id)
       materials.

(** One turn of the loop that fills [candidates]. *)
Definition candidate_of (material_id : string)
    (supplier_materials : gmap string (list SupplierMaterial.t))
    (supplier : Supplier.t) : option candidate :=
  if negb (Supplier.is_active supplier) then None
  else
    let materials :=
      default [] (supplier_materials !! Supplier.id supplier) in
    match material_info material_id materials with
    | Some info => Some (supplier, info)
    | None => None
    end.

Definition candidates (material_id : string) (suppliers : list Supplier.t)
    (supplier_materials : gmap string (list SupplierMaterial.t))
    : list candidate :=
  omap (candidate_of material_id supplier_materials) suppliers.

Definition select_best_supplier (material_id : string)
    (suppliers : list Supplier.t)
    (supplier_materials : gmap string (list SupplierMaterial.t))
    : option candidate :=
  match candidates material_id suppliers supplier_materials with
  | [] => None
  | cs => head (sort cs)
  end.
End SupplierSelector.

(** Numeric equality of two ratings or prices is decidable. *)
#[export] Instance Qeq_decision (x y : Q) : Decision (x == y)%Q :=
  Qeq_dec x y.

(** ** Procurement service: use cases
    (application/use_cases/procurement_use_cases.py) *)

Module ProcessShortageDTO.
Record t : Type := mk {
  material_id : string;
  material_name : string;
  shortage_quantity : Z;
  triggered_by_request_id : option string
}.
End ProcessShortageDTO.

Module ProcessShortageResultDTO.
Record t : Type := mk {
  success : bool;
  order_id : option string;
  message : string;
  supplier_name : option string;
  estimated_cost : option Q
}.
End ProcessShortageResultDTO.

Module OrderDTO.
Record t : Type := mk {
  id : string;
  material_id : string;
  material_name : string;
  supplier_id : string;
  supplier_name : string;
  quantity : Z;
  unit_price : Q;
  total_price : Q;
  status : string;
  external_order_id : option string;
  triggered_by_request_id : option string;
  expected_delivery : option string;
  created_at : string
}.
End OrderDTO.

Definition _order_to_dto (order : PurchaseOrder.t) : OrderDTO.t :=
  OrderDTO.mk
    (PurchaseOrder.id order) (PurchaseOrder.material_id order)
    (PurchaseOrder.material_name order) (PurchaseOrder.supplier_id order)
    (PurchaseOrder.supplier_name order) (PurchaseOrder.quantity order)
    (PurchaseOrder.unit_price order) (PurchaseOrder.total_price order)
    (OrderStatus_.value (PurchaseOrder.status order))
    (PurchaseOrder.external_order_id order)
    (PurchaseOrder.triggered_by_request_id order)
    (PurchaseOrder.expected_delivery order)
    (PurchaseOrder.created_at order).

Module ProcessShortageUseCase.
Section WithPorts.
Context {R S A : Type}.
Context `{PurchaseOrderRepository R} `{SupplierRepository S}
        `{SupplierAdapter A}.

(** The dictionary [supplier_materials] filled by the loop of step 2. *)
Definition supplier_materials_of (suppliers : list Supplier.t)
    (supplier_repo : S) : gmap string (list SupplierMaterial.t) :=
  foldl (λ d supplier,
           <[Supplier.id supplier :=
               get_materials (Supplier.id supplier) supplier_repo]> d)
        ∅ suppliers.

(** The order of step 4, after [calculate_total]. *)
Definition new_order (dto : ProcessShortageDTO.t)
    (supplier : Supplier.t) (info : SupplierMaterial.t)
    (uuid : string) (now : datetime) : PurchaseOrder.t :=
  snd (PurchaseOrder.calculate_total
         (PurchaseOrder.mk uuid
            (ProcessShortageDTO.material_id dto)
            (ProcessShortageDTO.material_name dto)
            (Supplier.id supplier) (Supplier.name supplier)
            (ProcessShortageDTO.shortage_quantity dto)
            (SupplierMaterial.unit_price info) 0%Q PENDING None
            (ProcessShortageDTO.triggered_by_request_id dto)
            None now now)).

(** The notification of step 7 is sent through [_send_purchase_notification],
    whose body is [pass] and whose exceptions are caught: it has no
    effect and is left out. *)
Definition execute (dto : ProcessShortageDTO.t)
    (uuid : string) (now : datetime)
    (order_repo : R) (supplier_repo : S) (supplier_adapter : A)
    : result ProcessShortageResultDTO.t * R * A :=
  let suppliers :=
    get_for_material (ProcessShortageDTO.material_id dto) supplier_repo in
  match suppliers with
  | [] =>
      (Ok (ProcessShortageResultDTO.mk false None
             ("No suppliers found for material "
              +:+ ProcessShortageDTO.material_name dto) None None),
       order_repo, supplier_adapter)
  | _ =>
      let supplier_materials :=
        supplier_materials_of suppliers supplier_repo in
      match SupplierSelector.select_best_supplier
              (ProcessShortageDTO.material_id dto)
              suppliers supplier_materials with
      | None =>
          (Ok (ProcessShortageResultDTO.mk false None
                 ("No active supplier can provide "
                  +:+ ProcessShortageDTO.material_name dto) None None),
           order_repo, supplier_adapter)
      | Some (supplier, info) =>
          let order := new_order dto supplier info uuid now in
          match place_order supplier order supplier_adapter with
          | (Raise e, adapter') => (Raise e, order_repo, adapter')
          | (Ok confirmation, adapter') =>
              if negb (OrderConfirmation.is_success confirmation) then
                let order' := PurchaseOrder.set_status CANCELLED order in
                (Ok (ProcessShortageResultDTO.mk false
                       (Some (PurchaseOrder.id order'))
                       ("Supplier rejected order: "
                        +:+ fmt_opt (OrderConfirmation.error_message
                                       confirmation))
                       (Some (Supplier.name supplier)) None),
                 order_save order' order_repo, adapter')
              else
                let order' :=
                  PurchaseOrder.mark_as_ordered
                    (OrderConfirmation.external_order_id confirmation)
                    (default now
                       (OrderConfirmation.estimated_delivery confirmation))
                    now order in
                (Ok (ProcessShortageResultDTO.mk true
                       (Some (PurchaseOrder.id order'))
                       ("Order placed with " +:+ Supplier.name supplier)
                       (Some (Supplier.name supplier))
                       (Some (PurchaseOrder.total_price order'))),
                 order_save order' order_repo, adapter')
          end
      end
  end.
End WithPorts.
End ProcessShortageUseCase.

Module UpdateOrderStatusUseCase.
Section WithPorts.
Context {R I : Type} `{PurchaseOrderRepository R}.

(** [_update_inventory]: the body is [pass]; the client is not called. *)
Definition _update_inventory (order : PurchaseOrder.t) (client : I)
    : result unit * I := (Ok tt, client).

(** The [if / elif / else] that updates the status of the loaded order.
    An exception of [_update_inventory] is caught and logged. *)
Definition apply_status (new_status : string) (now : datetime)
    (order : PurchaseOrder.t) (inventory_client : option I)
    : result PurchaseOrder.t * option I :=
  if String.eqb new_status "DELIVERED" then
    let order' := PurchaseOrder.mark_as_delivered now order in
    match inventory_client with
    | None => (Ok order', None)
    | Some client =>
        let '(_, client') := _update_inventory order' client in
        (Ok order', Some client')
    end
  else if String.eqb new_status "CANCELLED" then
    (Ok (PurchaseOrder.cancel now order), inventory_client)
  else
    match OrderStatus_.of_value new_status with
    | Raise e => (Raise e, inventory_client)
    | Ok s =>
        (Ok (PurchaseOrder.set_updated_at now
               (PurchaseOrder.set_status s order)), inventory_client)
    end.

Definition execute (order_id new_status : string) (now : datetime)
    (order_repo : R) (inventory_client : option I)
    : result (option OrderDTO.t) * R * option I :=
  match order_get_by_id order_id order_repo with
  | None => (Ok None, order_repo, inventory_client)
  | Some order =>
      match apply_status new_status now order inventory_client with
      | (Raise e, client') => (Raise e, order_repo, client')
      | (Ok order', client') =>
          (Ok (Some (_order_to_dto order')),
           order_update order' order_repo, client')
      end
  end.
End WithPorts.
End UpdateOrderStatusUseCase.

(** ** The stub supplier (infrastructure/adapters/stub_supplier.py)

    [random.random()] lies in [[0, 1)], so the stub with [failure_rate = 1.0]
    rejects every order and the stub with [failure_rate = 0.0] accepts every
    order; these two settings are modelled.  The external order id and the
    delivery date it draws are parameters of the adapter. *)
Module StubSupplierAdapter.
Record t : Type := mk {
  always_fails : bool;
  drawn_external_order_id : string;
  drawn_estimated_delivery : datetime;
  _orders_placed : list (string * string)
}.

Definition place_order (supplier : Supplier.t) (order : PurchaseOrder.t)
    (self : t) : result OrderConfirmation.t * t :=
  if always_fails self then
    (Ok (OrderConfirmation.mk (PurchaseOrder.id order) "" "FAILED" None
           (Some "Simulated supplier error - please retry")), self)
  else
    (Ok (OrderConfirmation.mk (PurchaseOrder.id order)
           (drawn_external_order_id self) "CONFIRMED"
           (Some (drawn_estimated_delivery self)) None),
     mk (always_fails self) (drawn_external_order_id self)
        (drawn_estimated_delivery self)
        (_orders_placed self
         ++ [(PurchaseOrder.id order, drawn_external_order_id self)])).
End StubSupplierAdapter.

#[export] Instance StubSupplierAdapter_port
  : SupplierAdapter StubSupplierAdapter.t := StubSupplierAdapter.place_order.

(** ** Sequences of ledger operations *)

Inductive LedgerOp : Type :=
  | OpReserve (material_id : string) (quantity : Z) (request_id : string)
              (uuid : string) (now : datetime)
  | OpRelease (reservation_id : string) (now : datetime)
  | OpAdjust (material_id : string) (delta : Z) (reason : string)
             (reference_id : option string) (uuid : string) (now : datetime).

Definition step (op : LedgerOp) (db : Db) : Db :=
  match op with
  | OpReserve material_id quantity request_id uuid now =>
      snd (SQLAlchemyMaterialRepository.reserve
             material_id quantity request_id uuid now db)
  | OpRelease reservation_id now =>
      snd (SQLAlchemyMaterialRepository.release_reservation
             reservation_id now db)
  | OpAdjust material_id delta reason reference_id uuid now =>
      snd (SQLAlchemyMaterialRepository.update_quantity
             material_id delta reason reference_id uuid now db)
  end.

Fixpoint run (ops : list LedgerOp) (db : Db) : Db :=
  match ops with
  | [] => db
  | op :: ops' => run ops' (step op db)
  end.

(** [0 ≤ reserved ≤ quantity] for every material row. *)
Definition ledger_invariant (db : Db) : Prop :=
  ∀ id m, materials db !! id = Some m →
    0 ≤ MaterialModel.reserved m ≤ MaterialModel.quantity m.

(** [quantity ≥ 0] and [reserved ≥ 0] for every material row. *)
Definition quantities_nonneg (db : Db) : Prop :=
  ∀ id m, materials db !! id = Some m →
    0 ≤ MaterialModel.quantity m ∧ 0 ≤ MaterialModel.reserved m.

(** Every stored reservation is for a non-negative quantity. *)
Definition reservations_nonneg (db : Db) : Prop :=
  ∀ id r, reservations db !! id = Some r → 0 ≤ ReservationModel.quantity r.

(** A reserve operation asks for a non-negative quantity. *)
Definition op_nonneg (op : LedgerOp) : Prop :=
  match op with
  | OpReserve _ quantity _ _ _ => 0 ≤ quantity
  | _ => True
  end.

(** An adjustment does not bring the quantity of its material below what
    is reserved of it. *)
Definition op_covers_reserved (op : LedgerOp) (db : Db) : Prop :=
  match op with
  | OpAdjust material_id delta _ _ _ _ =>
      ∀ m, materials db !! material_id = Some m →
        MaterialModel.reserved m ≤ Z.max 0 (MaterialModel.quantity m + delta)
  | _ => True
  end.

Fixpoint covers_reserved (ops : list LedgerOp) (db : Db) : Prop :=
  match ops with
  | [] => True
  | op :: ops' => op_covers_reserved op db ∧ covers_reserved ops' (step op db)
  end.

(** ** Inventory service: the remaining repository code
    (infrastructure/database/repository.py) *)

Definition _entity_to_model (entity : Material.t) : MaterialModel.t :=
  MaterialModel.mk (Material.id entity) (Material.name entity)
    (MaterialUnit_.value (Material.unit entity))
    (Some (Material.category entity))
    (Material.quantity entity) (Material.reserved entity)
    (Material.min_threshold entity)
    (Material.created_at entity) (Material.updated_at entity).

(** A list comprehension whose element expression can raise: the first
    exception ends it. *)
Fixpoint collect {A B : Type} (f : A → result B) (l : list A)
    : result (list B) :=
  match l with
  | [] => Ok []
  | x :: l' =>
      match f x with
      | Raise e => Raise e
      | Ok y =>
          match collect f l' with
          | Raise e => Raise e
          | Ok ys => Ok (y :: ys)
          end
      end
  end.

(** The rows of a table, in the order the database returns them when the
    query has no [ORDER BY]. *)
Definition rows {V : Type} (table : gmap string V) : list V :=
  (map_to_list table).*2.

Module MaterialQueries.
(** [SQLAlchemyMaterialRepository.get_low_stock] *)
Definition get_low_stock (db : Db) : result (list Material.t) :=
  collect _model_to_entity
    (filter
       (λ m, MaterialModel.quantity m - MaterialModel.reserved m
             < MaterialModel.min_threshold m)
       (rows (materials db))).
End MaterialQueries.

Module Reservation.
Record t : Type := mk {
  id : string;
  material_id : string;
  request_id : string;
  quantity : Z;
  status : string;
  created_at : datetime;
  fulfilled_at : option datetime
}.
End Reservation.

Module SQLAlchemyReservationRepository.
(** The [Reservation(...)] built from a row by every reading method. *)
Definition to_entity (model : ReservationModel.t) : Reservation.t :=
  Reservation.mk (ReservationModel.id model)
    (ReservationModel.material_id model) (ReservationModel.request_id model)
    (ReservationModel.quantity model) (ReservationModel.status model)
    (ReservationModel.created_at model) (ReservationModel.fulfilled_at model).

Definition get_by_id (reservation_id : string) (db : Db)
    : option Reservation.t :=
  to_entity <$> reservations db !! reservation_id.

Definition get_by_request (request_id : string) (db : Db)
    : list Reservation.t :=
  to_entity
    <$> filter (λ m, ReservationModel.request_id m = request_id)
          (rows (reservations db)).

Definition get_by_material (material_id : string) (active_only : bool)
    (db : Db) : list Reservation.t :=
  let of_material :=
    filter (λ m, ReservationModel.material_id m = material_id)
      (rows (reservations db)) in
  to_entity
    <$> (if active_only then
           filter (λ m, ReservationModel.status m = "ACTIVE") of_material
         else of_material).

Definition update_status (reservation_id : string) (status : string)
    (now : datetime) (db : Db) : option Reservation.t * Db :=
  match reservations db !! reservation_id with
  | None => (None, db)
  | Some model =>
      let model' :=
        ReservationModel.mk (ReservationModel.id model)
          (ReservationModel.material_id model)
          (ReservationModel.request_id model)
          (ReservationModel.quantity model) status
          (ReservationModel.created_at model)
          (if String.eqb status "FULFILLED" then Some now
           else ReservationModel.fulfilled_at model) in
      (Some (to_entity model'),
       mkDb (materials db) (stock_movements db)
            (<[reservation_id := model']> (reservations db)))
  end.

Definition cancel (reservation_id : string) (now : datetime) (db : Db)
    : bool * Db :=
  let '(result, db') := update_status reservation_id "CANCELLED" now db in
  (bool_decide (is_Some result), db').
End SQLAlchemyReservationRepository.

(** ** Inventory service: the remaining use cases *)

Module MaterialDTO.
Record t : Type := mk {
  id : string;
  name : string;
  unit : string;
  category : string;
  quantity : Z;
  reserved : Z;
  available : Z;
  min_threshold : Z;
  is_low_stock : bool;
  created_at : string;
  updated_at : string
}.
End MaterialDTO.

Definition _material_to_dto (material : Material.t) : MaterialDTO.t :=
  MaterialDTO.mk (Material.id material) (Material.name material)
    (MaterialUnit_.value (Material.unit material))
    (Material.category material) (Material.quantity material)
    (Material.reserved material) (Material.available material)
    (Material.min_threshold material) (Material.is_low_stock material)
    (Material.created_at material) (Material.updated_at material).

Module GetMaterialUseCase.
Definition execute (material_id : string) (db : Db)
    : result (option MaterialDTO.t) :=
  match SQLAlchemyMaterialRepository.get_by_id material_id db with
  | Raise e => Raise e
  | Ok None => Ok None
  | Ok (Some material) => Ok (Some (_material_to_dto material))
  end.
End GetMaterialUseCase.

Module GetLowStockMaterialsUseCase.
Definition execute (db : Db) : result (list MaterialDTO.t) :=
  match MaterialQueries.get_low_stock db with
  | Raise e => Raise e
  | Ok materials => Ok (_material_to_dto <$> materials)
  end.
End GetLowStockMaterialsUseCase.

(** ** Inventory service: gRPC servicer
    (infrastructure/grpc_server/server.py)

    A handler receives the request fields and the call context, on which
    it may set a status code and details; it returns its response, or
    [None] after an error.  The response dictionaries are records. *)

Inductive StatusCode : Type := NOT_FOUND | INTERNAL | ALREADY_EXISTS.

Module ServicerContext.
Record t : Type := mk { code : option StatusCode; details : option string }.

Definition fail (c : StatusCode) (d : string) (context : t) : t :=
  mk (Some c) (Some d).
End ServicerContext.

Module ReserveResponse.
Record t : Type := mk {
  success : bool;
  reservation_id : string;
  reserved_quantity : Z;
  error_message : string
}.
End ReserveResponse.

(** The dictionary built by [_material_dto_to_dict]: the fields of the DTO
    without [is_low_stock]. *)
Module MaterialResponse.
Record t : Type := mk {
  id : string;
  name : string;
  unit : string;
  category : string;
  quantity : Z;
  reserved : Z;
  available : Z;
  min_threshold : Z;
  created_at : string;
  updated_at : string
}.
End MaterialResponse.

Module ReleaseResponse.
Record t : Type := mk { success : bool; error_message : string }.
End ReleaseResponse.

(** [x or ""] for an optional string. *)
Definition or_empty (o : option string) : string :=
  match o with
  | Some s => if truthy s then s else ""
  | None => ""
  end.

Module InventoryServicer.
Section WithPublisher.
Context {P : Type} `{MessagePublisher P}.

(** The response of [CheckAvailability] has the six fields of the result
    of the use case. *)
Definition CheckAvailability (material_id : string) (requested_quantity : Z)
    (now : datetime) (db : Db) (message_publisher : option P)
    (context : ServicerContext.t)
    : option AvailabilityResultDTO.t * option P * ServicerContext.t :=
  let dto := AvailabilityCheckDTO.mk material_id requested_quantity in
  match CheckAvailabilityUseCase.execute db message_publisher dto None true
          now with
  | (Ok result, publisher') => (Some result, publisher', context)
  | (Raise (ValueError msg), publisher') =>
      (None, publisher', ServicerContext.fail NOT_FOUND msg context)
  | (Raise e, publisher') =>
      (None, publisher', ServicerContext.fail INTERNAL (exn_str e) context)
  end.
End WithPublisher.

Definition ReserveMaterial (material_id : string) (quantity : Z)
    (request_id : string) (uuid : string) (now : datetime) (db : Db)
    (context : ServicerContext.t)
    : option ReserveResponse.t * Db * ServicerContext.t :=
  let dto := ReserveMaterialDTO.mk material_id quantity request_id in
  match ReserveMaterialUseCase.execute dto uuid now db with
  | (Ok result, db') =>
      (Some (ReserveResponse.mk
               (ReservationResultDTO.success result)
               (or_empty (ReservationResultDTO.reservation_id result))
               (ReservationResultDTO.reserved_quantity result)
               (or_empty (ReservationResultDTO.error_message result))),
       db', context)
  | (Raise e, db') =>
      (None, db', ServicerContext.fail INTERNAL (exn_str e) context)
  end.

Definition ReleaseReservation (reservation_id : string) (now : datetime)
    (db : Db) (context : ServicerContext.t)
    : option ReleaseResponse.t * Db * ServicerContext.t :=
  let '(success, db') :=
    ReleaseReservationUseCase.execute reservation_id now db in
  (Some (ReleaseResponse.mk success
           (if success then ""
            else "Reservation not found or already released")),
   db', context).

Definition _material_dto_to_dict (dto : MaterialDTO.t) : MaterialResponse.t :=
  MaterialResponse.mk (MaterialDTO.id dto) (MaterialDTO.name dto)
    (MaterialDTO.unit dto) (MaterialDTO.category dto)
    (MaterialDTO.quantity dto) (MaterialDTO.reserved dto)
    (MaterialDTO.available dto) (MaterialDTO.min_threshold dto)
    (MaterialDTO.created_at dto) (MaterialDTO.updated_at dto).

Definition GetMaterial (material_id : string) (db : Db)
    (context : ServicerContext.t)
    : option MaterialResponse.t * ServicerContext.t :=
  match GetMaterialUseCase.execute material_id db with
  | Ok (Some result) => (Some (_material_dto_to_dict result), context)
  | Ok None =>
      (None,
       ServicerContext.fail NOT_FOUND
         ("Material " +:+ material_id +:+ " not found") context)
  | Raise e => (None, ServicerContext.fail INTERNAL (exn_str e) context)
  end.

Definition GetLowStockMaterials (db : Db) (context : ServicerContext.t)
    : option (list MaterialResponse.t) * ServicerContext.t :=
  match GetLowStockMaterialsUseCase.execute db with
  | Ok result => (Some (_material_dto_to_dict <$> result), context)
  | Raise e => (None, ServicerContext.fail INTERNAL (exn_str e) context)
  end.
End InventoryServicer.

(** ** Bookkeeping read off a sequence of ledger operations *)

(** The total of the ACTIVE reservations of one material. *)
Definition active_total (material_id : string)
    (table : gmap string ReservationModel.t) : Z :=
  map_fold
    (λ _ r acc,
       if bool_decide (ReservationModel.material_id r = material_id
                       ∧ ReservationModel.status r = "ACTIVE")
       then acc + ReservationModel.quantity r else acc)
    0 table.

(** What one reservation adds to the total of a material. *)
Definition share (material_id : string) (r : ReservationModel.t) : Z :=
  if bool_decide (ReservationModel.material_id r = material_id
                  ∧ ReservationModel.status r = "ACTIVE")
  then ReservationModel.quantity r else 0.

(** [reserved] of every material is the total of its ACTIVE reservations. *)
Definition reservations_consistent (db : Db) : Prop :=
  ∀ id m, materials db !! id = Some m →
    MaterialModel.reserved m = active_total id (reservations db).

(** Every reserve operation of the sequence draws an id that is not yet
    the id of a reservation. *)
Fixpoint fresh_ids (ops : list LedgerOp) (db : Db) : Prop :=
  match ops with
  | [] => True
  | op :: ops' =>
      match op with
      | OpReserve _ _ _ uuid _ => reservations db !! uuid = None
      | _ => True
      end
      ∧ fresh_ids ops' (step op db)
  end.

(** The stock movement that an operation writes on a ledger holding the
    given materials. *)
Definition movement_of (table : gmap string MaterialModel.t)
    (op : LedgerOp) : option StockMovementModel.t :=
  match op with
  | OpAdjust material_id delta reason reference_id uuid now =>
      if decide (is_Some (table !! material_id)) then
        Some (StockMovementModel.mk uuid material_id delta reason
                reference_id None now)
      else None
  | _ => None
  end.

(** ** Procurement service: the remaining entity and use-case code *)

Module Supplier_.
(** [Supplier.can_supply] *)
Definition can_supply (self : Supplier.t) (material_id : string)
    (materials : list SupplierMaterial.t) : bool :=
  existsb (λ m, String.eqb (SupplierMaterial.material_id m) material_id)
          materials.
End Supplier_.

Module CreateOrderDTO.
Record t : Type := mk {
  material_id : string;
  material_name : string;
  quantity : Z;
  supplier_id : option string;
  triggered_by_request_id : option string
}.
End CreateOrderDTO.

(** The two port methods that only [CreateOrderUseCase] calls:
    [SupplierRepository.get_by_id] and [SupplierAdapter.get_price].  The
    use case passes them the optional supplier id of its DTO. *)
Class SupplierLookup (S : Type) : Type :=
  supplier_get_by_id : option string → S → option Supplier.t.

Class SupplierPricing (A : Type) : Type :=
  get_price : option string → string → A → option Q * A.

(** Truth value of a [Decimal] in a condition: zero is false. *)
Definition truthy_decimal (d : Q) : bool := negb (Qeq_bool d 0).

Module CreateOrderUseCase.
Section WithPorts.
Context {R S A : Type}.
Context `{PurchaseOrderRepository R} `{SupplierLookup S}
        `{SupplierAdapter A} `{SupplierPricing A}.

Definition execute (dto : CreateOrderDTO.t) (uuid : string) (now : datetime)
    (order_repo : R) (supplier_repo : S) (supplier_adapter : A)
    : result (option OrderDTO.t) * R * A :=
  match supplier_get_by_id (CreateOrderDTO.supplier_id dto) supplier_repo with
  | None =>
      (Raise (ValueError
                ("Supplier " +:+ fmt_opt (CreateOrderDTO.supplier_id dto)
                 +:+ " not found")),
       order_repo, supplier_adapter)
  | Some supplier =>
      let '(quoted, adapter1) :=
        get_price (CreateOrderDTO.supplier_id dto)
          (CreateOrderDTO.material_id dto) supplier_adapter in
      let price :=
        match quoted with
        | Some p => if truthy_decimal p then p else 0%Q
        | None => 0%Q
        end in
      let order :=
        snd (PurchaseOrder.calculate_total
               (PurchaseOrder.mk uuid
                  (CreateOrderDTO.material_id dto)
                  (CreateOrderDTO.material_name dto)
                  (Supplier.id supplier) (Supplier.name supplier)
                  (CreateOrderDTO.quantity dto) price 0%Q PENDING None
                  (CreateOrderDTO.triggered_by_request_id dto)
                  None now now)) in
      match place_order supplier order adapter1 with
      | (Raise e, adapter2) => (Raise e, order_repo, adapter2)
      | (Ok confirmation, adapter2) =>
          let order' :=
            if OrderConfirmation.is_success confirmation then
              PurchaseOrder.mark_as_ordered
                (OrderConfirmation.external_order_id confirmation)
                (default now
                   (OrderConfirmation.estimated_delivery confirmation))
                now order
            else PurchaseOrder.set_status CANCELLED order in
          (Ok (Some (_order_to_dto order')),
           order_save order' order_repo, adapter2)
      end
  end.
End WithPorts.
End CreateOrderUseCase.

Module GetOrderUseCase.
Section WithPorts.
Context {R : Type} `{PurchaseOrderRepository R}.

Definition execute (order_id : string) (order_repo : R)
    : option OrderDTO.t :=
  _order_to_dto <$> order_get_by_id order_id order_repo.
End WithPorts.
End GetOrderUseCase.

(** ** Sample data used by the examples below *)

Definition sample_now : datetime := "2024-05-01T08:00:00".

(** A material row [m1] with the given [quantity] and [reserved], and
    [min_threshold = 20]. *)
Definition cement (quantity reserved : Z) : MaterialModel.t :=
  MaterialModel.mk "m1" "Cement" "kg" (Some "binders") quantity reserved 20
    sample_now sample_now.

(** A ledger holding that one row, no movement and no reservation. *)
Definition cement_ledger (quantity reserved : Z) : Db :=
  mkDb {["m1" := cement quantity reserved]} [] ∅.

(** The entity that [get_by_id] loads from that row. *)
Definition cement_entity (quantity reserved : Z) : Material.t :=
  Material.mk "m1" "Cement" KILOGRAMS "binders" quantity reserved 20
    sample_now sample_now.

Definition consume_50 : LedgerOp :=
  OpAdjust "m1" (-50) "CONSUMPTION" None "mv2" sample_now.

(** Reserve 5, receive 30, release the reservation, consume 50. *)
Definition sample_ops : list LedgerOp :=
  [OpReserve "m1" 5 "req1" "res1" sample_now;
   OpAdjust "m1" 30 "PURCHASE" (Some "o1") "mv1" sample_now;
   OpRelease "res1" sample_now;
   consume_50].

(** A request for quantity 0 on material [m1]. *)
Definition zero_request : ReserveMaterialDTO.t :=
  ReserveMaterialDTO.mk "m1" 0 "req1".

(** The two typed errors that the specification gives to [release]. *)
Inductive ReleaseError : Type := NotFound | AlreadyInactive.

(** A reservation [res1] of 10 units of [m1] in the given status. *)
Definition res1 (status : string) : ReservationModel.t :=
  ReservationModel.mk "res1" "m1" "req1" 10 status sample_now None.

(** Material [m1] with quantity 100 and reserved 90, and reservation
    [res1] in the given status. *)
Definition reserved_ledger (status : string) : Db :=
  mkDb {["m1" := cement 100 90]} [] {["res1" := res1 status]}.

(** From quantity 10 and nothing reserved: reserve 5 as [res1], then
    reserve -3 as [res2].  Both requests pass the availability test, and
    [reserved] is 2 with [res1] still ACTIVE for 5. *)
Definition under_reserved_ledger : Db :=
  run [OpReserve "m1" 5 "req1" "res1" sample_now;
       OpReserve "m1" (-3) "req2" "res2" sample_now]
      (cement_ledger 10 0).

(** A check of material [m1] for 50 units. *)
Definition check_50 : AvailabilityCheckDTO.t :=
  AvailabilityCheckDTO.mk "m1" 50.

Definition empty_stub : StubMessagePublisher.t :=
  StubMessagePublisher.mk [] true.

(** An implementation of the port whose [publish] raises. *)
Inductive UnreachablePublisher : Type := unreachable_publisher.

#[export] Instance UnreachablePublisher_port
  : MessagePublisher UnreachablePublisher :=
  λ _ _ _ self, (Raise (ConnectionError "broker unreachable"), self).

(** A connected RabbitMQ publisher whose broker declares exchanges but
    refuses every message. *)
Definition refusing_rabbitmq : RabbitMQPublisher.t :=
  RabbitMQPublisher.mk true ∅
    (RabbitMQPublisher.mk_broker
       (λ _, Ok tt)
       (λ _ _ _, Raise (ConnectionError "broker unreachable")))
    [] [].

(** The selection rule in the words of the specification: keep the
    suppliers having an offer for the material, sort by rating descending
    then unit price ascending, return the first. *)
Definition offer_of (material_id : string)
    (offersBySupplier : gmap string (list SupplierMaterial.t))
    (supplier : Supplier.t) : option SupplierSelector.candidate :=
  match SupplierSelector.material_info material_id
          (default [] (offersBySupplier !! Supplier.id supplier)) with
  | Some offer => Some (supplier, offer)
  | None => None
  end.

Definition selectBest_spec (material_id : string)
    (suppliers : list Supplier.t)
    (offersBySupplier : gmap string (list SupplierMaterial.t))
    : option SupplierSelector.candidate :=
  head (SupplierSelector.sort
          (omap (offer_of material_id offersBySupplier) suppliers)).

(** A supplier and its single offer for material [m1]. *)
Definition supplier_ (id : string) (rating : Q) (is_active : bool)
    : Supplier.t :=
  Supplier.mk id ("Supplier " +:+ id) (id +:+ "@example.org") ""
    rating is_active sample_now.

Definition offer_ (supplier_id : string) (unit_price : Q)
    : SupplierMaterial.t :=
  SupplierMaterial.mk ("sm-" +:+ supplier_id) supplier_id "m1" "Cement"
    unit_price.

(** The three suppliers of the determinism scenario. *)
Definition scenario_suppliers : list Supplier.t :=
  [supplier_ "s1" 4.5 true; supplier_ "s2" 4.8 true; supplier_ "s3" 4.8 true].

Definition scenario_offers : gmap string (list SupplierMaterial.t) :=
  {["s1" := [offer_ "s1" 120]; "s2" := [offer_ "s2" 130];
    "s3" := [offer_ "s3" 125]]}.

(** An inactive supplier with the best rating and price, and an active
    one. *)
Definition mixed_suppliers : list Supplier.t :=
  [supplier_ "s1" 5.0 false; supplier_ "s2" 4.0 true].

Definition mixed_offers : gmap string (list SupplierMaterial.t) :=
  {["s1" := [offer_ "s1" 100]; "s2" := [offer_ "s2" 200]]}.

(** Two active suppliers with the same rating whose retained offers have
    the same price; the first lists a second, cheaper offer for [m1] after
    an offer for another material and its first offer for [m1]. *)
Definition tied_suppliers : list Supplier.t :=
  [supplier_ "s1" 4.5 true; supplier_ "s2" 4.8 true; supplier_ "s3" 4.8 true].

Definition tied_offers : gmap string (list SupplierMaterial.t) :=
  {["s1" := [offer_ "s1" 90];
    "s2" := [SupplierMaterial.mk "sm-sand" "s2" "m2" "Sand" 15;
             offer_ "s2" 125; offer_ "s2" 110];
    "s3" := [offer_ "s3" 125]]}.

(** Order [o1]: 40 units of [m1] from supplier [s3], in the given status. *)
Definition order_o1 (status : OrderStatus) : PurchaseOrder.t :=
  PurchaseOrder.mk "o1" "m1" "Cement" "s3" "Supplier s3" 40 125 5000 status
    (Some "EXT-1") (Some "req1") (Some "2024-05-04T08:00:00")
    sample_now sample_now.

Definition orders_with (status : OrderStatus)
    : gmap string PurchaseOrder.t := {["o1" := order_o1 status]}.

Definition later : datetime := "2024-05-04T09:30:00".

(** The supplier directory of the determinism scenario. *)
Definition scenario_directory : InMemorySupplierRepository.t :=
  InMemorySupplierRepository.mk scenario_suppliers scenario_offers.

(** A shortage of 40 units of [m1]. *)
Definition shortage_40 : ProcessShortageDTO.t :=
  ProcessShortageDTO.mk "m1" "Cement" 40 (Some "req1").

Definition rejecting_stub : StubSupplierAdapter.t :=
  StubSupplierAdapter.mk true "STUB-0A1B2C3D" "2024-05-04T08:00:00" [].

Definition accepting_stub : StubSupplierAdapter.t :=
  StubSupplierAdapter.mk false "STUB-0A1B2C3D" "2024-05-04T08:00:00" [].

(** A connected RabbitMQ publisher whose broker accepts everything. *)
Definition accepting_rabbitmq : RabbitMQPublisher.t :=
  RabbitMQPublisher.mk true ∅
    (RabbitMQPublisher.mk_broker (λ _, Ok tt) (λ _ _ _, Ok tt)) [] [].

Definition sample_event : Message :=
  MaterialShortageEventDTO.mk "m1" "Cement" 10 50 40 None sample_now.

Definition blank_context : ServicerContext.t := ServicerContext.mk None None.

(** A row whose unit is not one of the unit values. *)
Definition gravel_in_tons : MaterialModel.t :=
  MaterialModel.mk "m9" "Gravel" "tons" None 5 0 1 sample_now sample_now.

(** A placement adapter whose [place_order] raises. *)
Inductive TimingOutAdapter : Type := timing_out_adapter.

#[export] Instance TimingOutAdapter_port : SupplierAdapter TimingOutAdapter :=
  λ _ _ self, (Raise (ConnectionError "supplier timed out"), self).

(** A test double for the supplier adapter: it
    quotes a fixed price, if any, and accepts every order without giving an
    estimated delivery, or rejects every order. *)
Module QuotingAdapter.
Record t : Type := mk { quote : option Q; confirms : bool }.

Definition place_order (supplier : Supplier.t) (order : PurchaseOrder.t)
    (self : t) : result OrderConfirmation.t * t :=
  (Ok (if confirms self then
         OrderConfirmation.mk (PurchaseOrder.id order) "EXT-7" "ACCEPTED"
           None None
       else
         OrderConfirmation.mk (PurchaseOrder.id order) "" "REJECTED" None
           (Some "out of stock")), self).

Definition get_price (supplier_id : option string) (material_id : string)
    (self : t) : option Q * t := (quote self, self).
End QuotingAdapter.

#[export] Instance QuotingAdapter_port : SupplierAdapter QuotingAdapter.t :=
  QuotingAdapter.place_order.

#[export] Instance QuotingAdapter_pricing : SupplierPricing QuotingAdapter.t :=
  QuotingAdapter.get_price.

(** Lookup of a supplier by id in the in-memory directory. *)
#[export] Instance InMemorySupplierRepository_lookup
  : SupplierLookup InMemorySupplierRepository.t :=
  λ supplier_id r,
    match supplier_id with
    | Some id =>
        find (λ s, String.eqb (Supplier.id s) id)
             (InMemorySupplierRepository.suppliers r)
    | None => None
    end.

Definition create_40 (supplier_id : option string) : CreateOrderDTO.t :=
  CreateOrderDTO.mk "m1" "Cement" 40 supplier_id None.

(** * Properties *)

(** ** The material ledger *)

Section LedgerSteps.
Implicit Types (db : Db) (op : LedgerOp).

Lemma step_reservations_nonneg op db :
  op_nonneg op → reservations_nonneg db → reservations_nonneg (step op db).
Proof.
  intros Hop Hres. destruct op as [mid q req uuid now|rid now|mid d rs rf uuid now];
    cbn [step op_nonneg] in *.
  - unfold SQLAlchemyMaterialRepository.reserve.
    destruct (materials db !! mid) as [model|]; [|exact Hres].
    destruct (_ <? q); [exact Hres|]. cbn.
    intros id r; cbn. rewrite lookup_insert_Some.
    intros [[_ <-]|[_ Hr]]; [exact Hop|by eapply Hres].
  - unfold SQLAlchemyMaterialRepository.release_reservation.
    destruct (reservations db !! rid) as [r0|] eqn:Hr0; [|exact Hres].
    destruct (negb _); [exact Hres|]. cbn.
    intros id r; cbn. rewrite lookup_insert_Some.
    intros [[_ <-]|[_ Hr]]; [cbn|]; by eapply Hres.
  - unfold SQLAlchemyMaterialRepository.update_quantity.
    destruct (materials db !! mid); exact Hres.
Qed.

Lemma step_quantities_nonneg op db :
  op_nonneg op → quantities_nonneg db → quantities_nonneg (step op db).
Proof.
  intros Hop Hq. destruct op as [mid q req uuid now|rid now|mid d rs rf uuid now];
    cbn [step op_nonneg] in *.
  - unfold SQLAlchemyMaterialRepository.reserve.
    destruct (materials db !! mid) as [model|] eqn:Hm; [|exact Hq].
    destruct (_ <? q); [exact Hq|]. cbn.
    intros id m; cbn. rewrite lookup_insert_Some.
    intros [[_ <-]|[_ Hr]]; [|by eapply Hq].
    cbn. destruct (Hq _ _ Hm). lia.
  - unfold SQLAlchemyMaterialRepository.release_reservation.
    destruct (reservations db !! rid) as [r0|]; [|exact Hq].
    destruct (negb _); [exact Hq|]. cbn.
    destruct (materials db !! ReservationModel.material_id r0)
      as [m0|] eqn:Hm0; [|exact Hq].
    intros id m; cbn. rewrite lookup_insert_Some.
    intros [[_ <-]|[_ Hr]]; [|by eapply Hq].
    cbn. destruct (Hq _ _ Hm0). lia.
  - unfold SQLAlchemyMaterialRepository.update_quantity.
    destruct (materials db !! mid) as [model|] eqn:Hm; [|exact Hq].
    intros id m; cbn. rewrite lookup_insert_Some.
    intros [[_ <-]|[_ Hr]]; [|by eapply Hq].
    cbn. destruct (Hq _ _ Hm). lia.
Qed.

Lemma step_ledger_invariant op db :
  op_nonneg op → op_covers_reserved op db → reservations_nonneg db →
  ledger_invariant db → ledger_invariant (step op db).
Proof.
  intros Hop Hcov Hres Hinv.
  destruct op as [mid q req uuid now|rid now|mid d rs rf uuid now];
    cbn [step op_nonneg op_covers_reserved] in *.
  - unfold SQLAlchemyMaterialRepository.reserve.
    destruct (materials db !! mid) as [model|] eqn:Hm; [|exact Hinv].
    destruct (_ <? q) eqn:Hlt; [exact Hinv|]. cbn.
    apply Z.ltb_ge in Hlt.
    intros id m; cbn. rewrite lookup_insert_Some.
    intros [[_ <-]|[_ Hr]]; [|by eapply Hinv].
    cbn. pose proof (Hinv _ _ Hm). lia.
  - unfold SQLAlchemyMaterialRepository.release_reservation.
    destruct (reservations db !! rid) as [r0|] eqn:Hr0; [|exact Hinv].
    destruct (negb _); [exact Hinv|]. cbn.
    destruct (materials db !! ReservationModel.material_id r0)
      as [m0|] eqn:Hm0; [|exact Hinv].
    intros id m; cbn. rewrite lookup_insert_Some.
    intros [[_ <-]|[_ Hr]]; [|by eapply Hinv].
    cbn. pose proof (Hinv _ _ Hm0). pose proof (Hres _ _ Hr0). lia.
  - unfold SQLAlchemyMaterialRepository.update_quantity.
    destruct (materials db !! mid) as [model|] eqn:Hm; [|exact Hinv].
    intros id m; cbn. rewrite lookup_insert_Some.
    intros [[_ <-]|[_ Hr]]; [|by eapply Hinv].
    cbn. pose proof (Hinv _ _ Hm). pose proof (Hcov _ eq_refl). lia.
Qed.

Lemma ledger_invariant_quantities_nonneg db :
  ledger_invariant db → quantities_nonneg db.
Proof. intros Hinv id m Hm. pose proof (Hinv _ _ Hm). lia. Qed.

Lemma run_nonneg ops db :
  Forall op_nonneg ops → reservations_nonneg db → quantities_nonneg db →
  reservations_nonneg (run ops db) ∧ quantities_nonneg (run ops db).
Proof.
  intros Hops. revert db.
  induction Hops as [|op ops Hop _ IH]; intros db Hres Hq; [done|].
  cbn [run]. apply IH.
  - by apply step_reservations_nonneg.
  - by apply step_quantities_nonneg.
Qed.

Lemma run_ledger_invariant ops db :
  Forall op_nonneg ops → covers_reserved ops db →
  reservations_nonneg db → ledger_invariant db →
  ledger_invariant (run ops db).
Proof.
  intros Hops. revert db.
  induction Hops as [|op ops Hop _ IH]; intros db Hcov Hres Hinv; [done|].
  cbn [run]. destruct Hcov as [Hc Hcov]. apply IH; [done| |].
  - by apply step_reservations_nonneg.
  - by apply step_ledger_invariant.
Qed.
End LedgerSteps.

(** C1, as stated, fails: from quantity 100 and reserved 90, an adjustment
    of -50 leaves quantity 50 and reserved 90.  The invariant holds before
    the operation and not after it. *)
Lemma adjust_breaks_ledger_invariant :
  ledger_invariant (cement_ledger 100 90)
  ∧ materials (step consume_50 (cement_ledger 100 90)) !! "m1"
    = Some (cement 50 90)
  ∧ ¬ ledger_invariant (step consume_50 (cement_ledger 100 90))
  ∧ Material.update_quantity (-50) CONSUMPTION sample_now
      (cement_entity 100 90) = (50, cement_entity 50 90).
Proof.
  split; [|split; [|split]].
  - intros id m. unfold cement_ledger; cbn.
    rewrite lookup_singleton_Some. intros [_ <-]. cbn. lia.
  - reflexivity.
  - intros Hinv. specialize (Hinv "m1" (cement 50 90) eq_refl).
    cbn in Hinv. lia.
  - reflexivity.
Qed.

(** C1, amended.  Start from a ledger with [0 ≤ reserved ≤ quantity] for
    every material and non-negative reservation quantities, and run any
    sequence of reserve, release and adjust operations whose reserve
    requests are non-negative.  After every operation of the sequence (after
    its first [k] operations, for every [k]) [quantity ≥ 0] and
    [reserved ≥ 0] hold for every material, and [reserved ≤ quantity] holds
    as well provided no adjustment so far brought a quantity below the
    reserved amount: the adjustment itself never touches [reserved]. *)
Theorem ledger_invariant_amended (ops : list LedgerOp) (db : Db) (k : nat) :
  ledger_invariant db →
  reservations_nonneg db →
  Forall op_nonneg ops →
  quantities_nonneg (run (take k ops) db)
  ∧ (covers_reserved (take k ops) db →
     ledger_invariant (run (take k ops) db)).
Proof.
  intros Hinv Hres Hops.
  assert (Hk : Forall op_nonneg (take k ops)) by by apply Forall_take.
  split.
  - apply run_nonneg; [done|done|].
    by apply ledger_invariant_quantities_nonneg.
  - intros Hcov. by apply run_ledger_invariant.
Qed.

Lemma ledger_invariant_amended_witness :
  quantities_nonneg (run (take 4 sample_ops) (cement_ledger 100 90))
  ∧ ledger_invariant (run (take 3 sample_ops) (cement_ledger 100 90)).
Proof.
  assert (Hinv : ledger_invariant (cement_ledger 100 90)).
  { intros id m. unfold cement_ledger; cbn.
    rewrite lookup_singleton_Some. intros [_ <-]. cbn. lia. }
  assert (Hres : reservations_nonneg (cement_ledger 100 90)).
  { intros id r. unfold cement_ledger; cbn. by rewrite lookup_empty. }
  assert (Hops : Forall op_nonneg sample_ops).
  { repeat constructor; cbn; lia. }
  split.
  - apply (ledger_invariant_amended sample_ops _ 4 Hinv Hres Hops).
  - apply (ledger_invariant_amended sample_ops _ 3 Hinv Hres Hops).
    cbn. repeat split; try done.
    intros m. vm_compute. intros [= <-]. cbn. discriminate.
Defined.

(** ** Reservation *)

Lemma model_to_entity_fields (model : MaterialModel.t) (m : Material.t) :
  _model_to_entity model = Ok m →
  Material.id m = MaterialModel.id model
  ∧ Material.name m = MaterialModel.name model
  ∧ Material.quantity m = MaterialModel.quantity model
  ∧ Material.reserved m = MaterialModel.reserved model.
Proof.
  unfold _model_to_entity.
  destruct (MaterialUnit_.of_value _); [|discriminate].
  by intros [= <-].
Qed.

Lemma get_by_id_Some (mid : string) (db : Db) (m : Material.t) :
  SQLAlchemyMaterialRepository.get_by_id mid db = Ok (Some m) ↔
  ∃ model, materials db !! mid = Some model ∧ _model_to_entity model = Ok m.
Proof.
  unfold SQLAlchemyMaterialRepository.get_by_id. split.
  - destruct (materials db !! mid) as [model|]; [|discriminate].
    destruct (_model_to_entity model) eqn:He; [|discriminate].
    intros [= <-]. eauto.
  - intros (model & -> & ->). reflexivity.
Qed.

(** Outside the over-reserved corner (a request that is not positive on a
    material with [reserved > quantity]) the use case accepts a request
    exactly when [available ≥ quantity], adds the quantity to [reserved]
    and stores an ACTIVE reservation; otherwise it reports the shortage and
    changes nothing. *)
Lemma reserve_use_case_regular (dto : ReserveMaterialDTO.t)
    (uuid : string) (now : datetime) (db : Db)
    (model : MaterialModel.t) (m : Material.t) :
  let mid := ReserveMaterialDTO.material_id dto in
  let qty := ReserveMaterialDTO.quantity dto in
  materials db !! mid = Some model →
  _model_to_entity model = Ok m →
  truthy uuid = true →
  0 < qty ∨ MaterialModel.reserved model ≤ MaterialModel.quantity model →
  ReserveMaterialUseCase.execute dto uuid now db =
    if Material.available m >=? qty then
      (Ok (ReservationResultDTO.mk true (Some uuid) qty None),
       mkDb (<[mid := MaterialModel.set_reserved
                        (MaterialModel.reserved model + qty) now model]>
               (materials db))
            (stock_movements db)
            (<[uuid := ReservationModel.mk uuid mid
                         (ReserveMaterialDTO.request_id dto) qty
                         "ACTIVE" now None]> (reservations db)))
    else
      (Ok (ReservationResultDTO.mk false None 0
             (Some (ReserveMaterialUseCase.insufficient_message
                      (Material.available m) qty))), db).
Proof.
  intros mid qty Hrow Hent Huuid Hreg.
  destruct (model_to_entity_fields _ _ Hent) as (_ & _ & Hq & Hr).
  unfold ReserveMaterialUseCase.execute. fold mid qty.
  rewrite (proj2 (get_by_id_Some mid db m)) by eauto.
  unfold Material.can_reserve.
  destruct (Material.available m >=? qty) eqn:Hav; cbn [negb]; [|done].
  unfold SQLAlchemyMaterialRepository.reserve. rewrite Hrow.
  assert (Hge : (MaterialModel.quantity model - MaterialModel.reserved model
                 <? qty) = false).
  { apply Z.ltb_ge. unfold Material.available in Hav.
    rewrite Z.geb_leb in Hav. apply Z.leb_le in Hav.
    rewrite Hq, Hr in Hav. lia. }
  rewrite Hge, Huuid. reflexivity.
Qed.

Lemma reserve_use_case_not_found (dto : ReserveMaterialDTO.t)
    (uuid : string) (now : datetime) (db : Db) :
  materials db !! ReserveMaterialDTO.material_id dto = None →
  ReserveMaterialUseCase.execute dto uuid now db =
    (Ok (ReservationResultDTO.mk false None 0
           (Some (ReserveMaterialUseCase.not_found_message
                    (ReserveMaterialDTO.material_id dto)))), db).
Proof.
  intros Hrow. unfold ReserveMaterialUseCase.execute,
    SQLAlchemyMaterialRepository.get_by_id. by rewrite Hrow.
Qed.

(** C6 at its failing input.  The ledger with quantity 5 and reserved 10 is
    reached from quantity 10 by reserving 10 and consuming 5.  There
    [available] is 0, a request for 0 satisfies [available ≥ quantity] and
    the entity's own [reserve] accepts it, but the use case answers
    failure, with neither the not-found nor the insufficient-stock message:
    the repository recomputes availability without the clamp at 0. *)
Theorem reserve_rejects_covered_request :
  materials
    (run [OpReserve "m1" 10 "req0" "res0" sample_now;
          OpAdjust "m1" (-5) "CONSUMPTION" None "mv1" sample_now]
         (cement_ledger 10 0)) !! "m1" = Some (cement 5 10)
  ∧ SQLAlchemyMaterialRepository.get_by_id "m1" (cement_ledger 5 10)
    = Ok (Some (cement_entity 5 10))
  ∧ Material.available (cement_entity 5 10) = 0
  ∧ Material.can_reserve (cement_entity 5 10) 0 = true
  ∧ fst (Material.reserve 0 sample_now (cement_entity 5 10)) = true
  ∧ SQLAlchemyMaterialRepository.reserve "m1" 0 "req1" "res1" sample_now
      (cement_ledger 5 10) = (None, cement_ledger 5 10)
  ∧ ReserveMaterialUseCase.execute zero_request "res1" sample_now
      (cement_ledger 5 10)
    = (Ok (ReservationResultDTO.mk false None 0
             (Some "Failed to create reservation")), cement_ledger 5 10).
Proof. repeat split; reflexivity. Qed.

(** ** Release *)

(** C7, as stated, fails twice.  Releasing a cancelled reservation and
    releasing an unknown one return the same value [False], so no reading
    of the returned value yields [AlreadyInactive] for the first and
    [NotFound] for the second.  And the decrement is clamped: with
    [reserved = 2] and an ACTIVE reservation of 5, the release leaves
    [reserved = 0], which is not [reserved] less the reservation's
    quantity. *)
Lemma release_errors_indistinguishable :
  SQLAlchemyMaterialRepository.release_reservation "res1" sample_now
    (reserved_ledger "CANCELLED") = (false, reserved_ledger "CANCELLED")
  ∧ SQLAlchemyMaterialRepository.release_reservation "res2" sample_now
      (reserved_ledger "CANCELLED") = (false, reserved_ledger "CANCELLED")
  ∧ (¬ ∃ error_of : bool → ReleaseError,
         error_of (fst (SQLAlchemyMaterialRepository.release_reservation
                          "res1" sample_now (reserved_ledger "CANCELLED")))
         = AlreadyInactive
         ∧ error_of (fst (SQLAlchemyMaterialRepository.release_reservation
                            "res2" sample_now (reserved_ledger "CANCELLED")))
           = NotFound)
  ∧ materials under_reserved_ledger !! "m1" = Some (cement 10 2)
  ∧ reservations under_reserved_ledger !! "res1"
    = Some (ReservationModel.mk "res1" "m1" "req1" 5 "ACTIVE" sample_now None)
  ∧ materials
      (snd (SQLAlchemyMaterialRepository.release_reservation "res1"
              sample_now under_reserved_ledger)) !! "m1"
    = Some (cement 10 0)
  ∧ 0 ≠ 2 - 5.
Proof.
  assert (E1 : SQLAlchemyMaterialRepository.release_reservation "res1"
                 sample_now (reserved_ledger "CANCELLED")
               = (false, reserved_ledger "CANCELLED")) by reflexivity.
  assert (E2 : SQLAlchemyMaterialRepository.release_reservation "res2"
                 sample_now (reserved_ledger "CANCELLED")
               = (false, reserved_ledger "CANCELLED")) by reflexivity.
  split; [exact E1|]. split; [exact E2|].
  split; [|by repeat split].
  intros (error_of & H1 & H2). rewrite E1 in H1. rewrite E2 in H2.
  cbn in H1, H2. congruence.
Qed.

(** C7, amended.  Releasing an ACTIVE reservation returns [True], sets the
    reservation to CANCELLED, and sets the [reserved] of its material to
    [max(0, reserved − quantity)], which is [reserved − quantity] whenever
    the reservation's quantity does not exceed [reserved]; no other row
    changes.  Releasing a reservation that is not ACTIVE, or an unknown
    reservation id, returns [False] — the same value in both cases — and
    changes nothing. *)
Theorem release_reservation_amended (rid : string) (now : datetime) (db : Db) :
  (∀ r, reservations db !! rid = Some r →
        ReservationModel.status r = "ACTIVE" →
        let out :=
          SQLAlchemyMaterialRepository.release_reservation rid now db in
        fst out = true
        ∧ reservations (snd out)
          = <[rid := ReservationModel.set_status "CANCELLED" r]>
              (reservations db)
        ∧ stock_movements (snd out) = stock_movements db
        ∧ (materials db !! ReservationModel.material_id r = None →
           materials (snd out) = materials db)
        ∧ ∀ m, materials db !! ReservationModel.material_id r = Some m →
            materials (snd out)
            = <[ReservationModel.material_id r :=
                  MaterialModel.set_reserved
                    (Z.max 0 (MaterialModel.reserved m
                              - ReservationModel.quantity r)) now m]>
                (materials db)
            ∧ (ReservationModel.quantity r ≤ MaterialModel.reserved m →
               MaterialModel.reserved
                 <$> materials (snd out) !! ReservationModel.material_id r
               = Some (MaterialModel.reserved m
                       - ReservationModel.quantity r)))
  ∧ (∀ r, reservations db !! rid = Some r →
          ReservationModel.status r ≠ "ACTIVE" →
          SQLAlchemyMaterialRepository.release_reservation rid now db
          = (false, db))
  ∧ (reservations db !! rid = None →
     SQLAlchemyMaterialRepository.release_reservation rid now db
     = (false, db)).
Proof.
  unfold SQLAlchemyMaterialRepository.release_reservation.
  split; [|split].
  - intros r Hr Hact. rewrite Hr, Hact. cbn.
    split; [done|]. split; [done|]. split; [done|]. split.
    + by intros ->.
    + intros m Hm. rewrite Hm. split; [done|].
      intros Hle. rewrite lookup_insert_eq. cbn. f_equal. lia.
  - intros r Hr Hact. rewrite Hr.
    destruct (String.eqb_spec (ReservationModel.status r) "ACTIVE"); done.
  - by intros ->.
Qed.

Lemma release_reservation_amended_witness :
  fst (SQLAlchemyMaterialRepository.release_reservation "res1" sample_now
         (reserved_ledger "ACTIVE")) = true
  ∧ MaterialModel.reserved
      <$> materials
            (snd (SQLAlchemyMaterialRepository.release_reservation "res1"
                    sample_now (reserved_ledger "ACTIVE"))) !! "m1"
    = Some 80
  ∧ SQLAlchemyMaterialRepository.release_reservation "res1" sample_now
      (reserved_ledger "FULFILLED") = (false, reserved_ledger "FULFILLED")
  ∧ SQLAlchemyMaterialRepository.release_reservation "res2" sample_now
      (reserved_ledger "ACTIVE") = (false, reserved_ledger "ACTIVE").
Proof.
  destruct (release_reservation_amended "res1" sample_now
              (reserved_ledger "ACTIVE")) as (Hact & _ & _).
  destruct (Hact (res1 "ACTIVE") eq_refl eq_refl)
    as (Hret & _ & _ & _ & Hmat).
  destruct (Hmat (cement 100 90) eq_refl) as (_ & Hdec).
  destruct (release_reservation_amended "res1" sample_now
              (reserved_ledger "FULFILLED")) as (_ & Hinact & _).
  destruct (release_reservation_amended "res2" sample_now
              (reserved_ledger "ACTIVE")) as (_ & _ & Hunk).
  split; [exact Hret|]. split; [apply Hdec; cbn; lia|].
  split; [apply (Hinact (res1 "FULFILLED") eq_refl); discriminate|].
  apply Hunk. reflexivity.
Defined.

(** ** Availability check *)

Section AvailabilityCheck.
Context {P : Type} {port : MessagePublisher P}.
Implicit Types (db : Db) (dto : AvailabilityCheckDTO.t) (m : Material.t).

(** The check of an existing material, one case per path of the code. *)
Lemma check_execute_found db (publisher : option P) dto rid flag now m :
  SQLAlchemyMaterialRepository.get_by_id
    (AvailabilityCheckDTO.material_id dto) db = Ok (Some m) →
  let requested := AvailabilityCheckDTO.requested_quantity dto in
  let shortage := Z.max 0 (requested - Material.available m) in
  let result :=
    AvailabilityResultDTO.mk (Material.id m) (Material.name m)
      (Material.available m >=? requested) (Material.available m)
      requested shortage in
  CheckAvailabilityUseCase.execute db publisher dto rid flag now =
    match publisher with
    | Some p =>
        if (shortage >? 0) && flag then
          let out :=
            publish "materials.events" "material.shortage"
              (CheckAvailabilityUseCase.shortage_event m dto shortage rid now)
              p in
          (match fst out with Ok _ => Ok result | Raise e => Raise e end,
           Some (snd out))
        else (Ok result, Some p)
    | None => (Ok result, None)
    end.
Proof.
  intros Hm requested shortage result.
  unfold CheckAvailabilityUseCase.execute. rewrite Hm.
  fold requested shortage result.
  destruct publisher as [p|]; destruct ((shortage >? 0) && flag); try done.
  cbn zeta. by destruct (publish _ _ _ p) as [[b|e] p'].
Qed.
End AvailabilityCheck.

Lemma cement_get_by_id (quantity reserved : Z) :
  SQLAlchemyMaterialRepository.get_by_id "m1" (cement_ledger quantity reserved)
  = Ok (Some (cement_entity quantity reserved)).
Proof. reflexivity. Qed.

(** C9, as stated, fails: with quantity 100, reserved 90 and 50 requested
    the shortage is 40, yet nothing is published when the caller passes
    [publish_shortage=False], nor when the use case has no publisher (the
    default of its constructor). *)
Lemma shortage_without_event :
  CheckAvailabilityUseCase.execute (cement_ledger 100 90) (Some empty_stub)
    check_50 None false sample_now
  = (Ok (AvailabilityResultDTO.mk "m1" "Cement" false 10 50 40),
     Some empty_stub)
  ∧ CheckAvailabilityUseCase.execute (P := StubMessagePublisher.t)
      (cement_ledger 100 90) None check_50 None true sample_now
    = (Ok (AvailabilityResultDTO.mk "m1" "Cement" false 10 50 40), None).
Proof. split; reflexivity. Qed.

(** C9, amended.  For an existing material the check returns
    [is_available = (available ≥ requested)] and
    [shortage = max(0, requested − available)]; it publishes exactly one
    shortage event, carrying that shortage, when [shortage > 0] and
    [publish_shortage] is set and a publisher is configured, and publishes
    nothing otherwise.  Publication is observed on the in-memory
    publisher, which records every message it is given. *)
Theorem check_availability_amended (db : Db)
    (publisher : option StubMessagePublisher.t)
    (dto : AvailabilityCheckDTO.t) (rid : option string) (flag : bool)
    (now : datetime) (m : Material.t) :
  SQLAlchemyMaterialRepository.get_by_id
    (AvailabilityCheckDTO.material_id dto) db = Ok (Some m) →
  let requested := AvailabilityCheckDTO.requested_quantity dto in
  let shortage := Z.max 0 (requested - Material.available m) in
  let out := CheckAvailabilityUseCase.execute db publisher dto rid flag now in
  (∃ r, fst out = Ok r
        ∧ (AvailabilityResultDTO.is_available r = true
           ↔ requested ≤ Material.available m)
        ∧ AvailabilityResultDTO.available_quantity r = Material.available m
        ∧ AvailabilityResultDTO.shortage r = shortage)
  ∧ match publisher with
    | None => snd out = None
    | Some p =>
        ∃ p', snd out = Some p'
          ∧ StubMessagePublisher.messages p'
            = (StubMessagePublisher.messages p
               ++ if decide (0 < shortage ∧ flag = true) then
                    [StubMessagePublisher.mk_entry
                       "materials.events" "material.shortage"
                       (MaterialShortageEventDTO.mk
                          (Material.id m) (Material.name m)
                          (Material.available m) requested shortage rid now)]
                  else [])%list
    end.
Proof.
  intros Hm requested shortage out. subst out.
  rewrite (check_execute_found _ _ _ _ _ _ _ Hm).
  fold requested shortage.
  assert (Hres : ∀ (A : Type) (x : A) r,
    r = AvailabilityResultDTO.mk (Material.id m) (Material.name m)
          (Material.available m >=? requested) (Material.available m)
          requested shortage →
    ∃ r0, fst (Ok r, x) = Ok r0
      ∧ (AvailabilityResultDTO.is_available r0 = true
         ↔ requested ≤ Material.available m)
      ∧ AvailabilityResultDTO.available_quantity r0 = Material.available m
      ∧ AvailabilityResultDTO.shortage r0 = shortage).
  { intros A x r ->. eexists; split; [reflexivity|]. cbn.
    rewrite Z.geb_leb, Z.leb_le. done. }
  destruct publisher as [p|]; [|split; [by eapply Hres|done]].
  destruct (shortage >? 0) eqn:Hs; destruct flag; cbn [andb].
  - split; [by eapply Hres|]. eexists; split; [reflexivity|]. cbn.
    rewrite decide_True; [done|]. split; [|done].
    apply Z.gtb_lt in Hs. lia.
  - split; [by eapply Hres|]. eexists; split; [reflexivity|].
    rewrite decide_False; [by rewrite app_nil_r|]. by intros [_ ?].
  - split; [by eapply Hres|]. eexists; split; [reflexivity|].
    rewrite decide_False; [by rewrite app_nil_r|].
    intros [? _]. pose proof (Zgt_cases shortage 0) as Hc.
    rewrite Hs in Hc. lia.
  - split; [by eapply Hres|]. eexists; split; [reflexivity|].
    rewrite decide_False; [by rewrite app_nil_r|]. by intros [_ ?].
Qed.

Lemma check_availability_amended_witness :
  ∃ r p',
    CheckAvailabilityUseCase.execute (cement_ledger 100 90) (Some empty_stub)
      check_50 (Some "req1") true sample_now = (Ok r, Some p')
    ∧ AvailabilityResultDTO.shortage r = 40
    ∧ StubMessagePublisher.messages p'
      = [StubMessagePublisher.mk_entry "materials.events" "material.shortage"
           (MaterialShortageEventDTO.mk "m1" "Cement" 10 50 40 (Some "req1")
              sample_now)].
Proof.
  destruct (check_availability_amended (cement_ledger 100 90)
              (Some empty_stub) check_50 (Some "req1") true sample_now
              (cement_entity 100 90) (cement_get_by_id 100 90))
    as [(r & Hr & _ & _ & Hs) (p' & Hp & Hmsg)].
  exists r, p'. split; [|split].
  - rewrite (surjective_pairing (CheckAvailabilityUseCase.execute _ _ _ _ _ _)).
    by rewrite Hr, Hp.
  - exact Hs.
  - exact Hmsg.
Defined.

(** C10.  Whatever the publisher, the check of an existing material with
    a shortage ([requested] above the available quantity) and
    [publish_shortage] set hands the publisher exactly one event, on
    [materials.events] with routing key [material.shortage], and the
    [current_quantity] of that event is the material's available quantity
    [max(0, quantity − reserved)], not its on-hand quantity; in every other
    case the publisher is not called. *)
Theorem shortage_event_current_quantity {P : Type} {port : MessagePublisher P}
    (db : Db) (p : P) (dto : AvailabilityCheckDTO.t) (rid : option string)
    (flag : bool) (now : datetime) (m : Material.t) :
  SQLAlchemyMaterialRepository.get_by_id
    (AvailabilityCheckDTO.material_id dto) db = Ok (Some m) →
  let requested := AvailabilityCheckDTO.requested_quantity dto in
  let available := Z.max 0 (Material.quantity m - Material.reserved m) in
  let shortage := Z.max 0 (requested - available) in
  let out := CheckAvailabilityUseCase.execute db (Some p) dto rid flag now in
  snd out
  = if (shortage >? 0) && flag then
      Some (snd (publish "materials.events" "material.shortage"
                   (MaterialShortageEventDTO.mk (Material.id m)
                      (Material.name m) available requested shortage rid now)
                   p))
    else Some p.
Proof.
  intros Hm requested available shortage out. subst out.
  rewrite (check_execute_found _ _ _ _ _ _ _ Hm).
  change (Material.available m) with available.
  fold requested. fold shortage.
  by destruct ((shortage >? 0) && flag).
Qed.

Lemma shortage_event_current_quantity_witness :
  snd (CheckAvailabilityUseCase.execute (cement_ledger 100 90)
         (Some empty_stub) check_50 None true sample_now)
  = Some (StubMessagePublisher.mk
            [StubMessagePublisher.mk_entry "materials.events"
               "material.shortage"
               (MaterialShortageEventDTO.mk "m1" "Cement" 10 50 40 None
                  sample_now)]
            true).
Proof.
  exact (shortage_event_current_quantity (cement_ledger 100 90) empty_stub
           check_50 None true sample_now (cement_entity 100 90)
           (cement_get_by_id 100 90)).
Defined.

(** The scenario of C10 evaluated: the recorded event reports 10, not 100. *)
Example shortage_event_reports_10 :
  StubMessagePublisher.messages
    <$> snd (CheckAvailabilityUseCase.execute (cement_ledger 100 90)
               (Some empty_stub) check_50 None true sample_now)
  = Some [StubMessagePublisher.mk_entry "materials.events" "material.shortage"
            (MaterialShortageEventDTO.mk "m1" "Cement" 10 50 40 None
               sample_now)].
Proof. reflexivity. Qed.

(** ** Publication failures *)

(** The RabbitMQ publisher never raises: it answers [True] after handing the
    message to the broker, and otherwise answers [False] after writing an
    error to its log, delivering nothing. *)
Lemma rabbitmq_publish_total (exchange routing_key : string)
    (message : Message) (self : RabbitMQPublisher.t) :
  ∃ b self',
    RabbitMQPublisher.publish exchange routing_key message self
    = (Ok b, self')
    ∧ (b = false →
       RabbitMQPublisher.delivered self' = RabbitMQPublisher.delivered self
       ∧ ∃ text, last (RabbitMQPublisher.log self')
                 = Some (RabbitMQPublisher.ERROR, text))
    ∧ (b = true →
       RabbitMQPublisher.delivered self'
       = (RabbitMQPublisher.delivered self
          ++ [(exchange, routing_key, message)])%list).
Proof.
  unfold RabbitMQPublisher.publish.
  destruct (RabbitMQPublisher.channel self) eqn:Hch; cbn [negb].
  2:{ eexists _, _. split; [reflexivity|]. split; [|discriminate].
      intros _. split; [done|]. eexists. cbn. by rewrite last_snoc. }
  unfold RabbitMQPublisher.publish_try.
  destruct (decide (exchange ∈ RabbitMQPublisher._exchanges self)) as [Hin|Hin].
  - destruct (RabbitMQPublisher.exchange_publish _ _ _ _) as [[]|e].
    + eexists _, _. split; [reflexivity|]. split; [discriminate|done].
    + eexists _, _. split; [reflexivity|]. split; [|discriminate].
      intros _. split; [done|]. eexists. cbn. by rewrite last_snoc.
  - unfold RabbitMQPublisher.declare_exchange. rewrite Hch. cbn [negb].
    destruct (RabbitMQPublisher.channel_declare_exchange _ _) as [[]|e0].
    + cbn [RabbitMQPublisher.logged RabbitMQPublisher.broker].
      destruct (RabbitMQPublisher.exchange_publish _ _ _ _) as [[]|e'].
      * eexists _, _. split; [reflexivity|]. split; [discriminate|done].
      * eexists _, _. split; [reflexivity|]. split; [|discriminate].
        intros _. split; [done|]. eexists. cbn. by rewrite last_snoc.
    + eexists _, _. split; [reflexivity|]. split; [|discriminate].
      intros _. split; [done|]. eexists. cbn. by rewrite last_snoc.
Qed.

(** C4, as stated, fails: when the publisher raises, the check raises the
    same exception instead of returning its result. *)
Lemma check_propagates_publisher_exception :
  CheckAvailabilityUseCase.execute (cement_ledger 100 90)
    (Some unreachable_publisher) check_50 None true sample_now
  = (Raise (ConnectionError "broker unreachable"), Some unreachable_publisher).
Proof. reflexivity. Qed.

(** C4, amended.  With the RabbitMQ publisher, whatever the state of the
    connection and whatever the broker answers, the check of an existing
    material returns its availability result; when the publication of the
    shortage event fails, the publisher has reported it by returning
    [False] after logging an error, and the check ignores that value.  (An
    exception raised by a publisher is not caught by the check.) *)
Theorem check_survives_publish_failure (db : Db) (p : RabbitMQPublisher.t)
    (dto : AvailabilityCheckDTO.t) (rid : option string) (flag : bool)
    (now : datetime) (m : Material.t) :
  SQLAlchemyMaterialRepository.get_by_id
    (AvailabilityCheckDTO.material_id dto) db = Ok (Some m) →
  let requested := AvailabilityCheckDTO.requested_quantity dto in
  let shortage := Z.max 0 (requested - Material.available m) in
  let out := CheckAvailabilityUseCase.execute db (Some p) dto rid flag now in
  fst out
  = Ok (AvailabilityResultDTO.mk (Material.id m) (Material.name m)
          (Material.available m >=? requested) (Material.available m)
          requested shortage)
  ∧ (0 < shortage → flag = true →
     fst (RabbitMQPublisher.publish "materials.events" "material.shortage"
            (CheckAvailabilityUseCase.shortage_event m dto shortage rid now)
            p) = Ok false →
     ∃ p' text,
       snd out = Some p'
       ∧ last (RabbitMQPublisher.log p')
         = Some (RabbitMQPublisher.ERROR, text)
       ∧ RabbitMQPublisher.delivered p' = RabbitMQPublisher.delivered p).
Proof.
  intros Hm requested shortage out. subst out.
  rewrite (check_execute_found _ _ _ _ _ _ _ Hm).
  fold requested shortage.
  destruct (rabbitmq_publish_total "materials.events" "material.shortage"
              (CheckAvailabilityUseCase.shortage_event m dto shortage rid now)
              p) as (b & p' & Hpub & Hfalse & _).
  unfold publish, RabbitMQPublisher_port. split.
  - destruct (_ && flag); [|done]. cbn zeta. by rewrite Hpub.
  - intros Hs -> Hfail. rewrite Hpub in Hfail. cbn in Hfail.
    injection Hfail as ->. destruct (Hfalse eq_refl) as (Hdel & text & Hlog).
    assert ((shortage >? 0) = true) as -> by (apply Z.gtb_lt; lia).
    cbn [andb]. cbn zeta. rewrite Hpub. cbn [snd]. eauto.
Qed.

Lemma check_survives_publish_failure_witness :
  fst (CheckAvailabilityUseCase.execute (cement_ledger 100 90)
         (Some refusing_rabbitmq) check_50 None true sample_now)
  = Ok (AvailabilityResultDTO.mk "m1" "Cement" false 10 50 40)
  ∧ ∃ p' text,
      snd (CheckAvailabilityUseCase.execute (cement_ledger 100 90)
             (Some refusing_rabbitmq) check_50 None true sample_now)
      = Some p'
      ∧ last (RabbitMQPublisher.log p') = Some (RabbitMQPublisher.ERROR, text)
      ∧ RabbitMQPublisher.delivered p' = [].
Proof.
  destruct (check_survives_publish_failure (cement_ledger 100 90)
              refusing_rabbitmq check_50 None true sample_now
              (cement_entity 100 90) (cement_get_by_id 100 90))
    as [Hres Hlog].
  split; [exact Hres|].
  apply Hlog; [vm_compute; reflexivity|reflexivity|vm_compute; reflexivity].
Defined.

(** ** Supplier selection *)

Section Selector.
Import SupplierSelector.
Implicit Types (a b c : Q * Q) (x y : candidate) (l : list candidate).

Local Ltac by_compare :=
  unfold key_lt; cbn [fst snd];
  repeat match goal with
         | |- context [(?u ?= ?v)%Q] =>
             destruct (Qcompare_spec u v)
         end;
  intros; try discriminate; try reflexivity; try lra; try (exfalso; lra).

Lemma key_lt_asym a b : key_lt a b = true → key_lt b a = false.
Proof. destruct a, b; cbn [fst snd]. by_compare. Qed.

Lemma key_le_trans a b c :
  key_lt b a = false → key_lt c b = false → key_lt c a = false.
Proof. destruct a, b, c; cbn [fst snd]. by_compare. Qed.

(** The key order read on ratings and prices. *)
Lemma key_lt_spec x y :
  key_lt (key x) (key y) = true ↔
  (Supplier.rating (fst y) < Supplier.rating (fst x)
   ∨ (Supplier.rating (fst x) == Supplier.rating (fst y)
      ∧ SupplierMaterial.unit_price (snd x)
        < SupplierMaterial.unit_price (snd y)))%Q.
Proof.
  unfold key; cbn [fst snd].
  split.
  - by_compare.
  - intros Hxy. by_compare.
Qed.

Lemma key_le_spec x y :
  key_lt (key y) (key x) = false ↔
  (Supplier.rating (fst y) < Supplier.rating (fst x)
   ∨ (Supplier.rating (fst y) == Supplier.rating (fst x)
      ∧ SupplierMaterial.unit_price (snd x)
        <= SupplierMaterial.unit_price (snd y)))%Q.
Proof.
  unfold key; cbn [fst snd].
  split.
  - by_compare.
  - intros Hxy. by_compare.
Qed.

Lemma insert_perm x l : Permutation (insert x l) (x :: l).
Proof.
  induction l as [|y l IH]; cbn [insert]; [done|].
  destruct (key_lt (key y) (key x)); [|done].
  rewrite IH. apply perm_swap.
Qed.

Lemma sort_perm l : Permutation (sort l) l.
Proof.
  induction l as [|x l IH]; cbn; [done|].
  fold (sort l). rewrite insert_perm. by constructor.
Qed.

Lemma insert_sorted x l :
  StronglySorted (λ u v, key_lt (key v) (key u) = false) l →
  StronglySorted (λ u v, key_lt (key v) (key u) = false) (insert x l).
Proof.
  induction 1 as [|y l Hl IH Hy]; cbn [insert].
  - repeat constructor.
  - destruct (key_lt (key y) (key x)) eqn:Hyx.
    + constructor; [done|].
      rewrite Forall_forall. intros z Hz. rewrite insert_perm in Hz.
      apply elem_of_cons in Hz as [->|Hz].
      * by apply key_lt_asym.
      * rewrite Forall_forall in Hy. by apply Hy.
    + constructor; [by constructor|].
      constructor; [done|].
      eapply Forall_impl; [exact Hy|]. cbn. intros z Hz.
      by eapply key_le_trans.
Qed.

Lemma sort_sorted l :
  StronglySorted (λ u v, key_lt (key v) (key u) = false) (sort l).
Proof.
  induction l as [|x l IH]; cbn; [constructor|].
  by apply insert_sorted.
Qed.

(** The head of the sorted list, located in the list before sorting: it is
    strictly better than everything before it and at least as good as
    everything after it. *)
Lemma head_sort_split l :
  l ≠ [] →
  ∃ x before after,
    head (sort l) = Some x
    ∧ l = (before ++ x :: after)%list
    ∧ (∀ y, y ∈ before → key_lt (key x) (key y) = true)
    ∧ (∀ y, y ∈ after → key_lt (key y) (key x) = false).
Proof.
  induction l as [|x l IH]; [done|]. intros _.
  destruct l as [|x' l'].
  { exists x, [], []. cbn. split; [done|]. split; [done|].
    split; intros y Hy; by apply elem_of_nil in Hy. }
  destruct IH as (m & before & after & Hhead & Hsplit & Hbefore & Hafter);
    [done|].
  change (sort (x :: x' :: l')) with (insert x (sort (x' :: l'))).
  apply head_Some in Hhead as [rest Hrest]. rewrite Hrest. cbn [insert].
  destruct (key_lt (key m) (key x)) eqn:Hmx.
  - exists m, (x :: before), after. cbn [head].
    split; [done|]. split; [by rewrite Hsplit|]. split; [|done].
    intros y [->|Hy]%elem_of_cons; [done|by apply Hbefore].
  - exists x, [], (x' :: l'). cbn [head].
    split; [done|]. split; [done|].
    split; [intros y Hy; by apply elem_of_nil in Hy|].
    intros y Hy. rewrite Hsplit in Hy.
    apply elem_of_app in Hy as [Hy|[->|Hy]%elem_of_cons].
    + eapply key_le_trans; [exact Hmx|].
      apply key_lt_asym. by apply Hbefore.
    + done.
    + eapply key_le_trans; [exact Hmx|]. by apply Hafter.
Qed.

Lemma candidates_elem_of (mid : string) (suppliers : list Supplier.t)
    (sm : gmap string (list SupplierMaterial.t)) x :
  x ∈ candidates mid suppliers sm ↔
  fst x ∈ suppliers
  ∧ Supplier.is_active (fst x) = true
  ∧ material_info mid (default [] (sm !! Supplier.id (fst x)))
    = Some (snd x).
Proof.
  unfold candidates. rewrite list_elem_of_omap. unfold candidate_of. split.
  - intros (s & Hs & Hc).
    destruct (Supplier.is_active s) eqn:Hact; cbn [negb] in Hc;
      [|discriminate].
    destruct (material_info mid _) as [info|] eqn:Hinfo; [|discriminate].
    injection Hc as <-. cbn. done.
  - intros (Hs & Hact & Hinfo). exists (fst x). split; [done|].
    rewrite Hact, Hinfo. cbn. by destruct x.
Qed.

(** [material_info] returns the first offer for the material: every
    offer listed before it is for another material. *)
Lemma material_info_first (mid : string)
    (materials : list SupplierMaterial.t) (info : SupplierMaterial.t) :
  material_info mid materials = Some info ↔
  ∃ before after,
    materials = (before ++ info :: after)%list
    ∧ SupplierMaterial.material_id info = mid
    ∧ Forall (λ m, SupplierMaterial.material_id m ≠ mid) before.
Proof.
  unfold material_info.
  induction materials as [|m ms IH]; cbn [find].
  - split; [discriminate|]. intros (before & after & Heq & _).
    by destruct before.
  - destruct (String.eqb_spec (SupplierMaterial.material_id m) mid)
      as [Hm|Hm].
    + split.
      * intros [= <-]. exists [], ms. by repeat split.
      * intros (before & after & Heq & _ & Hbefore).
        destruct before as [|m' before']; cbn in Heq.
        -- by injection Heq as ->.
        -- injection Heq as <- _. by apply Forall_cons in Hbefore as [? _].
    + rewrite IH. split.
      * intros (before & after & -> & Hinfo & Hbefore).
        exists (m :: before), after. split; [done|]. split; [done|].
        by constructor.
      * intros (before & after & Heq & Hinfo & Hbefore).
        destruct before as [|m' before']; cbn in Heq.
        -- injection Heq as -> _. done.
        -- injection Heq as <- ->. apply Forall_cons in Hbefore as [_ ?].
           by exists before', after.
Qed.

Lemma material_info_None (mid : string)
    (materials : list SupplierMaterial.t) :
  material_info mid materials = None ↔
  ¬ Exists (λ m, SupplierMaterial.material_id m = mid) materials.
Proof.
  unfold material_info.
  induction materials as [|m ms IH]; cbn [find].
  - split; [|done]. intros _ H. by apply Exists_nil in H.
  - rewrite Exists_cons.
    destruct (String.eqb_spec (SupplierMaterial.material_id m) mid)
      as [Hm|Hm].
    + split; [discriminate|]. intros []. by left.
    + rewrite IH. tauto.
Qed.

(** The candidates follow the order of the supplier list: their suppliers
    are the active suppliers of the list that have an offer for the
    material, in the order of the list. *)
Lemma candidates_suppliers (mid : string) (suppliers : list Supplier.t)
    (sm : gmap string (list SupplierMaterial.t)) :
  fst <$> candidates mid suppliers sm
  = filter
      (λ s, Supplier.is_active s = true
            ∧ Exists (λ m, SupplierMaterial.material_id m = mid)
                (default [] (sm !! Supplier.id s)))
      suppliers.
Proof.
  unfold candidates.
  induction suppliers as [|s l IH]; [done|].
  rewrite filter_cons. cbn [omap list_omap]. unfold candidate_of at 1.
  destruct (Supplier.is_active s) eqn:Hact; cbn [negb].
  - destruct (material_info mid _) as [info|] eqn:Hinfo.
    + rewrite decide_True.
      * cbn. by rewrite <- IH.
      * split; [done|]. apply dec_stable. intros Hno.
        apply material_info_None in Hno. congruence.
    + rewrite decide_False; [done|]. intros [_ Hex].
      by apply material_info_None in Hinfo.
  - rewrite decide_False; [done|]. by intros [? _].
Qed.

(** Each candidate carries the first offer of its supplier for the
    material. *)
Lemma candidates_first_offer (mid : string) (suppliers : list Supplier.t)
    (sm : gmap string (list SupplierMaterial.t)) :
  Forall
    (λ x, ∃ before after,
       default [] (sm !! Supplier.id (fst x))
       = (before ++ snd x :: after)%list
       ∧ SupplierMaterial.material_id (snd x) = mid
       ∧ Forall (λ m, SupplierMaterial.material_id m ≠ mid) before)
    (candidates mid suppliers sm).
Proof.
  rewrite Forall_forall. intros x Hx.
  apply candidates_elem_of in Hx as (_ & _ & Hinfo).
  by apply material_info_first.
Qed.

(** The sort is stable: it keeps the relative order of the elements that
    satisfy a predicate under which keys do not differ. *)
Lemma insert_filter (P : candidate → Prop) `{!∀ x, Decision (P x)} x l :
  (∀ y, P x → P y → key_lt (key y) (key x) = false) →
  filter P (insert x l) = filter P (x :: l).
Proof.
  intros HP. induction l as [|y l IH]; cbn [insert]; [done|].
  destruct (key_lt (key y) (key x)) eqn:Hyx; [|done].
  rewrite (filter_cons _ y), IH, !(filter_cons _ x), (filter_cons _ y).
  destruct (decide (P x)) as [Hx|Hx]; [|done].
  destruct (decide (P y)) as [Hy|Hy]; [|done].
  rewrite HP in Hyx by done. discriminate.
Qed.

Lemma sort_filter (P : candidate → Prop) `{!∀ x, Decision (P x)} l :
  (∀ x y, P x → P y → key_lt (key y) (key x) = false) →
  filter P (sort l) = filter P l.
Proof.
  intros HP. induction l as [|x l IH]; [done|].
  change (sort (x :: l)) with (insert x (sort l)).
  rewrite insert_filter by (intros y; apply HP).
  by rewrite !filter_cons, IH.
Qed.

Lemma select_best_supplier_head (mid : string)
    (suppliers : list Supplier.t)
    (sm : gmap string (list SupplierMaterial.t)) :
  select_best_supplier mid suppliers sm
  = head (sort (candidates mid suppliers sm)).
Proof.
  unfold select_best_supplier.
  by destruct (candidates mid suppliers sm).
Qed.
End Selector.

(** C8, as stated, fails: an inactive supplier holding the best offer is
    passed over by the code, while the rule as worded (which filters on
    offers only) would return it. *)
Lemma inactive_supplier_skipped :
  selectBest_spec "m1" mixed_suppliers mixed_offers
  = Some (supplier_ "s1" 5.0 false, offer_ "s1" 100)
  ∧ SupplierSelector.select_best_supplier "m1" mixed_suppliers mixed_offers
    = Some (supplier_ "s2" 4.0 true, offer_ "s2" 200)
  ∧ SupplierSelector.select_best_supplier "m1" mixed_suppliers mixed_offers
    ≠ selectBest_spec "m1" mixed_suppliers mixed_offers.
Proof.
  assert (E1 : selectBest_spec "m1" mixed_suppliers mixed_offers
               = Some (supplier_ "s1" 5.0 false, offer_ "s1" 100))
    by (vm_compute; reflexivity).
  assert (E2 : SupplierSelector.select_best_supplier "m1" mixed_suppliers
                 mixed_offers
               = Some (supplier_ "s2" 4.0 true, offer_ "s2" 200))
    by (vm_compute; reflexivity).
  split; [exact E1|]. split; [exact E2|].
  rewrite E1, E2. discriminate.
Qed.

(** C8, amended.  The candidates are the ACTIVE suppliers of the list that
    have an offer for the material, in the order of the list, each with
    the first offer for the material among its offers.  The selection is
    the first element of the candidates sorted by rating descending, then
    unit price ascending; the sorted list is a permutation of the
    candidates, ordered by that key, in which candidates of equal rating
    and price keep the order of the supplier list (the sort is stable).
    The selection is [None] when there is no candidate; otherwise it is a
    candidate that is strictly better than every candidate before it in
    the list and at least as good as every candidate after it, so that of
    several best candidates the first of the supplier list is returned. *)
Theorem select_best_supplier_amended (material_id : string)
    (suppliers : list Supplier.t)
    (supplier_materials : gmap string (list SupplierMaterial.t)) :
  let cs :=
    SupplierSelector.candidates material_id suppliers supplier_materials in
  let best :=
    SupplierSelector.select_best_supplier material_id suppliers
      supplier_materials in
  let offers (s : Supplier.t) :=
    default [] (supplier_materials !! Supplier.id s) in
  let rating (c : SupplierSelector.candidate) := Supplier.rating (fst c) in
  let price (c : SupplierSelector.candidate) :=
    SupplierMaterial.unit_price (snd c) in
  fst <$> cs
  = filter
      (λ s, Supplier.is_active s = true
            ∧ Exists (λ m, SupplierMaterial.material_id m = material_id)
                (offers s))
      suppliers
  ∧ Forall
      (λ c, ∃ before after,
         offers (fst c) = (before ++ snd c :: after)%list
         ∧ SupplierMaterial.material_id (snd c) = material_id
         ∧ Forall (λ m, SupplierMaterial.material_id m ≠ material_id) before)
      cs
  ∧ best = head (SupplierSelector.sort cs)
  ∧ Permutation (SupplierSelector.sort cs) cs
  ∧ StronglySorted
      (λ u v, (rating v < rating u
               ∨ (rating v == rating u ∧ price u <= price v))%Q)
      (SupplierSelector.sort cs)
  ∧ (∀ r p : Q,
       filter (λ c, (rating c == r ∧ price c == p)%Q)
         (SupplierSelector.sort cs)
       = filter (λ c, (rating c == r ∧ price c == p)%Q) cs)
  ∧ (cs = [] → best = None)
  ∧ (cs ≠ [] →
     ∃ c before after,
       best = Some c
       ∧ cs = (before ++ c :: after)%list
       ∧ (∀ c', c' ∈ before →
            (rating c' < rating c
             ∨ (rating c == rating c' ∧ price c < price c'))%Q)
       ∧ (∀ c', c' ∈ after →
            (rating c' < rating c
             ∨ (rating c' == rating c ∧ price c <= price c'))%Q)).
Proof.
  intros cs best offers rating price. subst best.
  rewrite select_best_supplier_head. fold cs.
  split; [apply candidates_suppliers|].
  split; [apply candidates_first_offer|].
  split; [done|]. split; [apply sort_perm|]. split; [|split; [|split]].
  - pose proof (sort_sorted cs) as Hs.
    induction Hs as [|u l Hl IH Hu]; constructor; [done|].
    eapply Forall_impl; [exact Hu|]. cbn. intros v Hv.
    by apply key_le_spec.
  - intros r p. apply sort_filter.
    intros x y [Hxr Hxp] [Hyr Hyp]. apply key_le_spec.
    subst rating price. cbn beta in *. right. split; lra.
  - by intros ->.
  - intros Hne.
    destruct (head_sort_split cs Hne)
      as (c & before & after & Hhead & Hsplit & Hbefore & Hafter).
    exists c, before, after. split; [done|]. split; [done|]. split.
    + intros c' Hc'. by apply key_lt_spec, Hbefore.
    + intros c' Hc'. by apply key_le_spec, Hafter.
Qed.

Lemma select_best_supplier_amended_witness :
  ∃ c before after,
    SupplierSelector.select_best_supplier "m1" scenario_suppliers
      scenario_offers = Some c
    ∧ SupplierSelector.candidates "m1" scenario_suppliers scenario_offers
      = (before ++ c :: after)%list
    ∧ (∀ c', c' ∈ before →
         (Supplier.rating (fst c') < Supplier.rating (fst c)
          ∨ (Supplier.rating (fst c) == Supplier.rating (fst c')
             ∧ SupplierMaterial.unit_price (snd c)
               < SupplierMaterial.unit_price (snd c')))%Q)
    ∧ (∀ c', c' ∈ after →
         (Supplier.rating (fst c') < Supplier.rating (fst c)
          ∨ (Supplier.rating (fst c') == Supplier.rating (fst c)
             ∧ SupplierMaterial.unit_price (snd c)
               <= SupplierMaterial.unit_price (snd c')))%Q).
Proof.
  destruct (select_best_supplier_amended "m1" scenario_suppliers
              scenario_offers) as (_ & _ & _ & _ & _ & _ & _ & Hbest).
  apply Hbest. vm_compute. discriminate.
Defined.

(** The determinism scenario of C8: ratings 4.5, 4.8, 4.8 with prices 120,
    130, 125 select the rating-4.8 supplier at price 125. *)
Example select_best_supplier_scenario :
  SupplierSelector.select_best_supplier "m1" scenario_suppliers
    scenario_offers
  = Some (supplier_ "s3" 4.8 true, offer_ "s3" 125).
Proof. vm_compute. reflexivity. Qed.

(** Ties and repeated offers: the candidate of [s2] carries its first offer
    for [m1] (125, not the cheaper 110 listed after it), and of the two
    candidates with rating 4.8 and price 125 the one that comes first in
    the supplier list is selected. *)
Example select_best_supplier_tie :
  SupplierSelector.candidates "m1" tied_suppliers tied_offers
  = [(supplier_ "s1" 4.5 true, offer_ "s1" 90);
     (supplier_ "s2" 4.8 true, offer_ "s2" 125);
     (supplier_ "s3" 4.8 true, offer_ "s3" 125)]
  ∧ SupplierSelector.select_best_supplier "m1" tied_suppliers tied_offers
    = Some (supplier_ "s2" 4.8 true, offer_ "s2" 125)
  ∧ SupplierSelector.select_best_supplier "m1" (reverse tied_suppliers)
      tied_offers
    = Some (supplier_ "s3" 4.8 true, offer_ "s3" 125).
Proof. vm_compute. by repeat split. Qed.

(** ** Order lifecycle *)

Section OrderStatusUpdates.
Context {R I : Type} {orders : PurchaseOrderRepository R}.

Lemma update_status_unknown (order_id new_status : string) (now : datetime)
    (order_repo : R) (client : option I) :
  order_get_by_id order_id order_repo = None →
  UpdateOrderStatusUseCase.execute order_id new_status now order_repo client
  = (Ok None, order_repo, client).
Proof.
  intros Hget. unfold UpdateOrderStatusUseCase.execute. by rewrite Hget.
Qed.

Lemma update_status_delivered (order_id : string) (now : datetime)
    (order_repo : R) (client : option I) (order : PurchaseOrder.t) :
  order_get_by_id order_id order_repo = Some order →
  UpdateOrderStatusUseCase.execute order_id "DELIVERED" now order_repo client
  = (Ok (Some (_order_to_dto (PurchaseOrder.mark_as_delivered now order))),
     order_update (PurchaseOrder.mark_as_delivered now order) order_repo,
     client).
Proof.
  intros Hget. unfold UpdateOrderStatusUseCase.execute. rewrite Hget.
  unfold UpdateOrderStatusUseCase.apply_status. cbn [String.eqb].
  by destruct client.
Qed.

Lemma update_status_cancelled (order_id : string) (now : datetime)
    (order_repo : R) (client : option I) (order : PurchaseOrder.t) :
  order_get_by_id order_id order_repo = Some order →
  UpdateOrderStatusUseCase.execute order_id "CANCELLED" now order_repo client
  = (Ok (Some (_order_to_dto (PurchaseOrder.cancel now order))),
     order_update (PurchaseOrder.cancel now order) order_repo,
     client).
Proof.
  intros Hget. unfold UpdateOrderStatusUseCase.execute. by rewrite Hget.
Qed.

(** No status update reaches the inventory client. *)
Lemma update_status_client (order_id new_status : string) (now : datetime)
    (order_repo : R) (client : option I) :
  snd (UpdateOrderStatusUseCase.execute order_id new_status now order_repo
         client) = client.
Proof.
  unfold UpdateOrderStatusUseCase.execute.
  destruct (order_get_by_id order_id order_repo) as [order|]; [|done].
  unfold UpdateOrderStatusUseCase.apply_status.
  destruct (String.eqb new_status "DELIVERED"); [by destruct client|].
  destruct (String.eqb new_status "CANCELLED"); [done|].
  by destruct (OrderStatus_.of_value new_status).
Qed.
End OrderStatusUpdates.

Lemma orders_with_lookup (status : OrderStatus) :
  order_get_by_id "o1" (orders_with status) = Some (order_o1 status).
Proof. apply lookup_singleton_eq. Qed.

Lemma orders_with_update (status : OrderStatus) (order : PurchaseOrder.t) :
  PurchaseOrder.id order = "o1" →
  order_update order (orders_with status) = {["o1" := order]}.
Proof.
  intros Hid. cbn [order_update InMemoryOrderRepository_port].
  unfold InMemoryOrderRepository.save, orders_with. rewrite Hid.
  apply insert_singleton_eq.
Qed.

(** C2 at its failing input.  Order [o1] is ORDERED for 40 units of [m1],
    of which the ledger holds 100.  Marking it delivered stores the order
    as DELIVERED and returns it, but the ledger behind the inventory client
    is returned as it was: quantity 100 and no stock movement, where the
    adjustment by +40 for reason PURCHASE with reference [o1] would give
    quantity 140 and one movement.  The update to the inventory is the
    method [_update_inventory], whose body is empty. *)
Theorem mark_delivered_skips_ledger :
  (∀ order_id now (order_repo : gmap string PurchaseOrder.t)
     (ledger : option Db),
     snd (UpdateOrderStatusUseCase.execute order_id "DELIVERED" now
            order_repo ledger) = ledger)
  ∧ UpdateOrderStatusUseCase.execute "o1" "DELIVERED" later
    (orders_with ORDERED) (Some (cement_ledger 100 0))
  = (Ok (Some (_order_to_dto
                 (PurchaseOrder.mark_as_delivered later (order_o1 ORDERED)))),
     {["o1" := PurchaseOrder.mark_as_delivered later (order_o1 ORDERED)]},
     Some (cement_ledger 100 0))
  ∧ PurchaseOrder.status
      (PurchaseOrder.mark_as_delivered later (order_o1 ORDERED)) = DELIVERED
  ∧ stock_movements (cement_ledger 100 0) = []
  ∧ (let expected :=
       snd (SQLAlchemyMaterialRepository.update_quantity "m1"
              (PurchaseOrder.quantity (order_o1 ORDERED)) "PURCHASE"
              (Some "o1") "mv1" later (cement_ledger 100 0)) in
     MaterialModel.quantity <$> materials expected !! "m1" = Some 140
     ∧ stock_movements expected
       = [StockMovementModel.mk "mv1" "m1" 40 "PURCHASE" (Some "o1") None
            later]).
Proof.
  split; [intros; apply update_status_client|].
  split; [|by repeat split].
  rewrite (update_status_delivered (I := Db) "o1" later (orders_with ORDERED)
             (Some (cement_ledger 100 0)) (order_o1 ORDERED)
             (orders_with_lookup ORDERED)).
  by rewrite orders_with_update.
Qed.

(** C3, as stated, fails: cancelling a DELIVERED order succeeds and stores
    the order as CANCELLED. *)
Lemma cancel_delivered_order :
  UpdateOrderStatusUseCase.execute (I := Db) "o1" "CANCELLED" later
    (orders_with DELIVERED) None
  = (Ok (Some (_order_to_dto (PurchaseOrder.cancel later (order_o1 DELIVERED)))),
     {["o1" := PurchaseOrder.cancel later (order_o1 DELIVERED)]}, None)
  ∧ PurchaseOrder.status (order_o1 DELIVERED) = DELIVERED
  ∧ PurchaseOrder.status (PurchaseOrder.cancel later (order_o1 DELIVERED))
    = CANCELLED
  ∧ OrderDTO.status
      (_order_to_dto (PurchaseOrder.cancel later (order_o1 DELIVERED)))
    = "CANCELLED".
Proof.
  split; [|by repeat split].
  rewrite (update_status_cancelled (I := Db) "o1" later
             (orders_with DELIVERED) None (order_o1 DELIVERED)
             (orders_with_lookup DELIVERED)).
  by rewrite orders_with_update.
Qed.

(** C3, amended.  Cancelling an existing order succeeds whatever its status
    (PENDING, ORDERED, DELIVERED or CANCELLED): the order is stored with
    status CANCELLED and returned; no invalid-transition error exists.
    Cancelling an unknown order id returns [None] and stores nothing. *)
Theorem cancel_amended {R I : Type} {orders : PurchaseOrderRepository R}
    (order_id : string) (now : datetime) (order_repo : R)
    (client : option I) :
  (∀ order, order_get_by_id order_id order_repo = Some order →
     ∃ cancelled,
       UpdateOrderStatusUseCase.execute order_id "CANCELLED" now order_repo
         client
       = (Ok (Some (_order_to_dto cancelled)),
          order_update cancelled order_repo, client)
       ∧ PurchaseOrder.status cancelled = CANCELLED
       ∧ PurchaseOrder.id cancelled = PurchaseOrder.id order
       ∧ PurchaseOrder.quantity cancelled = PurchaseOrder.quantity order
       ∧ OrderDTO.status (_order_to_dto cancelled) = "CANCELLED")
  ∧ (order_get_by_id order_id order_repo = None →
     UpdateOrderStatusUseCase.execute order_id "CANCELLED" now order_repo
       client
     = (Ok None, order_repo, client)).
Proof.
  split.
  - intros order Hget. exists (PurchaseOrder.cancel now order).
    split; [by apply update_status_cancelled|done].
  - apply update_status_unknown.
Qed.

Lemma cancel_amended_witness :
  (∃ cancelled,
     UpdateOrderStatusUseCase.execute (I := Db) "o1" "CANCELLED" later
       (orders_with PENDING) None
     = (Ok (Some (_order_to_dto cancelled)),
        order_update cancelled (orders_with PENDING), None)
     ∧ PurchaseOrder.status cancelled = CANCELLED
     ∧ PurchaseOrder.id cancelled = "o1"
     ∧ PurchaseOrder.quantity cancelled = 40
     ∧ OrderDTO.status (_order_to_dto cancelled) = "CANCELLED")
  ∧ UpdateOrderStatusUseCase.execute (I := Db) "o2" "CANCELLED" later
      (orders_with PENDING) None
    = (Ok None, orders_with PENDING, None).
Proof.
  split.
  - apply (proj1 (cancel_amended (I := Db) "o1" later (orders_with PENDING)
                    None) (order_o1 PENDING)).
    reflexivity.
  - apply (proj2 (cancel_amended (I := Db) "o2" later (orders_with PENDING)
                    None)).
    reflexivity.
Defined.

(** ** Shortage processing *)

(** C5, as stated, fails on its last point: the estimated delivery of a
    confirmation is optional, and a success confirmation without one still
    gives the order an [expected_delivery], read from the clock and not
    from the confirmation. *)
Lemma undated_confirmation_reads_clock :
  place_order (supplier_ "s3" 4.8 true)
    (ProcessShortageUseCase.new_order shortage_40 (supplier_ "s3" 4.8 true)
       (offer_ "s3" 125) "o1" sample_now)
    (QuotingAdapter.mk None true)
  = (Ok (OrderConfirmation.mk "o1" "EXT-7" "ACCEPTED" None None),
     QuotingAdapter.mk None true)
  ∧ OrderConfirmation.is_success
      (OrderConfirmation.mk "o1" "EXT-7" "ACCEPTED" None None) = true
  ∧ OrderConfirmation.estimated_delivery
      (OrderConfirmation.mk "o1" "EXT-7" "ACCEPTED" None None) = None
  ∧ (λ order, (PurchaseOrder.status order,
               PurchaseOrder.external_order_id order,
               PurchaseOrder.expected_delivery order))
      <$> order_get_by_id "o1"
            (snd (fst (ProcessShortageUseCase.execute shortage_40 "o1"
                         sample_now (∅ : gmap string PurchaseOrder.t)
                         scenario_directory (QuotingAdapter.mk None true))))
    = Some (ORDERED, Some "EXT-7", Some sample_now).
Proof. by vm_compute. Qed.

(** C5, amended.  When a supplier is selected and the placement port
    answers with a confirmation, the order built for the shortage is saved
    exactly once.  On a non-success confirmation it is saved with status
    CANCELLED, and the result reports failure with the order id, the
    supplier name and the supplier's failure reason in its message (the
    text None when the confirmation has no reason).  On a success
    confirmation it is saved with status ORDERED, its [external_order_id]
    is the confirmation's and its [expected_delivery] is the
    confirmation's estimated delivery when the confirmation carries one,
    and the current time otherwise. *)
Theorem process_shortage_placement {R S A : Type}
    {orders : PurchaseOrderRepository R} {directory : SupplierRepository S}
    {adapter : SupplierAdapter A}
    (dto : ProcessShortageDTO.t) (uuid : string) (now : datetime)
    (order_repo : R) (supplier_repo : S) (supplier_adapter : A)
    (supplier : Supplier.t) (info : SupplierMaterial.t)
    (confirmation : OrderConfirmation.t) (adapter' : A) :
  let material_id := ProcessShortageDTO.material_id dto in
  let suppliers := get_for_material material_id supplier_repo in
  SupplierSelector.select_best_supplier material_id suppliers
    (ProcessShortageUseCase.supplier_materials_of suppliers supplier_repo)
  = Some (supplier, info) →
  place_order supplier
    (ProcessShortageUseCase.new_order dto supplier info uuid now)
    supplier_adapter = (Ok confirmation, adapter') →
  ∃ saved res,
    ProcessShortageUseCase.execute dto uuid now order_repo supplier_repo
      supplier_adapter
    = (Ok res, order_save saved order_repo, adapter')
    ∧ PurchaseOrder.id saved = uuid
    ∧ PurchaseOrder.material_id saved = material_id
    ∧ PurchaseOrder.supplier_id saved = Supplier.id supplier
    ∧ PurchaseOrder.quantity saved = ProcessShortageDTO.shortage_quantity dto
    ∧ ProcessShortageResultDTO.order_id res = Some uuid
    ∧ ProcessShortageResultDTO.supplier_name res
      = Some (Supplier.name supplier)
    ∧ if OrderConfirmation.is_success confirmation then
        PurchaseOrder.status saved = ORDERED
        ∧ PurchaseOrder.external_order_id saved
          = Some (OrderConfirmation.external_order_id confirmation)
        ∧ PurchaseOrder.expected_delivery saved
          = Some (default now
                    (OrderConfirmation.estimated_delivery confirmation))
        ∧ ProcessShortageResultDTO.success res = true
      else
        PurchaseOrder.status saved = CANCELLED
        ∧ PurchaseOrder.external_order_id saved = None
        ∧ ProcessShortageResultDTO.success res = false
        ∧ ProcessShortageResultDTO.message res
          = "Supplier rejected order: "
            +:+ fmt_opt (OrderConfirmation.error_message confirmation).
Proof.
  intros material_id suppliers Hsel Hplace.
  unfold ProcessShortageUseCase.execute. fold material_id suppliers.
  destruct suppliers as [|s0 rest] eqn:Hsup; [discriminate Hsel|].
  rewrite Hsel, Hplace.
  destruct (OrderConfirmation.is_success confirmation); cbn [negb].
  - eexists _, _. split; [reflexivity|]. by repeat split.
  - eexists _, _. split; [reflexivity|]. by repeat split.
Qed.

Lemma scenario_selection :
  SupplierSelector.select_best_supplier "m1"
    (get_for_material "m1" scenario_directory)
    (ProcessShortageUseCase.supplier_materials_of
       (get_for_material "m1" scenario_directory) scenario_directory)
  = Some (supplier_ "s3" 4.8 true, offer_ "s3" 125).
Proof. vm_compute. reflexivity. Qed.

Lemma process_shortage_placement_witness :
  (∃ saved res,
     ProcessShortageUseCase.execute shortage_40 "o1" sample_now
       (∅ : gmap string PurchaseOrder.t) scenario_directory rejecting_stub
     = (Ok res, order_save saved ∅, rejecting_stub)
     ∧ PurchaseOrder.id saved = "o1"
     ∧ PurchaseOrder.material_id saved = "m1"
     ∧ PurchaseOrder.supplier_id saved = "s3"
     ∧ PurchaseOrder.quantity saved = 40
     ∧ ProcessShortageResultDTO.order_id res = Some "o1"
     ∧ ProcessShortageResultDTO.supplier_name res = Some "Supplier s3"
     ∧ PurchaseOrder.status saved = CANCELLED
     ∧ PurchaseOrder.external_order_id saved = None
     ∧ ProcessShortageResultDTO.success res = false
     ∧ ProcessShortageResultDTO.message res
       = "Supplier rejected order: Simulated supplier error - please retry")
  ∧ (∃ saved res,
       ProcessShortageUseCase.execute shortage_40 "o1" sample_now
         (∅ : gmap string PurchaseOrder.t) scenario_directory accepting_stub
       = (Ok res, order_save saved ∅,
          StubSupplierAdapter.mk false "STUB-0A1B2C3D" "2024-05-04T08:00:00"
            [("o1", "STUB-0A1B2C3D")])
       ∧ PurchaseOrder.id saved = "o1"
       ∧ PurchaseOrder.material_id saved = "m1"
       ∧ PurchaseOrder.supplier_id saved = "s3"
       ∧ PurchaseOrder.quantity saved = 40
       ∧ ProcessShortageResultDTO.order_id res = Some "o1"
       ∧ ProcessShortageResultDTO.supplier_name res = Some "Supplier s3"
       ∧ PurchaseOrder.status saved = ORDERED
       ∧ PurchaseOrder.external_order_id saved = Some "STUB-0A1B2C3D"
       ∧ PurchaseOrder.expected_delivery saved
         = Some "2024-05-04T08:00:00"
       ∧ ProcessShortageResultDTO.success res = true)
  ∧ (∃ saved res,
       ProcessShortageUseCase.execute shortage_40 "o1" sample_now
         (∅ : gmap string PurchaseOrder.t) scenario_directory
         (QuotingAdapter.mk None true)
       = (Ok res, order_save saved ∅, QuotingAdapter.mk None true)
       ∧ PurchaseOrder.id saved = "o1"
       ∧ PurchaseOrder.material_id saved = "m1"
       ∧ PurchaseOrder.supplier_id saved = "s3"
       ∧ PurchaseOrder.quantity saved = 40
       ∧ ProcessShortageResultDTO.order_id res = Some "o1"
       ∧ ProcessShortageResultDTO.supplier_name res = Some "Supplier s3"
       ∧ PurchaseOrder.status saved = ORDERED
       ∧ PurchaseOrder.external_order_id saved = Some "EXT-7"
       ∧ PurchaseOrder.expected_delivery saved = Some sample_now
       ∧ ProcessShortageResultDTO.success res = true).
Proof.
  split; [|split].
  - exact (process_shortage_placement shortage_40 "o1" sample_now
             (∅ : gmap string PurchaseOrder.t) scenario_directory
             rejecting_stub (supplier_ "s3" 4.8 true) (offer_ "s3" 125)
             (OrderConfirmation.mk "o1" "" "FAILED" None
                (Some "Simulated supplier error - please retry"))
             rejecting_stub scenario_selection eq_refl).
  - exact (process_shortage_placement shortage_40 "o1" sample_now
             (∅ : gmap string PurchaseOrder.t) scenario_directory
             accepting_stub (supplier_ "s3" 4.8 true) (offer_ "s3" 125)
             (OrderConfirmation.mk "o1" "STUB-0A1B2C3D" "CONFIRMED"
                (Some "2024-05-04T08:00:00") None)
             (StubSupplierAdapter.mk false "STUB-0A1B2C3D"
                "2024-05-04T08:00:00" [("o1", "STUB-0A1B2C3D")])
             scenario_selection eq_refl).
  - exact (process_shortage_placement shortage_40 "o1" sample_now
             (∅ : gmap string PurchaseOrder.t) scenario_directory
             (QuotingAdapter.mk None true) (supplier_ "s3" 4.8 true)
             (offer_ "s3" 125)
             (OrderConfirmation.mk "o1" "EXT-7" "ACCEPTED" None None)
             (QuotingAdapter.mk None true) scenario_selection eq_refl).
Defined.

(** The rejected order of the scenario, read back from the in-memory
    repository: it is stored under its id with status CANCELLED. *)
Example rejected_order_is_stored :
  PurchaseOrder.status
    <$> order_get_by_id "o1"
          (snd (fst (ProcessShortageUseCase.execute shortage_40 "o1"
                       sample_now (∅ : gmap string PurchaseOrder.t)
                       scenario_directory rejecting_stub)))
  = Some CANCELLED.
Proof. vm_compute. reflexivity. Qed.

(** * Further properties of the inventory service *)

(** ** The material entity *)

(** X1.  On an entity whose [reserved] is not negative, a reservation that
    succeeds followed by the release of the same quantity succeeds and
    gives back the entity, up to its [updated_at]. *)
Theorem material_reserve_release (m : Material.t) (qty : Z)
    (now1 now2 : datetime) :
  0 ≤ Material.reserved m →
  fst (Material.reserve qty now1 m) = true →
  Material.release qty now2 (snd (Material.reserve qty now1 m))
  = (true, Material.set_reserved (Material.reserved m) now2 m).
Proof.
  intros Hr. unfold Material.reserve.
  destruct (negb (Material.can_reserve m qty)); [discriminate|].
  intros _. cbn [snd]. unfold Material.release. cbn.
  assert ((qty >? Material.reserved m + qty) = false) as ->.
  { pose proof (Zgt_cases qty (Material.reserved m + qty)) as Hc.
    destruct (qty >? _); [lia|done]. }
  f_equal. unfold Material.set_reserved. cbn. f_equal. lia.
Qed.

Lemma material_reserve_release_witness :
  Material.release 10 later
    (snd (Material.reserve 10 sample_now (cement_entity 100 90)))
  = (true, Material.set_reserved 90 later (cement_entity 100 90)).
Proof.
  apply (material_reserve_release (cement_entity 100 90) 10 sample_now later).
  - cbn. lia.
  - reflexivity.
Defined.

(** X2.  For a non-negative quantity, [Material.reserve] and
    [Material.release] keep [0 ≤ reserved ≤ quantity], and a call that
    answers [False] leaves the entity as it was; [release] refuses to
    release more than is reserved. *)
Theorem material_entity_invariant (m : Material.t) (qty : Z)
    (now : datetime) :
  0 ≤ qty →
  0 ≤ Material.reserved m ≤ Material.quantity m →
  let reserved' := Material.reserve qty now m in
  let released' := Material.release qty now m in
  0 ≤ Material.reserved (snd reserved') ≤ Material.quantity (snd reserved')
  ∧ 0 ≤ Material.reserved (snd released') ≤ Material.quantity (snd released')
  ∧ (fst reserved' = false → snd reserved' = m)
  ∧ (fst released' = false → snd released' = m)
  ∧ (fst released' = true ↔ qty ≤ Material.reserved m).
Proof.
  intros Hq Hinv. cbn zeta.
  unfold Material.reserve, Material.release, Material.can_reserve,
    Material.available.
  pose proof (Zge_cases (Z.max 0 (Material.quantity m - Material.reserved m))
                qty) as Hc1.
  pose proof (Zgt_cases qty (Material.reserved m)) as Hc2.
  destruct (_ >=? qty), (qty >? _); cbn; repeat split; try done; lia.
Qed.

Lemma material_entity_invariant_witness :
  0 ≤ Material.reserved (snd (Material.reserve 10 later (cement_entity 100 90)))
    ≤ Material.quantity (snd (Material.reserve 10 later (cement_entity 100 90)))
  ∧ snd (Material.release 95 later (cement_entity 100 90))
    = cement_entity 100 90.
Proof.
  destruct (material_entity_invariant (cement_entity 100 90) 10 later)
    as (H1 & _); [lia|cbn; lia|].
  destruct (material_entity_invariant (cement_entity 100 90) 95 later)
    as (_ & _ & _ & H4 & _); [lia|cbn; lia|].
  split; [exact H1|]. apply H4. reflexivity.
Defined.

(** ** Conversions between rows and entities *)

Lemma MaterialUnit_roundtrip (u : MaterialUnit) :
  MaterialUnit_.of_value (MaterialUnit_.value u) = Ok u.
Proof. by destruct u. Qed.

Lemma MaterialUnit_of_value_Ok (s : string) (u : MaterialUnit) :
  MaterialUnit_.of_value s = Ok u → s = MaterialUnit_.value u.
Proof.
  unfold MaterialUnit_.of_value.
  repeat match goal with
         | |- context [String.eqb s ?v] => destruct (String.eqb_spec s v)
         end; intros [= <-] || discriminate; done.
Qed.

Lemma entity_model_roundtrip_bad_unit (model : MaterialModel.t) :
  (∀ u, MaterialModel.unit model ≠ MaterialUnit_.value u) →
  ∃ msg, _model_to_entity model = Raise (ValueError msg).
Proof.
  intros Hbad. unfold _model_to_entity.
  destruct (MaterialUnit_.of_value _) as [u|e] eqn:Hu.
  - apply MaterialUnit_of_value_Ok in Hu. by destruct (Hbad u).
  - revert Hu. unfold MaterialUnit_.of_value.
    repeat match goal with
           | |- context [String.eqb ?s ?v] => destruct (String.eqb s v)
           end; try discriminate.
    intros [= <-]. eauto.
Qed.

(** X3.  Storing an entity as a row and loading the row gives the entity
    back.  In the other direction a row that loads is given back by
    storing the loaded entity, except that a missing category comes back
    as the empty string; a row whose unit is not one of the six unit
    values does not load: the conversion raises [ValueError]. *)
Theorem entity_model_roundtrip (entity : Material.t)
    (model : MaterialModel.t) :
  _model_to_entity (_entity_to_model entity) = Ok entity
  ∧ (∀ e, _model_to_entity model = Ok e →
       _entity_to_model e
       = MaterialModel.mk (MaterialModel.id model) (MaterialModel.name model)
           (MaterialModel.unit model)
           (Some (default "" (MaterialModel.category model)))
           (MaterialModel.quantity model) (MaterialModel.reserved model)
           (MaterialModel.min_threshold model)
           (MaterialModel.created_at model) (MaterialModel.updated_at model))
  ∧ ((∀ u, MaterialModel.unit model ≠ MaterialUnit_.value u) →
     ∃ msg, _model_to_entity model = Raise (ValueError msg)).
Proof.
  split; [|split].
  - unfold _model_to_entity, _entity_to_model. cbn.
    rewrite MaterialUnit_roundtrip. by destruct entity.
  - intros e. unfold _model_to_entity.
    destruct (MaterialUnit_.of_value _) as [u|] eqn:Hu; [|discriminate].
    intros [= <-]. apply MaterialUnit_of_value_Ok in Hu.
    unfold _entity_to_model. cbn. by rewrite <- Hu.
  - apply entity_model_roundtrip_bad_unit.
Qed.

Lemma entity_model_roundtrip_witness :
  _entity_to_model (cement_entity 100 90) = cement 100 90
  ∧ ∃ msg,
      _model_to_entity
        (MaterialModel.mk "m9" "Gravel" "tons" None 5 0 1 sample_now
           sample_now) = Raise (ValueError msg).
Proof.
  destruct (entity_model_roundtrip (cement_entity 100 90) (cement 100 90))
    as (_ & Hback & _).
  destruct (entity_model_roundtrip (cement_entity 100 90)
              (MaterialModel.mk "m9" "Gravel" "tons" None 5 0 1 sample_now
                 sample_now)) as (_ & _ & Hbad).
  split.
  - apply (Hback (cement_entity 100 90)). reflexivity.
  - apply Hbad. intros u. destruct u; discriminate.
Defined.

(** ** Reservations in the repository *)

(** X4.  Whatever the state of the ledger and whatever the quantity asked,
    a reservation that the use case reports as successful leaves the
    material with [reserved ≤ quantity], and is stored under the returned
    id as an ACTIVE reservation of that material for that quantity. *)
Theorem reserve_never_oversells (dto : ReserveMaterialDTO.t) (uuid : string)
    (now : datetime) (db db' : Db) (res : ReservationResultDTO.t) :
  ReserveMaterialUseCase.execute dto uuid now db = (Ok res, db') →
  ReservationResultDTO.success res = true →
  ReservationResultDTO.reservation_id res = Some uuid
  ∧ ReservationResultDTO.reserved_quantity res
    = ReserveMaterialDTO.quantity dto
  ∧ reservations db' !! uuid
    = Some (ReservationModel.mk uuid (ReserveMaterialDTO.material_id dto)
              (ReserveMaterialDTO.request_id dto)
              (ReserveMaterialDTO.quantity dto) "ACTIVE" now None)
  ∧ ∃ model model',
      materials db !! ReserveMaterialDTO.material_id dto = Some model
      ∧ materials db' !! ReserveMaterialDTO.material_id dto = Some model'
      ∧ MaterialModel.quantity model' = MaterialModel.quantity model
      ∧ MaterialModel.reserved model'
        = MaterialModel.reserved model + ReserveMaterialDTO.quantity dto
      ∧ MaterialModel.reserved model' ≤ MaterialModel.quantity model'.
Proof.
  unfold ReserveMaterialUseCase.execute,
    SQLAlchemyMaterialRepository.get_by_id.
  destruct (materials db !! ReserveMaterialDTO.material_id dto)
    as [model|] eqn:Hrow; [|by intros [= <- <-]].
  destruct (_model_to_entity model) as [m|e]; [|discriminate].
  destruct (negb (Material.can_reserve m _)); [by intros [= <- <-]|].
  unfold SQLAlchemyMaterialRepository.reserve. rewrite Hrow.
  destruct (_ <? ReserveMaterialDTO.quantity dto) eqn:Hlt;
    [by intros [= <- <-]|].
  apply Z.ltb_ge in Hlt.
  destruct (truthy uuid); [|by intros [= <- <-]].
  intros [= <- <-] _. cbn. rewrite !lookup_insert_eq.
  split; [done|]. split; [done|]. split; [done|].
  eexists _, _. split; [done|]. split; [done|]. cbn. lia.
Qed.

Lemma reserve_never_oversells_witness :
  ∃ model',
    materials
      (snd (ReserveMaterialUseCase.execute
              (ReserveMaterialDTO.mk "m1" 10 "req1") "res7" later
              (cement_ledger 100 90))) !! "m1" = Some model'
    ∧ MaterialModel.reserved model' = 90 + 10
    ∧ MaterialModel.reserved model' ≤ MaterialModel.quantity model'.
Proof.
  destruct (reserve_never_oversells (ReserveMaterialDTO.mk "m1" 10 "req1")
              "res7" later (cement_ledger 100 90) _ _ eq_refl eq_refl)
    as (_ & _ & _ & model & model' & Hm & Hm' & _ & Hr & Hle).
  exists model'. split; [exact Hm'|]. split; [|exact Hle].
  rewrite Hr. injection Hm as <-. reflexivity.
Defined.

(** X5.  The reservation drawn by a successful [reserve] can be released:
    on a material whose [reserved] is not negative, reserving and then
    releasing the reservation answers [True], leaves the reservation
    CANCELLED and gives the material row back, up to its [updated_at]. *)
Theorem reserve_then_release (material_id : string) (qty : Z)
    (request_id uuid : string) (now1 now2 : datetime) (db : Db)
    (model : MaterialModel.t) :
  materials db !! material_id = Some model →
  0 ≤ MaterialModel.reserved model →
  qty ≤ MaterialModel.quantity model - MaterialModel.reserved model →
  let db1 :=
    snd (SQLAlchemyMaterialRepository.reserve material_id qty request_id
           uuid now1 db) in
  let out :=
    SQLAlchemyMaterialRepository.release_reservation uuid now2 db1 in
  fst out = true
  ∧ materials (snd out)
    = <[material_id :=
          MaterialModel.set_reserved (MaterialModel.reserved model) now2
            model]> (materials db)
  ∧ ReservationModel.status <$> reservations (snd out) !! uuid
    = Some "CANCELLED"
  ∧ stock_movements (snd out) = stock_movements db.
Proof.
  intros Hrow Hr Hq. cbn zeta.
  unfold SQLAlchemyMaterialRepository.reserve. rewrite Hrow.
  assert ((MaterialModel.quantity model - MaterialModel.reserved model <? qty)
          = false) as -> by (apply Z.ltb_ge; lia).
  cbn [snd]. unfold SQLAlchemyMaterialRepository.release_reservation.
  cbn [reservations]. rewrite lookup_insert_eq.
  cbn -[Z.max Z.add Z.sub]. rewrite lookup_insert_eq.
  cbn -[Z.max Z.add Z.sub].
  split; [done|]. split; [|split; [|done]].
  - rewrite insert_insert_eq. f_equal.
    unfold MaterialModel.set_reserved. cbn -[Z.max Z.add Z.sub].
    assert (Z.max 0 (MaterialModel.reserved model + qty - qty)
            = MaterialModel.reserved model) as -> by lia.
    done.
  - by rewrite lookup_insert_eq.
Qed.

Lemma reserve_then_release_witness :
  fst (SQLAlchemyMaterialRepository.release_reservation "res7" later
         (snd (SQLAlchemyMaterialRepository.reserve "m1" 10 "req1" "res7"
                 sample_now (cement_ledger 100 90)))) = true
  ∧ materials
      (snd (SQLAlchemyMaterialRepository.release_reservation "res7" later
              (snd (SQLAlchemyMaterialRepository.reserve "m1" 10 "req1"
                      "res7" sample_now (cement_ledger 100 90)))))
    = <["m1" := MaterialModel.set_reserved 90 later (cement 100 90)]>
        (materials (cement_ledger 100 90)).
Proof.
  destruct (reserve_then_release "m1" 10 "req1" "res7" sample_now later
              (cement_ledger 100 90) (cement 100 90))
    as (H1 & H2 & _); [reflexivity|cbn; lia|cbn; lia|].
  split; [exact H1|exact H2].
Defined.

(** X6.  Releasing is idempotent: whatever the first release of a
    reservation id did, a second release of the same id answers [False]
    and changes nothing. *)
Theorem release_twice (reservation_id : string) (now1 now2 : datetime)
    (db : Db) :
  let db1 :=
    snd (SQLAlchemyMaterialRepository.release_reservation reservation_id
           now1 db) in
  SQLAlchemyMaterialRepository.release_reservation reservation_id now2 db1
  = (false, db1).
Proof.
  cbn zeta.
  destruct (SQLAlchemyMaterialRepository.release_reservation reservation_id
              now1 db) as [b db1] eqn:H1.
  cbn [snd]. unfold SQLAlchemyMaterialRepository.release_reservation in H1.
  destruct (reservations db !! reservation_id) as [r|] eqn:Hr.
  - destruct (String.eqb (ReservationModel.status r) "ACTIVE") eqn:Hs;
      cbn [negb] in H1; injection H1 as <- <-.
    + unfold SQLAlchemyMaterialRepository.release_reservation.
      cbn [reservations]. rewrite lookup_insert_eq. reflexivity.
    + unfold SQLAlchemyMaterialRepository.release_reservation.
      by rewrite Hr, Hs.
  - injection H1 as <- <-.
    unfold SQLAlchemyMaterialRepository.release_reservation. by rewrite Hr.
Qed.

(** ** Stock adjustments *)

Lemma update_quantity_known (material_id : string) (delta : Z)
    (reason : string) (reference_id : option string) (uuid : string)
    (now : datetime) (db : Db) (model : MaterialModel.t) :
  materials db !! material_id = Some model →
  snd (SQLAlchemyMaterialRepository.update_quantity material_id delta reason
         reference_id uuid now db)
  = mkDb
      (<[material_id :=
           MaterialModel.set_quantity
             (Z.max 0 (MaterialModel.quantity model + delta)) now model]>
         (materials db))
      (stock_movements db
       ++ [StockMovementModel.mk uuid material_id delta reason reference_id
             None now])
      (reservations db).
Proof.
  intros Hrow. unfold SQLAlchemyMaterialRepository.update_quantity.
  by rewrite Hrow.
Qed.

(** X7.  An adjustment of an existing material always records the delta it
    was asked for, but applies it only as far as the quantity stays
    non-negative: the change of [quantity] equals the recorded delta
    exactly when [quantity + delta ≥ 0].  [reserved] and the reservations
    are not touched.  An adjustment of an unknown material returns [None]
    and records nothing. *)
Theorem update_quantity_audit (material_id : string) (delta : Z)
    (reason : string) (reference_id : option string) (uuid : string)
    (now : datetime) (db : Db) :
  let out :=
    SQLAlchemyMaterialRepository.update_quantity material_id delta reason
      reference_id uuid now db in
  (materials db !! material_id = None → out = (Ok None, db))
  ∧ ∀ model, materials db !! material_id = Some model →
      last (stock_movements (snd out))
      = Some (StockMovementModel.mk uuid material_id delta reason
                reference_id None now)
      ∧ length (stock_movements (snd out))
        = S (length (stock_movements db))
      ∧ reservations (snd out) = reservations db
      ∧ ∃ model',
          materials (snd out) !! material_id = Some model'
          ∧ MaterialModel.reserved model' = MaterialModel.reserved model
          ∧ MaterialModel.quantity model'
            = Z.max 0 (MaterialModel.quantity model + delta)
          ∧ (MaterialModel.quantity model' - MaterialModel.quantity model
             = delta
             ↔ 0 ≤ MaterialModel.quantity model + delta).
Proof.
  cbn zeta. split.
  - intros Hrow. unfold SQLAlchemyMaterialRepository.update_quantity.
    by rewrite Hrow.
  - intros model Hrow. rewrite (update_quantity_known _ _ _ _ _ _ _ _ Hrow).
    cbn [stock_movements reservations materials].
    split; [by rewrite last_snoc|].
    split; [rewrite length_app; cbn; lia|]. split; [done|].
    eexists. split; [apply lookup_insert_eq|].
    cbn -[Z.max]. split; [done|]. split; [done|]. lia.
Qed.

Lemma update_quantity_audit_witness :
  last (stock_movements (step consume_50 (cement_ledger 10 0)))
  = Some (StockMovementModel.mk "mv2" "m1" (-50) "CONSUMPTION" None None
            sample_now)
  ∧ ∃ model',
      materials (step consume_50 (cement_ledger 10 0)) !! "m1" = Some model'
      ∧ MaterialModel.quantity model' = Z.max 0 (10 + -50).
Proof.
  destruct (update_quantity_audit "m1" (-50) "CONSUMPTION" None "mv2"
              sample_now (cement_ledger 10 0)) as [_ Hknown].
  destruct (Hknown (cement 10 0) eq_refl)
    as (Hlast & _ & _ & model' & Hm & _ & Hq & _).
  split; [exact Hlast|]. exists model'. split; [exact Hm|exact Hq].
Defined.

(** X8.  On a material with a non-negative quantity, an adjustment by
    [delta] followed by the adjustment by [-delta] records two movements
    and leaves [reserved] as it was; it gives the quantity back exactly
    when [quantity + delta ≥ 0], in particular for every stock increase. *)
Theorem adjust_roundtrip (material_id : string) (delta : Z)
    (reason1 reason2 : string) (ref1 ref2 : option string)
    (uuid1 uuid2 : string) (now1 now2 : datetime) (db : Db)
    (model : MaterialModel.t) :
  materials db !! material_id = Some model →
  0 ≤ MaterialModel.quantity model →
  let db2 :=
    snd (SQLAlchemyMaterialRepository.update_quantity material_id (- delta)
           reason2 ref2 uuid2 now2
           (snd (SQLAlchemyMaterialRepository.update_quantity material_id
                   delta reason1 ref1 uuid1 now1 db))) in
  stock_movements db2
  = (stock_movements db
     ++ [StockMovementModel.mk uuid1 material_id delta reason1 ref1 None now1;
         StockMovementModel.mk uuid2 material_id (- delta) reason2 ref2 None
           now2])%list
  ∧ ∃ model2,
      materials db2 !! material_id = Some model2
      ∧ MaterialModel.reserved model2 = MaterialModel.reserved model
      ∧ (MaterialModel.quantity model2 = MaterialModel.quantity model
         ↔ 0 ≤ MaterialModel.quantity model + delta).
Proof.
  intros Hrow Hq. cbn zeta.
  rewrite (update_quantity_known _ delta _ _ _ _ _ _ Hrow).
  erewrite update_quantity_known by apply lookup_insert_eq.
  cbn [stock_movements materials]. split.
  - by rewrite <- app_assoc.
  - eexists. split; [apply lookup_insert_eq|].
    cbn -[Z.max]. split; [done|]. lia.
Qed.

Lemma adjust_roundtrip_witness :
  ∃ model2,
    materials
      (snd (SQLAlchemyMaterialRepository.update_quantity "m1" (- 50)
              "CONSUMPTION" None "mv2" later
              (snd (SQLAlchemyMaterialRepository.update_quantity "m1" 50
                      "PURCHASE" (Some "o1") "mv1" sample_now
                      (cement_ledger 100 90))))) !! "m1" = Some model2
    ∧ MaterialModel.reserved model2 = 90
    ∧ (MaterialModel.quantity model2 = 100 ↔ 0 ≤ 100 + 50).
Proof.
  destruct (adjust_roundtrip "m1" 50 "PURCHASE" "CONSUMPTION" (Some "o1")
              None "mv1" "mv2" sample_now later (cement_ledger 100 90)
              (cement 100 90)) as (_ & model2 & H);
    [reflexivity|cbn; lia|].
  exists model2. exact H.
Defined.

(** ** Whole sequences of operations *)

Lemma step_materials_dom (op : LedgerOp) (db : Db) (id : string) :
  is_Some (materials (step op db) !! id) ↔ is_Some (materials db !! id).
Proof.
  destruct op as [mid q req uuid now|rid now|mid d rs rf uuid now];
    cbn [step].
  - unfold SQLAlchemyMaterialRepository.reserve.
    destruct (materials db !! mid) as [model|] eqn:Hm; [|done].
    destruct (_ <? q); [done|]. cbn.
    destruct (decide (mid = id)) as [->|Hne].
    + rewrite lookup_insert_eq, Hm. by split.
    + by rewrite lookup_insert_ne.
  - unfold SQLAlchemyMaterialRepository.release_reservation.
    destruct (reservations db !! rid) as [r|]; [|done].
    destruct (negb _); [done|]. cbn.
    destruct (materials db !! ReservationModel.material_id r)
      as [m0|] eqn:Hm0; [|done].
    destruct (decide (ReservationModel.material_id r = id)) as [<-|Hne].
    + rewrite lookup_insert_eq, Hm0. by split.
    + by rewrite lookup_insert_ne.
  - unfold SQLAlchemyMaterialRepository.update_quantity.
    destruct (materials db !! mid) as [model|] eqn:Hm; [|done]. cbn.
    destruct (decide (mid = id)) as [->|Hne].
    + rewrite lookup_insert_eq, Hm. by split.
    + by rewrite lookup_insert_ne.
Qed.

Lemma movement_of_step (op op' : LedgerOp) (db : Db) :
  movement_of (materials (step op db)) op' = movement_of (materials db) op'.
Proof.
  destruct op' as [| |mid d rs rf uuid now]; cbn; try done.
  pose proof (step_materials_dom op db mid) as Hdom.
  repeat case_decide; tauto.
Qed.

Lemma step_stock_movements (op : LedgerOp) (db : Db) :
  stock_movements (step op db)
  = (stock_movements db
     ++ option_list (movement_of (materials db) op))%list.
Proof.
  destruct op as [mid q req uuid now|rid now|mid d rs rf uuid now];
    cbn [step movement_of option_list].
  - rewrite app_nil_r. unfold SQLAlchemyMaterialRepository.reserve.
    destruct (materials db !! mid); [|done]. by destruct (_ <? q).
  - rewrite app_nil_r.
    unfold SQLAlchemyMaterialRepository.release_reservation.
    destruct (reservations db !! rid); [|done]. by destruct (negb _).
  - unfold SQLAlchemyMaterialRepository.update_quantity.
    destruct (materials db !! mid) as [model|] eqn:Hm.
    + rewrite decide_True by eauto. done.
    + rewrite decide_False by (by intros [? ?]). cbn. by rewrite app_nil_r.
Qed.

(** X9.  The stock movements are an append-only journal.  Whatever the
    sequence of reserve, release and adjust operations, no operation
    creates or deletes a material, the journal after the sequence is the
    journal before it followed by one movement for each adjustment of an
    existing material, in order, with the delta that was asked for;
    reservations and releases write no movement. *)
Theorem stock_movements_append_only (ops : list LedgerOp) (db : Db) :
  (∀ id, is_Some (materials (run ops db) !! id)
         ↔ is_Some (materials db !! id))
  ∧ stock_movements (run ops db)
    = (stock_movements db ++ omap (movement_of (materials db)) ops)%list.
Proof.
  revert db. induction ops as [|op ops IH]; intros db; cbn [run omap].
  - split; [done|]. by rewrite app_nil_r.
  - destruct (IH (step op db)) as [Hdom Hmov]. split.
    + intros id. rewrite Hdom. apply step_materials_dom.
    + rewrite Hmov, step_stock_movements, <- app_assoc. f_equal.
      cbn [omap list_omap].
      assert (omap (movement_of (materials (step op db))) ops
              = omap (movement_of (materials db)) ops) as ->.
      { clear. induction ops as [|o ops IH]; [done|].
        cbn. by rewrite movement_of_step, IH. }
      by destruct (movement_of (materials db) op).
Qed.

(** ** [reserved] against the ACTIVE reservations *)

Section ActiveTotal.
Implicit Types (table : gmap string ReservationModel.t)
  (r : ReservationModel.t).

Lemma active_total_fold mid table :
  active_total mid table = map_fold (λ _ r acc, acc + share mid r) 0 table.
Proof.
  unfold active_total, share.
  apply (map_fold_weak_ind (λ x m,
    x = map_fold (λ _ r acc,
          acc + (if bool_decide _ then ReservationModel.quantity r else 0))
          0 m)).
  - by rewrite map_fold_empty.
  - intros i x m acc Hi ->. rewrite map_fold_insert_L; [|intros; lia|done].
    case_bool_decide; lia.
Qed.

Lemma active_total_insert_fresh mid table k r :
  table !! k = None →
  active_total mid (<[k := r]> table) = active_total mid table + share mid r.
Proof.
  intros Hk. rewrite !active_total_fold.
  rewrite map_fold_insert_L; [done|intros; lia|done].
Qed.

Lemma active_total_delete mid table k r :
  table !! k = Some r →
  active_total mid table = active_total mid (delete k table) + share mid r.
Proof.
  intros Hk. rewrite !active_total_fold.
  by rewrite (map_fold_delete_L _ _ k r table); [|intros; lia|].
Qed.

Lemma active_total_replace mid table k r r' :
  table !! k = Some r →
  active_total mid (<[k := r']> table)
  = active_total mid table - share mid r + share mid r'.
Proof.
  intros Hk. rewrite <- insert_delete_eq.
  rewrite active_total_insert_fresh by apply lookup_delete_eq.
  rewrite (active_total_delete mid table k r Hk). lia.
Qed.

Lemma active_total_nonneg mid table :
  (∀ k r, table !! k = Some r → 0 ≤ ReservationModel.quantity r) →
  0 ≤ active_total mid table.
Proof.
  rewrite active_total_fold.
  apply (map_fold_weak_ind (λ x m,
    (∀ k r, m !! k = Some r → 0 ≤ ReservationModel.quantity r) → 0 ≤ x)).
  - done.
  - intros i x m acc Hi IH Hall.
    assert (0 ≤ acc).
    { apply IH. intros k r Hk. apply (Hall k).
      rewrite lookup_insert_ne; [done|]. intros ->. congruence. }
    pose proof (Hall i x (lookup_insert_eq _ _ _)).
    unfold share. case_bool_decide; lia.
Qed.

Lemma step_reservations_consistent (op : LedgerOp) (db : Db) :
  op_nonneg op →
  match op with
  | OpReserve _ _ _ uuid _ => reservations db !! uuid = None
  | _ => True
  end →
  reservations_nonneg db →
  reservations_consistent db →
  reservations_consistent (step op db).
Proof.
  intros Hop Hfresh Hnn Hcons.
  destruct op as [mid q req uuid now|rid now|mid d rs rf uuid now];
    cbn [step op_nonneg] in *.
  - unfold SQLAlchemyMaterialRepository.reserve.
    destruct (materials db !! mid) as [model|] eqn:Hm; [|exact Hcons].
    destruct (_ <? q); [exact Hcons|]. cbn [snd].
    intros id m; cbn [materials reservations].
    rewrite active_total_insert_fresh by done.
    unfold share; cbn [ReservationModel.material_id ReservationModel.status
                       ReservationModel.quantity].
    rewrite lookup_insert_Some. intros [[<- <-]|[Hne Hrow]].
    + cbn [MaterialModel.set_reserved MaterialModel.reserved].
      rewrite bool_decide_true by done. rewrite (Hcons _ _ Hm). lia.
    + rewrite bool_decide_false by (intros [? _]; done).
      rewrite (Hcons _ _ Hrow). lia.
  - unfold SQLAlchemyMaterialRepository.release_reservation.
    destruct (reservations db !! rid) as [r|] eqn:Hr; [|exact Hcons].
    destruct (String.eqb_spec (ReservationModel.status r) "ACTIVE")
      as [Hact|Hact]; cbn [negb]; [|exact Hcons].
    cbn [snd]. intros id m; cbn [materials reservations].
    rewrite (active_total_replace id _ rid r _ Hr).
    unfold share at 2; cbn [ReservationModel.set_status
      ReservationModel.material_id ReservationModel.status].
    rewrite (bool_decide_false (_ ∧ "CANCELLED" = "ACTIVE"))
      by (intros [_ ?]; done).
    unfold share. intros Hrow.
    destruct (materials db !! ReservationModel.material_id r)
      as [m0|] eqn:Hm0.
    + apply lookup_insert_Some in Hrow as [[<- <-]|[Hne Hrow]].
      * cbn [MaterialModel.set_reserved MaterialModel.reserved].
        rewrite bool_decide_true by done.
        pose proof (Hcons _ _ Hm0) as Htot.
        rewrite (active_total_delete _ _ rid r Hr) in Htot.
        unfold share in Htot. rewrite bool_decide_true in Htot by done.
        assert (0 ≤ active_total (ReservationModel.material_id r)
                      (delete rid (reservations db))).
        { apply active_total_nonneg. intros k r0 Hk.
          apply lookup_delete_Some in Hk as [_ Hk]. by eapply Hnn. }
        rewrite (active_total_delete _ _ rid r Hr).
        unfold share. rewrite bool_decide_true by done. lia.
      * rewrite bool_decide_false by (intros [? _]; done).
        rewrite (Hcons _ _ Hrow). lia.
    + rewrite bool_decide_false by (intros [? _]; congruence).
      rewrite (Hcons _ _ Hrow). lia.
  - unfold SQLAlchemyMaterialRepository.update_quantity.
    destruct (materials db !! mid) as [model|] eqn:Hm; [|exact Hcons].
    cbn [snd]. intros id m; cbn [materials reservations].
    rewrite lookup_insert_Some. intros [[<- <-]|[Hne Hrow]].
    + cbn. by apply Hcons.
    + by apply Hcons.
Qed.
End ActiveTotal.

(** X10.  [reserved] is the total of the ACTIVE reservations.  If that
    holds for every material and no stored reservation is for a negative
    quantity, it still holds after any sequence of reserve, release and
    adjust operations whose reserve requests are non-negative and draw
    fresh reservation ids. *)
Theorem reserved_matches_active_reservations (ops : list LedgerOp)
    (db : Db) :
  reservations_consistent db →
  reservations_nonneg db →
  Forall op_nonneg ops →
  fresh_ids ops db →
  reservations_consistent (run ops db).
Proof.
  intros Hcons Hnn Hops. revert db Hcons Hnn.
  induction Hops as [|op ops Hop _ IH]; intros db Hcons Hnn Hfresh; [done|].
  cbn [run]. destruct Hfresh as [Hf Hfresh]. apply IH; [| |done].
  - by apply step_reservations_consistent.
  - by apply step_reservations_nonneg.
Qed.

Lemma reserved_matches_active_reservations_witness :
  reservations_consistent
    (run [OpReserve "m1" 40 "req1" "res1" sample_now;
          OpReserve "m1" 25 "req2" "res2" sample_now;
          OpRelease "res1" later;
          consume_50]
         (cement_ledger 100 0)).
Proof.
  apply reserved_matches_active_reservations.
  - intros id m. unfold cement_ledger; cbn.
    rewrite lookup_singleton_Some. intros [_ <-]. reflexivity.
  - intros id r. unfold cement_ledger; cbn. by rewrite lookup_empty.
  - repeat constructor; cbn; lia.
  - cbn. repeat split; vm_compute; reflexivity.
Defined.

(** ** Low-stock listing *)

Lemma collect_Ok {A B : Type} (f : A → result B) (l : list A)
    (ys : list B) :
  collect f l = Ok ys →
  ∀ y, y ∈ ys ↔ ∃ x, x ∈ l ∧ f x = Ok y.
Proof.
  revert ys. induction l as [|x l IH]; intros ys; cbn [collect].
  - intros [= <-] y. split; [by intros ?%elem_of_nil|].
    by intros (x & ?%elem_of_nil & _).
  - destruct (f x) as [y0|e] eqn:Hx; [|discriminate].
    destruct (collect f l) as [ys0|e]; [|discriminate].
    intros [= <-] y. rewrite elem_of_cons, (IH ys0 eq_refl). split.
    + intros [->|(x' & Hin & Hf)].
      * exists x. split; [by left|done].
      * exists x'. split; [by right|done].
    + intros (x' & [->|Hin]%elem_of_cons & Hf).
      * left. congruence.
      * right. eauto.
Qed.

Lemma rows_elem_of {V : Type} (table : gmap string V) (v : V) :
  v ∈ rows table ↔ ∃ k, table !! k = Some v.
Proof.
  unfold rows. rewrite list_elem_of_fmap. split.
  - intros ([k v'] & -> & Hin). exists k. by apply elem_of_map_to_list.
  - intros (k & Hk). exists (k, v). split; [done|].
    by apply elem_of_map_to_list.
Qed.

(** X11.  When the low-stock listing succeeds, it lists exactly the
    materials whose row satisfies [quantity − reserved < min_threshold]
    (the difference is not clamped at 0 there).  Every material that the
    entity calls low on stock is listed, and every listed material with a
    positive threshold is flagged [is_low_stock]. *)
Theorem low_stock_listing (db : Db) (dtos : list MaterialDTO.t) :
  GetLowStockMaterialsUseCase.execute db = Ok dtos →
  (∀ dto, dto ∈ dtos ↔
     ∃ id model m,
       materials db !! id = Some model
       ∧ _model_to_entity model = Ok m
       ∧ MaterialModel.quantity model - MaterialModel.reserved model
         < MaterialModel.min_threshold model
       ∧ dto = _material_to_dto m)
  ∧ (∀ id model m,
       materials db !! id = Some model →
       _model_to_entity model = Ok m →
       Material.is_low_stock m = true →
       _material_to_dto m ∈ dtos)
  ∧ (∀ dto, dto ∈ dtos →
       0 < MaterialDTO.min_threshold dto →
       MaterialDTO.is_low_stock dto = true).
Proof.
  unfold GetLowStockMaterialsUseCase.execute, MaterialQueries.get_low_stock.
  destruct (collect _ _) as [ms|e] eqn:Hc; [|discriminate].
  intros [= <-]. pose proof (collect_Ok _ _ _ Hc) as Hms.
  assert (Hchar : ∀ dto, dto ∈ _material_to_dto <$> ms ↔
     ∃ id model m,
       materials db !! id = Some model
       ∧ _model_to_entity model = Ok m
       ∧ MaterialModel.quantity model - MaterialModel.reserved model
         < MaterialModel.min_threshold model
       ∧ dto = _material_to_dto m).
  { intros dto. rewrite list_elem_of_fmap. split.
    - intros (m & -> & Hm). apply Hms in Hm as (model & Hin & Hent).
      apply list_elem_of_filter in Hin as [Hlow Hin].
      apply rows_elem_of in Hin as [id Hid]. eauto 10.
    - intros (id & model & m & Hid & Hent & Hlow & ->).
      exists m. split; [done|]. apply Hms. exists model. split; [|done].
      apply list_elem_of_filter. split; [done|].
      apply rows_elem_of. eauto. }
  split; [exact Hchar|]. split.
  - intros id model m Hid Hent Hlow. apply Hchar.
    exists id, model, m. split; [done|]. split; [done|]. split; [|done].
    unfold _model_to_entity in Hent.
    destruct (MaterialUnit_.of_value _); [|discriminate].
    injection Hent as <-.
    unfold Material.is_low_stock, Material.available in Hlow.
    cbn in Hlow. apply Z.ltb_lt in Hlow. lia.
  - intros dto (id & model & m & Hid & Hent & Hlow & ->)%Hchar Hpos.
    unfold _model_to_entity in Hent.
    destruct (MaterialUnit_.of_value _); [|discriminate].
    injection Hent as <-. cbn in *.
    unfold Material.is_low_stock, Material.available. cbn.
    apply Z.ltb_lt. lia.
Qed.

Lemma low_stock_listing_witness :
  _material_to_dto (cement_entity 100 90)
  ∈ [_material_to_dto (cement_entity 100 90)]
  ∧ MaterialDTO.is_low_stock (_material_to_dto (cement_entity 100 90)) = true.
Proof.
  destruct (low_stock_listing (cement_ledger 100 90)
              [_material_to_dto (cement_entity 100 90)] eq_refl)
    as (_ & Hall & Hflag).
  assert (Hin : _material_to_dto (cement_entity 100 90)
                ∈ [_material_to_dto (cement_entity 100 90)]).
  { apply (Hall "m1" (cement 100 90) (cement_entity 100 90));
      reflexivity. }
  split; [exact Hin|]. apply Hflag; [exact Hin|]. cbn. lia.
Defined.

(** An over-reserved material with threshold 0 is listed by the low-stock
    query although its own [is_low_stock] is false. *)
Example low_stock_listing_unflagged :
  GetLowStockMaterialsUseCase.execute
    (mkDb {["m1" := MaterialModel.mk "m1" "Cement" "kg" None 5 10 0
                      sample_now sample_now]} [] ∅)
  = Ok [MaterialDTO.mk "m1" "Cement" "kg" "" 5 10 0 0 false sample_now
          sample_now].
Proof. reflexivity. Qed.

(** ** The reservation repository *)

(** X12.  [cancel] of the reservation repository marks an existing
    reservation CANCELLED without touching any material: the quantity it
    held stays in [reserved], and [release_reservation] on it afterwards
    answers [False] and changes nothing.  On an unknown id [cancel]
    answers [False] and changes nothing. *)
Theorem reservation_cancel_keeps_reserved (reservation_id : string)
    (now now2 : datetime) (db : Db) :
  let out := SQLAlchemyReservationRepository.cancel reservation_id now db in
  (reservations db !! reservation_id = None → out = (false, db))
  ∧ (∀ r, reservations db !! reservation_id = Some r →
       fst out = true
       ∧ materials (snd out) = materials db
       ∧ stock_movements (snd out) = stock_movements db
       ∧ reservations (snd out)
         = <[reservation_id := ReservationModel.set_status "CANCELLED" r]>
             (reservations db)
       ∧ SQLAlchemyMaterialRepository.release_reservation reservation_id
           now2 (snd out) = (false, snd out)).
Proof.
  cbn zeta. unfold SQLAlchemyReservationRepository.cancel,
    SQLAlchemyReservationRepository.update_status.
  split.
  - by intros ->.
  - intros r ->. cbn [fst snd materials stock_movements reservations].
    split; [done|]. split; [done|]. split; [done|]. split; [done|].
    unfold SQLAlchemyMaterialRepository.release_reservation.
    cbn [reservations]. by rewrite lookup_insert_eq.
Qed.

Lemma reservation_cancel_keeps_reserved_witness :
  materials (snd (SQLAlchemyReservationRepository.cancel "res1" later
                    (reserved_ledger "ACTIVE")))
  = materials (reserved_ledger "ACTIVE")
  ∧ SQLAlchemyMaterialRepository.release_reservation "res1" later
      (snd (SQLAlchemyReservationRepository.cancel "res1" later
              (reserved_ledger "ACTIVE")))
    = (false,
       snd (SQLAlchemyReservationRepository.cancel "res1" later
              (reserved_ledger "ACTIVE"))).
Proof.
  destruct (reservation_cancel_keeps_reserved "res1" later later
              (reserved_ledger "ACTIVE")) as [_ Hknown].
  destruct (Hknown (res1 "ACTIVE") eq_refl) as (_ & Hm & _ & _ & Hrel).
  split; [exact Hm|exact Hrel].
Defined.

(** X13.  In a reservations table whose rows are stored under their id,
    [update_status] of an existing reservation returns the reservation
    with the new status, stamps [fulfilled_at] when and only when the new
    status is FULFILLED, and touches no material.  Afterwards the
    reservation is still among the reservations of its material, but it
    is among the active ones only if the new status is ACTIVE. *)
Theorem update_status_visibility (reservation_id status : string)
    (now : datetime) (db : Db) (r : ReservationModel.t) :
  (∀ k r0, reservations db !! k = Some r0 → ReservationModel.id r0 = k) →
  reservations db !! reservation_id = Some r →
  let out :=
    SQLAlchemyReservationRepository.update_status reservation_id status now
      db in
  let updated :=
    Reservation.mk (ReservationModel.id r) (ReservationModel.material_id r)
      (ReservationModel.request_id r) (ReservationModel.quantity r) status
      (ReservationModel.created_at r)
      (if String.eqb status "FULFILLED" then Some now
       else ReservationModel.fulfilled_at r) in
  fst out = Some updated
  ∧ SQLAlchemyReservationRepository.get_by_id reservation_id (snd out)
    = Some updated
  ∧ materials (snd out) = materials db
  ∧ updated
    ∈ SQLAlchemyReservationRepository.get_by_material
        (ReservationModel.material_id r) false (snd out)
  ∧ (status ≠ "ACTIVE" →
     ∀ material_id x,
       x ∈ SQLAlchemyReservationRepository.get_by_material material_id true
             (snd out) →
       Reservation.id x ≠ reservation_id).
Proof.
  intros Hkeys Hr. cbn zeta.
  unfold SQLAlchemyReservationRepository.update_status. rewrite Hr.
  cbn [fst snd materials]. split; [done|]. split; [|split; [done|split]].
  - unfold SQLAlchemyReservationRepository.get_by_id. cbn [reservations].
    by rewrite lookup_insert_eq.
  - unfold SQLAlchemyReservationRepository.get_by_material.
    cbn [reservations]. apply list_elem_of_fmap.
    exists (ReservationModel.mk (ReservationModel.id r)
              (ReservationModel.material_id r)
              (ReservationModel.request_id r) (ReservationModel.quantity r)
              status (ReservationModel.created_at r)
              (if String.eqb status "FULFILLED" then Some now
               else ReservationModel.fulfilled_at r)).
    split; [reflexivity|].
    apply list_elem_of_filter. split; [reflexivity|].
    apply rows_elem_of. exists reservation_id. apply lookup_insert_eq.
  - intros Hst material_id x.
    unfold SQLAlchemyReservationRepository.get_by_material.
    cbn [reservations]. intros (m & -> & Hin)%list_elem_of_fmap.
    apply list_elem_of_filter in Hin as [Hact Hin].
    apply list_elem_of_filter in Hin as [_ Hin].
    apply rows_elem_of in Hin as [k Hk].
    apply lookup_insert_Some in Hk as [[<- <-]|[Hne Hk]].
    + by cbn in Hact.
    + cbn. rewrite (Hkeys _ _ Hk). congruence.
Qed.

Lemma update_status_visibility_witness :
  fst (SQLAlchemyReservationRepository.update_status "res1" "FULFILLED"
         later (reserved_ledger "ACTIVE"))
  = Some (Reservation.mk "res1" "m1" "req1" 10 "FULFILLED" sample_now
            (Some later))
  ∧ ∀ x,
      x ∈ SQLAlchemyReservationRepository.get_by_material "m1" true
            (snd (SQLAlchemyReservationRepository.update_status "res1"
                    "FULFILLED" later (reserved_ledger "ACTIVE"))) →
      Reservation.id x ≠ "res1".
Proof.
  destruct (update_status_visibility "res1" "FULFILLED" later
              (reserved_ledger "ACTIVE") (res1 "ACTIVE"))
    as (Hret & _ & _ & _ & Hact).
  - intros k r0. unfold reserved_ledger; cbn.
    rewrite lookup_singleton_Some. by intros [<- <-].
  - reflexivity.
  - split; [exact Hret|]. apply Hact. discriminate.
Defined.

(** ** The RabbitMQ publisher *)

(** X14.  [publish] answers [True] exactly when the publisher has a
    channel, the exchange is already declared or the broker accepts its
    declaration, and the broker accepts the message.  Then the message is
    delivered once and the exchange is remembered as declared; in every
    other case nothing is delivered. *)
Theorem rabbitmq_publish_outcome (exchange routing_key : string)
    (message : Message) (self : RabbitMQPublisher.t) :
  let out := RabbitMQPublisher.publish exchange routing_key message self in
  (fst out = Ok true ↔
     RabbitMQPublisher.channel self = true
     ∧ (exchange ∈ RabbitMQPublisher._exchanges self
        ∨ RabbitMQPublisher.channel_declare_exchange
            (RabbitMQPublisher.broker self) exchange = Ok tt)
     ∧ RabbitMQPublisher.exchange_publish (RabbitMQPublisher.broker self)
         exchange routing_key message = Ok tt)
  ∧ (fst out = Ok true →
     exchange ∈ RabbitMQPublisher._exchanges (snd out)
     ∧ RabbitMQPublisher.delivered (snd out)
       = (RabbitMQPublisher.delivered self
          ++ [(exchange, routing_key, message)])%list)
  ∧ (fst out ≠ Ok true →
     fst out = Ok false
     ∧ RabbitMQPublisher.delivered (snd out)
       = RabbitMQPublisher.delivered self).
Proof.
  cbn zeta. unfold RabbitMQPublisher.publish.
  destruct (RabbitMQPublisher.channel self) eqn:Hch; cbn [negb].
  2:{ cbn. split; [split; [discriminate|by intros [? _]]|].
      split; [discriminate|done]. }
  unfold RabbitMQPublisher.publish_try.
  destruct (decide (exchange ∈ RabbitMQPublisher._exchanges self))
    as [Hin|Hin].
  - destruct (RabbitMQPublisher.exchange_publish _ _ _ _) as [[]|e];
      cbn.
    + split; [split; [tauto|done]|]. split; [done|done].
    + split; [split; [discriminate|by intros (_ & _ & ?)]|].
      split; [discriminate|done].
  - unfold RabbitMQPublisher.declare_exchange. rewrite Hch. cbn [negb].
    destruct (RabbitMQPublisher.channel_declare_exchange _ _) as [[]|e0].
    + cbn [RabbitMQPublisher.logged RabbitMQPublisher.broker].
      destruct (RabbitMQPublisher.exchange_publish _ _ _ _) as [[]|e'];
        cbn.
      * split; [split; [tauto|done]|].
        split; [|done]. intros _. split; [set_solver|done].
      * split; [split; [discriminate|by intros (_ & _ & ?)]|].
        split; [discriminate|done].
    + cbn. split; [split; [discriminate|]|].
      * intros (_ & [?|?] & _); [done|discriminate].
      * split; [discriminate|done].
Qed.

Lemma rabbitmq_publish_outcome_witness :
  fst (RabbitMQPublisher.publish "materials.events" "material.shortage"
         sample_event accepting_rabbitmq) = Ok true
  ∧ "materials.events"
    ∈ RabbitMQPublisher._exchanges
        (snd (RabbitMQPublisher.publish "materials.events"
                "material.shortage" sample_event accepting_rabbitmq))
  ∧ fst (RabbitMQPublisher.publish "materials.events" "material.shortage"
           sample_event refusing_rabbitmq) = Ok false.
Proof.
  destruct (rabbitmq_publish_outcome "materials.events" "material.shortage"
              sample_event accepting_rabbitmq) as (Hiff & Hyes & _).
  destruct (rabbitmq_publish_outcome "materials.events" "material.shortage"
              sample_event refusing_rabbitmq) as (_ & _ & Hno).
  assert (Htrue : fst (RabbitMQPublisher.publish "materials.events"
                         "material.shortage" sample_event accepting_rabbitmq)
                  = Ok true).
  { apply Hiff. split; [reflexivity|]. split; [right|]; reflexivity. }
  split; [exact Htrue|]. split; [exact (proj1 (Hyes Htrue))|].
  apply Hno. vm_compute. discriminate.
Defined.

(** ** The gRPC servicer *)

(** X15.  [CheckAvailability] never lets an exception out.  An unknown
    material is answered with NOT_FOUND and no response; so is a material
    whose row does not load, because the handler reads every [ValueError]
    as not-found.  For a material that loads, the response is the
    availability result and the context is untouched unless the publisher
    raised, in which case there is no response and the status is INTERNAL
    (NOT_FOUND if the publisher raised a [ValueError]). *)
Theorem grpc_check_availability {P : Type} {port : MessagePublisher P}
    (material_id : string) (requested : Z) (now : datetime) (db : Db)
    (publisher : option P) (context : ServicerContext.t) :
  let out :=
    InventoryServicer.CheckAvailability material_id requested now db
      publisher context in
  (materials db !! material_id = None →
   out = (None, publisher,
          ServicerContext.mk (Some NOT_FOUND)
            (Some ("Material with ID '" +:+ material_id +:+ "' not found"))))
  ∧ (∀ model, materials db !! material_id = Some model →
       (∀ u, MaterialModel.unit model ≠ MaterialUnit_.value u) →
       fst (fst out) = None
       ∧ ServicerContext.code (snd out) = Some NOT_FOUND)
  ∧ (∀ m, SQLAlchemyMaterialRepository.get_by_id material_id db
          = Ok (Some m) →
       let shortage := Z.max 0 (requested - Material.available m) in
       let result :=
         AvailabilityResultDTO.mk (Material.id m) (Material.name m)
           (Material.available m >=? requested) (Material.available m)
           requested shortage in
       match publisher with
       | Some p =>
           if (shortage >? 0) then
             match fst (publish "materials.events" "material.shortage"
                          (CheckAvailabilityUseCase.shortage_event m
                             (AvailabilityCheckDTO.mk material_id requested)
                             shortage None now) p) with
             | Ok _ => fst (fst out) = Some result ∧ snd out = context
             | Raise e =>
                 fst (fst out) = None
                 ∧ snd out
                   = ServicerContext.mk
                       (Some (match e with
                              | ValueError _ => NOT_FOUND
                              | _ => INTERNAL
                              end))
                       (Some (exn_str e))
             end
           else out = (Some result, publisher, context)
       | None => out = (Some result, publisher, context)
       end).
Proof.
  cbn zeta. unfold InventoryServicer.CheckAvailability. split; [|split].
  - intros Hrow. unfold CheckAvailabilityUseCase.execute,
      SQLAlchemyMaterialRepository.get_by_id.
    cbn [AvailabilityCheckDTO.material_id]. by rewrite Hrow.
  - intros model Hrow Hbad.
    destruct (entity_model_roundtrip_bad_unit model Hbad) as [msg Hmsg].
    unfold CheckAvailabilityUseCase.execute,
      SQLAlchemyMaterialRepository.get_by_id.
    cbn [AvailabilityCheckDTO.material_id]. by rewrite Hrow, Hmsg.
  - intros m Hm.
    rewrite (check_execute_found db publisher
               (AvailabilityCheckDTO.mk material_id requested) None true now
               m Hm).
    cbn [AvailabilityCheckDTO.requested_quantity].
    destruct publisher as [p|]; [|done].
    rewrite andb_true_r.
    destruct (_ >? 0); [|done]. cbn zeta.
    destruct (publish _ _ _ p) as [[b|e] p']; cbn [fst snd]; [done|].
    by destruct e.
Qed.

Lemma grpc_check_availability_witness :
  InventoryServicer.CheckAvailability "m2" 50 later (cement_ledger 100 90)
    (Some empty_stub) blank_context
  = (None, Some empty_stub,
     ServicerContext.mk (Some NOT_FOUND)
       (Some "Material with ID 'm2' not found"))
  ∧ ServicerContext.code
      (snd (InventoryServicer.CheckAvailability "m9" 1 later
              (mkDb {["m9" := gravel_in_tons]} [] ∅) (Some empty_stub)
              blank_context)) = Some NOT_FOUND
  ∧ fst (fst (InventoryServicer.CheckAvailability "m1" 50 later
                (cement_ledger 100 90) (Some unreachable_publisher)
                blank_context)) = None
  ∧ snd (InventoryServicer.CheckAvailability "m1" 50 later
           (cement_ledger 100 90) (Some unreachable_publisher) blank_context)
    = ServicerContext.mk (Some INTERNAL) (Some "broker unreachable").
Proof.
  destruct (grpc_check_availability "m2" 50 later (cement_ledger 100 90)
              (Some empty_stub) blank_context) as (Hunknown & _ & _).
  destruct (grpc_check_availability "m9" 1 later
              (mkDb {["m9" := gravel_in_tons]} [] ∅) (Some empty_stub)
              blank_context) as (_ & Hbad & _).
  destruct (grpc_check_availability "m1" 50 later (cement_ledger 100 90)
              (Some unreachable_publisher) blank_context) as (_ & _ & Hpub).
  split; [apply Hunknown; reflexivity|].
  split.
  - apply (Hbad gravel_in_tons eq_refl). intros u. destruct u; discriminate.
  - exact (Hpub (cement_entity 100 90) (cement_get_by_id 100 90)).
Defined.

(** X16.  The handler calls the check without a request id, so every
    shortage event published through [CheckAvailability] — at most one per
    call, on [materials.events] with routing key [material.shortage] — has
    [triggered_by_request_id = None]. *)
Theorem grpc_events_have_no_request_id (material_id : string)
    (requested : Z) (now : datetime) (db : Db)
    (stub : StubMessagePublisher.t) (context : ServicerContext.t) :
  ∃ stub' new,
    snd (fst (InventoryServicer.CheckAvailability material_id requested now
                db (Some stub) context)) = Some stub'
    ∧ StubMessagePublisher.messages stub'
      = (StubMessagePublisher.messages stub ++ new)%list
    ∧ (length new ≤ 1)%nat
    ∧ Forall (λ e,
        StubMessagePublisher.exchange e = "materials.events"
        ∧ StubMessagePublisher.routing_key e = "material.shortage"
        ∧ MaterialShortageEventDTO.triggered_by_request_id
            (StubMessagePublisher.message e) = None) new.
Proof.
  assert (Hnone : ∃ stub' new,
    Some stub = Some stub'
    ∧ StubMessagePublisher.messages stub'
      = (StubMessagePublisher.messages stub ++ new)%list
    ∧ (length new ≤ 1)%nat
    ∧ Forall (λ e,
        StubMessagePublisher.exchange e = "materials.events"
        ∧ StubMessagePublisher.routing_key e = "material.shortage"
        ∧ MaterialShortageEventDTO.triggered_by_request_id
            (StubMessagePublisher.message e) = None) new).
  { exists stub, []. rewrite app_nil_r.
    split; [done|]. split; [done|]. split; [cbn; lia|constructor]. }
  unfold InventoryServicer.CheckAvailability.
  destruct (SQLAlchemyMaterialRepository.get_by_id material_id db)
    as [[m|]|e] eqn:Hget.
  - rewrite (check_execute_found db (Some stub)
               (AvailabilityCheckDTO.mk material_id requested) None true now
               m Hget).
    destruct (_ && true); cbn; [|exact Hnone].
    eexists _, [_]. split; [done|]. split; [done|]. split; [cbn; lia|].
    by repeat constructor.
  - unfold CheckAvailabilityUseCase.execute.
    cbn [AvailabilityCheckDTO.material_id]. rewrite Hget. exact Hnone.
  - unfold CheckAvailabilityUseCase.execute.
    cbn [AvailabilityCheckDTO.material_id]. rewrite Hget.
    destruct e; exact Hnone.
Qed.

(** X17.  When [ReserveMaterial] returns a response, the context is
    untouched and the response is one of two shapes: success with the
    reservation id, the requested quantity and an empty error message, or
    failure with an empty reservation id, quantity 0, a non-empty error
    message and an unchanged ledger. *)
Theorem grpc_reserve_response (material_id : string) (quantity : Z)
    (request_id uuid : string) (now : datetime) (db db' : Db)
    (context context' : ServicerContext.t) (resp : ReserveResponse.t) :
  truthy uuid = true →
  InventoryServicer.ReserveMaterial material_id quantity request_id uuid now
    db context = (Some resp, db', context') →
  context' = context
  ∧ (ReserveResponse.success resp = true →
     ReserveResponse.reservation_id resp = uuid
     ∧ ReserveResponse.reserved_quantity resp = quantity
     ∧ ReserveResponse.error_message resp = "")
  ∧ (ReserveResponse.success resp = false →
     ReserveResponse.reservation_id resp = ""
     ∧ ReserveResponse.reserved_quantity resp = 0
     ∧ ReserveResponse.error_message resp ≠ ""
     ∧ db' = db).
Proof.
  intros Huuid. unfold InventoryServicer.ReserveMaterial,
    ReserveMaterialUseCase.execute.
  cbn [ReserveMaterialDTO.material_id ReserveMaterialDTO.quantity
       ReserveMaterialDTO.request_id].
  destruct (SQLAlchemyMaterialRepository.get_by_id material_id db)
    as [[m|]|e]; [| |discriminate].
  - destruct (negb (Material.can_reserve m quantity)).
    + intros [= <- <- <-]. split; [done|]. by split.
    + unfold SQLAlchemyMaterialRepository.reserve.
      destruct (materials db !! material_id) as [model|].
      * destruct (_ <? quantity).
        -- intros [= <- <- <-]. split; [done|]. by split.
        -- rewrite Huuid. intros [= <- <- <-]. cbn.
           rewrite Huuid. split; [done|]. by split.
      * intros [= <- <- <-]. split; [done|]. by split.
  - intros [= <- <- <-]. split; [done|]. by split.
Qed.

Lemma grpc_reserve_response_witness :
  ∃ resp db',
    InventoryServicer.ReserveMaterial "m1" 20 "req1" "res7" later
      (cement_ledger 100 90) blank_context = (Some resp, db', blank_context)
    ∧ ReserveResponse.reservation_id resp = ""
    ∧ ReserveResponse.reserved_quantity resp = 0
    ∧ ReserveResponse.error_message resp ≠ ""
    ∧ db' = cement_ledger 100 90.
Proof.
  eexists _, _. split; [reflexivity|].
  refine (proj2 (proj2 (grpc_reserve_response "m1" 20 "req1" "res7" later
                          (cement_ledger 100 90) _ blank_context _ _
                          eq_refl eq_refl)) eq_refl).
Defined.

(** X18.  [GetMaterial] answers an unknown id with NOT_FOUND and no
    response, and a row that does not load with INTERNAL and no response.
    For a row that loads, the response carries the row's quantity and
    reserved, [available = max(0, quantity − reserved)], and the empty
    string for a missing category; the context is untouched. *)
Theorem grpc_get_material (material_id : string) (db : Db)
    (context : ServicerContext.t) :
  let out := InventoryServicer.GetMaterial material_id db context in
  (materials db !! material_id = None →
   out = (None,
          ServicerContext.mk (Some NOT_FOUND)
            (Some ("Material " +:+ material_id +:+ " not found"))))
  ∧ (∀ model, materials db !! material_id = Some model →
       (∀ u, MaterialModel.unit model ≠ MaterialUnit_.value u) →
       fst out = None ∧ ServicerContext.code (snd out) = Some INTERNAL)
  ∧ (∀ model u, materials db !! material_id = Some model →
       MaterialModel.unit model = MaterialUnit_.value u →
       out
       = (Some (MaterialResponse.mk (MaterialModel.id model)
                  (MaterialModel.name model) (MaterialModel.unit model)
                  (default "" (MaterialModel.category model))
                  (MaterialModel.quantity model)
                  (MaterialModel.reserved model)
                  (Z.max 0 (MaterialModel.quantity model
                            - MaterialModel.reserved model))
                  (MaterialModel.min_threshold model)
                  (MaterialModel.created_at model)
                  (MaterialModel.updated_at model)),
          context)).
Proof.
  cbn zeta. unfold InventoryServicer.GetMaterial, GetMaterialUseCase.execute,
    SQLAlchemyMaterialRepository.get_by_id.
  split; [|split].
  - by intros ->.
  - intros model -> Hbad.
    destruct (entity_model_roundtrip_bad_unit model Hbad) as [msg ->].
    done.
  - intros model u -> Hu. unfold _model_to_entity.
    rewrite Hu, MaterialUnit_roundtrip. reflexivity.
Qed.

Lemma grpc_get_material_witness :
  InventoryServicer.GetMaterial "m2" (cement_ledger 100 90) blank_context
  = (None,
     ServicerContext.mk (Some NOT_FOUND) (Some "Material m2 not found"))
  ∧ ServicerContext.code
      (snd (InventoryServicer.GetMaterial "m9"
              (mkDb {["m9" := gravel_in_tons]} [] ∅) blank_context))
    = Some INTERNAL
  ∧ InventoryServicer.GetMaterial "m1" (cement_ledger 100 90) blank_context
    = (Some (MaterialResponse.mk "m1" "Cement" "kg" "binders" 100 90 10 20
               sample_now sample_now), blank_context).
Proof.
  destruct (grpc_get_material "m2" (cement_ledger 100 90) blank_context)
    as (Hunknown & _ & _).
  destruct (grpc_get_material "m9" (mkDb {["m9" := gravel_in_tons]} [] ∅)
              blank_context) as (_ & Hbad & _).
  destruct (grpc_get_material "m1" (cement_ledger 100 90) blank_context)
    as (_ & _ & Hok).
  split; [apply Hunknown; reflexivity|]. split.
  - apply (Hbad gravel_in_tons eq_refl). intros u. destruct u; discriminate.
  - apply (Hok (cement 100 90) KILOGRAMS); reflexivity.
Defined.

(** * Further properties of the procurement service *)

(** ** Supplier selection *)

Lemma material_info_Some (material_id : string)
    (materials : list SupplierMaterial.t) (info : SupplierMaterial.t) :
  SupplierSelector.material_info material_id materials = Some info →
  info ∈ materials ∧ SupplierMaterial.material_id info = material_id.
Proof.
  unfold SupplierSelector.material_info. intros Hfind.
  apply find_some in Hfind as [Hin Heq].
  split; [by apply list_elem_of_In|]. by apply String.eqb_eq.
Qed.

Lemma material_info_can_supply (supplier : Supplier.t)
    (material_id : string) (materials : list SupplierMaterial.t) :
  Supplier_.can_supply supplier material_id materials = true
  ↔ is_Some (SupplierSelector.material_info material_id materials).
Proof.
  unfold Supplier_.can_supply, SupplierSelector.material_info.
  induction materials as [|m ms IH]; cbn.
  - split; [discriminate|by intros [? ?]].
  - destruct (String.eqb _ _); cbn; [by split; eauto|exact IH].
Qed.

Lemma select_best_supplier_scenario_eq :
  SupplierSelector.select_best_supplier "m1" scenario_suppliers
    scenario_offers
  = Some (supplier_ "s3" 4.8 true, offer_ "s3" 125).
Proof. vm_compute. reflexivity. Qed.

(** X19.  The supplier returned by the selection is one of the given
    suppliers, is active and can supply the material; the offer returned
    with it is one of that supplier's offers and is for the requested
    material.  The selection is [None] exactly when no active supplier of
    the list can supply the material. *)
Theorem selected_supplier_can_supply (material_id : string)
    (suppliers : list Supplier.t)
    (supplier_materials : gmap string (list SupplierMaterial.t)) :
  let offers_of (s : Supplier.t) :=
    default [] (supplier_materials !! Supplier.id s) in
  let best :=
    SupplierSelector.select_best_supplier material_id suppliers
      supplier_materials in
  (∀ s info, best = Some (s, info) →
     s ∈ suppliers
     ∧ Supplier.is_active s = true
     ∧ Supplier_.can_supply s material_id (offers_of s) = true
     ∧ info ∈ offers_of s
     ∧ SupplierMaterial.material_id info = material_id)
  ∧ (best = None ↔
     ∀ s, s ∈ suppliers → Supplier.is_active s = true →
          Supplier_.can_supply s material_id (offers_of s) = false).
Proof.
  cbn zeta. rewrite select_best_supplier_head. split.
  - intros s info Hbest. apply head_Some_elem_of in Hbest.
    rewrite sort_perm in Hbest.
    apply candidates_elem_of in Hbest as (Hin & Hact & Hinfo).
    cbn [fst snd] in *. split; [done|]. split; [done|].
    split; [apply material_info_can_supply; eauto|].
    by apply material_info_Some.
  - split.
    + intros Hnone s Hin Hact.
      destruct (Supplier_.can_supply s material_id _) eqn:Hcan; [|done].
      apply material_info_can_supply in Hcan as [info Hinfo].
      assert (Hc : (s, info) ∈ SupplierSelector.candidates material_id
                     suppliers supplier_materials)
        by (by apply candidates_elem_of).
      rewrite <- sort_perm in Hc.
      destruct (SupplierSelector.sort _); [by apply elem_of_nil in Hc|].
      discriminate.
    + intros Hall.
      destruct (SupplierSelector.sort _) as [|[s info] rest] eqn:Hs; [done|].
      assert (Hc : (s, info) ∈ SupplierSelector.candidates material_id
                     suppliers supplier_materials).
      { rewrite <- sort_perm, Hs. by left. }
      apply candidates_elem_of in Hc as (Hin & Hact & Hinfo).
      cbn [fst snd] in *.
      assert (Supplier_.can_supply s material_id
                (default [] (supplier_materials !! Supplier.id s)) = true)
        by (apply material_info_can_supply; eauto).
      rewrite (Hall s Hin Hact) in *. discriminate.
Qed.

Lemma selected_supplier_can_supply_witness :
  supplier_ "s3" 4.8 true ∈ scenario_suppliers
  ∧ Supplier.is_active (supplier_ "s3" 4.8 true) = true
  ∧ Supplier_.can_supply (supplier_ "s3" 4.8 true) "m1"
      (default [] (scenario_offers !! "s3")) = true
  ∧ offer_ "s3" 125 ∈ default [] (scenario_offers !! "s3")
  ∧ SupplierMaterial.material_id (offer_ "s3" 125) = "m1".
Proof.
  exact (proj1 (selected_supplier_can_supply "m1" scenario_suppliers
                  scenario_offers)
           (supplier_ "s3" 4.8 true) (offer_ "s3" 125)
           select_best_supplier_scenario_eq).
Defined.

Lemma omap_filter {A B : Type} (f : A → option B) (P : A → Prop)
    `{∀ x, Decision (P x)} (l : list A) :
  (∀ x, ¬ P x → f x = None) → omap f (filter P l) = omap f l.
Proof.
  intros Hf. induction l as [|x l IH]; [done|].
  rewrite filter_cons. destruct (decide (P x)) as [Hp|Hp]; cbn.
  - by rewrite IH.
  - by rewrite (Hf x Hp).
Qed.

(** X20.  Inactive suppliers have no influence on the selection: dropping
    them from the list gives the same result. *)
Theorem selection_ignores_inactive (material_id : string)
    (suppliers : list Supplier.t)
    (supplier_materials : gmap string (list SupplierMaterial.t)) :
  SupplierSelector.select_best_supplier material_id
    (filter (λ s, Supplier.is_active s = true) suppliers) supplier_materials
  = SupplierSelector.select_best_supplier material_id suppliers
      supplier_materials.
Proof.
  rewrite !select_best_supplier_head. do 2 f_equal.
  unfold SupplierSelector.candidates. apply omap_filter.
  intros s Hact. unfold SupplierSelector.candidate_of.
  by destruct (Supplier.is_active s).
Qed.

(** ** Shortage processing *)

(** X21.  When the selection finds no supplier — the directory returns
    none, or none of those returned is an active supplier with an offer —
    processing a shortage reports failure without an order id, saves no
    order and does not call the placement adapter. *)
Theorem process_shortage_no_supplier {R S A : Type}
    {orders : PurchaseOrderRepository R} {directory : SupplierRepository S}
    {adapter : SupplierAdapter A}
    (dto : ProcessShortageDTO.t) (uuid : string) (now : datetime)
    (order_repo : R) (supplier_repo : S) (supplier_adapter : A) :
  let material_id := ProcessShortageDTO.material_id dto in
  let suppliers := get_for_material material_id supplier_repo in
  SupplierSelector.select_best_supplier material_id suppliers
    (ProcessShortageUseCase.supplier_materials_of suppliers supplier_repo)
  = None →
  ProcessShortageUseCase.execute dto uuid now order_repo supplier_repo
    supplier_adapter
  = (Ok (ProcessShortageResultDTO.mk false None
           (match suppliers with
            | [] => "No suppliers found for material "
            | _ => "No active supplier can provide "
            end +:+ ProcessShortageDTO.material_name dto) None None),
     order_repo, supplier_adapter).
Proof.
  intros material_id suppliers Hsel.
  unfold ProcessShortageUseCase.execute. fold material_id suppliers.
  destruct suppliers as [|s0 rest] eqn:Hsup; [done|].
  by rewrite Hsel.
Qed.

Lemma process_shortage_no_supplier_witness :
  ProcessShortageUseCase.execute
    (ProcessShortageDTO.mk "m2" "Sand" 15 None) "o1" sample_now
    (∅ : gmap string PurchaseOrder.t) scenario_directory accepting_stub
  = (Ok (ProcessShortageResultDTO.mk false None
           "No suppliers found for material Sand" None None),
     ∅, accepting_stub).
Proof.
  rewrite (process_shortage_no_supplier
             (ProcessShortageDTO.mk "m2" "Sand" 15 None) "o1" sample_now
             (∅ : gmap string PurchaseOrder.t) scenario_directory
             accepting_stub) by (vm_compute; reflexivity).
  reflexivity.
Defined.

(** X22.  When the placement adapter raises, processing a shortage raises
    the same exception and saves no order: the order built for the
    shortage is lost. *)
Theorem process_shortage_placement_raises {R S A : Type}
    {orders : PurchaseOrderRepository R} {directory : SupplierRepository S}
    {adapter : SupplierAdapter A}
    (dto : ProcessShortageDTO.t) (uuid : string) (now : datetime)
    (order_repo : R) (supplier_repo : S) (supplier_adapter : A)
    (supplier : Supplier.t) (info : SupplierMaterial.t)
    (e : exn) (adapter' : A) :
  let material_id := ProcessShortageDTO.material_id dto in
  let suppliers := get_for_material material_id supplier_repo in
  SupplierSelector.select_best_supplier material_id suppliers
    (ProcessShortageUseCase.supplier_materials_of suppliers supplier_repo)
  = Some (supplier, info) →
  place_order supplier
    (ProcessShortageUseCase.new_order dto supplier info uuid now)
    supplier_adapter = (Raise e, adapter') →
  ProcessShortageUseCase.execute dto uuid now order_repo supplier_repo
    supplier_adapter
  = (Raise e, order_repo, adapter').
Proof.
  intros material_id suppliers Hsel Hplace.
  unfold ProcessShortageUseCase.execute. fold material_id suppliers.
  destruct suppliers as [|s0 rest] eqn:Hsup; [discriminate Hsel|].
  by rewrite Hsel, Hplace.
Qed.

Lemma process_shortage_placement_raises_witness :
  ProcessShortageUseCase.execute shortage_40 "o1" sample_now
    (∅ : gmap string PurchaseOrder.t) scenario_directory timing_out_adapter
  = (Raise (ConnectionError "supplier timed out"), ∅, timing_out_adapter).
Proof.
  exact (process_shortage_placement_raises shortage_40 "o1" sample_now
           (∅ : gmap string PurchaseOrder.t) scenario_directory
           timing_out_adapter (supplier_ "s3" 4.8 true) (offer_ "s3" 125)
           (ConnectionError "supplier timed out") timing_out_adapter
           scenario_selection eq_refl).
Defined.

(** ** [Decimal] rounding *)

(** [round_half_even] is within one half of its argument. *)
Lemma Decimal_round_half_even_near (q : Q) :
  (Qabs (inject_Z (Decimal.round_half_even q) - q) <= 1 # 2)%Q.
Proof.
  unfold Decimal.round_half_even.
  pose proof (Qfloor_le q) as Hlo. pose proof (Qlt_floor q) as Hhi.
  rewrite inject_Z_plus in Hhi. change (inject_Z 1) with 1%Q in Hhi.
  destruct (Qcompare_spec (q - inject_Z (Qfloor q)) (1 # 2)) as [He|Hl|Hg];
    [destruct (Z.even (Qfloor q))|..];
    rewrite ?inject_Z_plus; change (inject_Z 1) with 1%Q;
    apply Qabs_case; intros; lra.
Qed.

(** An integer is rounded to itself. *)
Lemma Decimal_round_half_even_integer (k : Z) :
  Decimal.round_half_even (inject_Z k) = k.
Proof.
  unfold Decimal.round_half_even. rewrite Qfloor_Z.
  destruct (Qcompare_spec (inject_Z k - inject_Z k) (1 # 2)) as [He|Hl|Hg];
    [exfalso; lra|done|exfalso; lra].
Qed.

(** A number that has no digit beyond the last one kept is not changed by
    [round]. *)
Lemma Decimal_round_exact (q : Q) (k : Z) :
  ¬ (q == 0)%Q →
  (q / 10 ^ (Decimal.adjusted q - (Decimal.prec - 1)) == inject_Z k)%Q →
  (Decimal.round q == q)%Q.
Proof.
  intros Hq Hk. unfold Decimal.round.
  destruct (Qeq_bool q 0) eqn:H0; [by apply Qeq_bool_iff in H0|].
  cbn zeta. rewrite Qred_correct.
  set (e := Decimal.adjusted q - (Decimal.prec - 1)) in *.
  assert (Hr : Decimal.round_half_even (q / 10 ^ e) = k).
  { unfold Decimal.round_half_even.
    assert (Hf : Qfloor (q / 10 ^ e) = k) by (by rewrite Hk, Qfloor_Z).
    rewrite Hf.
    destruct (Qcompare_spec (q / 10 ^ e - inject_Z k) (1 # 2)) as [He|Hl|Hg];
      [exfalso; lra|done|exfalso; lra]. }
  rewrite Hr, <- Hk. field.
  apply Qpower_not_0. done.
Qed.

(** The decimal text of a positive number [x] has [k + 1] digits, where
    [10 ^ k ≤ x < 10 ^ (k + 1)]. *)
Lemma pretty_N_go_length (x : N) (s : string) :
  (0 < x)%N →
  ∃ k : nat,
    String.length (pretty_N_go x s) = (S k + String.length s)%nat
    ∧ (10 ^ N.of_nat k ≤ x < 10 ^ N.of_nat (S k))%N.
Proof.
  revert s. induction (N.lt_wf_0 x) as [x _ IH]. intros s Hx.
  rewrite pretty_N_go_step by done.
  destruct (decide (x `div` 10 = 0)%N) as [H0|H0].
  - rewrite H0, pretty_N_go_0. exists 0%nat. split; [done|].
    change (10 ^ N.of_nat 0)%N with 1%N.
    change (10 ^ N.of_nat 1)%N with 10%N.
    apply N.div_small_iff in H0; lia.
  - destruct (IH (x `div` 10)%N) with (s := String (pretty_N_char (x `mod` 10)) s)
      as (k & Hlen & Hk).
    + apply N.div_lt; lia.
    + by apply N.neq_0_lt_0.
    + exists (S k). split; [rewrite Hlen; cbn; lia|].
      rewrite !Nat2N.inj_succ, !N.pow_succ_r' in *.
      pose proof (N.div_mod x 10 ltac:(done)) as Hdiv.
      pose proof (N.mod_lt x 10 ltac:(done)) as Hmod.
      clear IH Hlen H0.
      generalize dependent (x `div` 10)%N. intros d.
      generalize dependent (x `mod` 10)%N. intros m.
      generalize dependent (10 ^ N.of_nat k)%N. intros p. lia.
Qed.

Lemma Decimal_digits_spec (n : Z) :
  0 < n →
  0 < Decimal.digits n ∧ 10 ^ (Decimal.digits n - 1) ≤ n < 10 ^ Decimal.digits n.
Proof.
  intros Hn. destruct n as [|p|p]; try lia.
  unfold Decimal.digits, pretty, pretty_Z, pretty, pretty_positive, pretty,
    pretty_N.
  rewrite decide_False by done.
  destruct (pretty_N_go_length (N.pos p) "") as (k & -> & Hk); [lia|].
  cbn [String.length]. rewrite Nat.add_0_r.
  split; [lia|].
  replace (Z.of_nat (S k) - 1) with (Z.of_N (N.of_nat k)) by lia.
  replace (Z.of_nat (S k)) with (Z.of_N (N.of_nat (S k))) by lia.
  rewrite <- !(N2Z.inj_pow 10). lia.
Qed.

Lemma Qpower_10_inject (k : Z) : 0 ≤ k → (inject_Z (10 ^ k) == 10 ^ k)%Q.
Proof. intros Hk. by rewrite Zpower_Qpower. Qed.

(** [adjusted] is the exponent of the leading digit. *)
Lemma Decimal_adjusted_spec (q : Q) :
  ¬ (q == 0)%Q →
  (10 ^ Decimal.adjusted q <= Qabs q
   ∧ Qabs q < 10 ^ (Decimal.adjusted q + 1))%Q.
Proof.
  intros Hq. unfold Decimal.adjusted.
  destruct q as [n d]. cbn [Qnum Qden].
  assert (Hn : 0 < Z.abs n).
  { destruct (decide (n = 0)) as [->|]; [by destruct Hq|lia]. }
  destruct (Decimal_digits_spec (Z.abs n) Hn) as (Ha & Hna1 & Hna2).
  destruct (Decimal_digits_spec (Z.pos d) ltac:(done)) as (Hb & Hdb1 & Hdb2).
  set (a := Decimal.digits (Z.abs n)) in *.
  set (b := Decimal.digits (Z.pos d)) in *.
  assert (Hx : (Qabs (n # d) * inject_Z (Z.pos d) == inject_Z (Z.abs n))%Q).
  { unfold Qabs, Qeq, Qmult, inject_Z. cbn. lia. }
  apply (inj_le _ _) in Hna1 || idtac.
  assert (HN1 : (10 ^ (a - 1) <= inject_Z (Z.abs n))%Q).
  { rewrite <- Qpower_10_inject by lia. by rewrite <- Zle_Qle. }
  assert (HN2 : (inject_Z (Z.abs n) < 10 ^ a)%Q).
  { rewrite <- Qpower_10_inject by lia. by rewrite <- Zlt_Qlt. }
  assert (HD1 : (10 ^ (b - 1) <= inject_Z (Z.pos d))%Q).
  { rewrite <- Qpower_10_inject by lia. by rewrite <- Zle_Qle. }
  assert (HD2 : (inject_Z (Z.pos d) < 10 ^ b)%Q).
  { rewrite <- Qpower_10_inject by lia. by rewrite <- Zlt_Qlt. }
  assert (H10 : ¬ (10 == 0)%Q) by done.
  assert (Hpos : ∀ k, (0 < 10 ^ k)%Q) by (intros k; by apply Qpower_0_lt).
  pose proof (Qabs_nonneg (n # d)) as Hx0.
  assert (E1 : (10 ^ (a - b + 1) * 10 ^ (b - 1) == 10 ^ a)%Q).
  { rewrite <- Qpower_plus by done. by replace (a - b + 1 + (b - 1)) with a by lia. }
  assert (E2 : (10 ^ (a - b - 1) * 10 ^ b == 10 ^ (a - 1))%Q).
  { rewrite <- Qpower_plus by done. by replace (a - b - 1 + b) with (a - 1) by lia. }
  pose proof (Hpos (a - b + 1)) as P1. pose proof (Hpos (b - 1)) as P2.
  pose proof (Hpos (a - b - 1)) as P3. pose proof (Hpos b) as P4.
  destruct (Qle_bool (10 ^ (a - b)) (Qabs (n # d))) eqn:Hle.
  - apply Qle_bool_iff in Hle. split; [done|].
    apply Qnot_le_lt. intros Hc.
    generalize dependent (Qabs (n # d)). intros x **.
    generalize dependent (inject_Z (Z.abs n)). intros N **.
    generalize dependent (inject_Z (Z.pos d)). intros D **.
    generalize dependent (10 ^ (a - b + 1))%Q. intros U **.
    generalize dependent (10 ^ (b - 1))%Q. intros V **.
    generalize dependent (10 ^ a)%Q. intros W **.
    nra.
  - replace (a - b - 1 + 1) with (a - b) by lia. split.
    + apply Qnot_lt_le. intros Hc.
      generalize dependent (Qabs (n # d)). intros x **.
      generalize dependent (inject_Z (Z.abs n)). intros N **.
      generalize dependent (inject_Z (Z.pos d)). intros D **.
      generalize dependent (10 ^ (a - b - 1))%Q. intros U **.
      generalize dependent (10 ^ b)%Q. intros V **.
      generalize dependent (10 ^ (a - 1))%Q. intros W **.
      nra.
    + apply Qnot_le_lt. intros Hc. apply Qle_bool_iff in Hc. congruence.
Qed.

(** A tie is rounded to the even neighbour. *)
Lemma Decimal_round_half_even_tie (q : Q) :
  (Qabs (inject_Z (Decimal.round_half_even q) - q) == 1 # 2)%Q →
  Z.even (Decimal.round_half_even q) = true.
Proof.
  unfold Decimal.round_half_even.
  pose proof (Qfloor_le q) as Hlo. pose proof (Qlt_floor q) as Hhi.
  rewrite inject_Z_plus in Hhi. change (inject_Z 1) with 1%Q in Hhi.
  destruct (Qcompare_spec (q - inject_Z (Qfloor q)) (1 # 2)) as [He|Hl|Hg].
  - destruct (Z.even (Qfloor q)) eqn:Hev; [done|]. intros _.
    rewrite Z.even_add, Hev. done.
  - intros Habs. exfalso. revert Habs. apply Qabs_case; intros; lra.
  - rewrite inject_Z_plus. change (inject_Z 1) with 1%Q.
    intros Habs. exfalso. revert Habs. apply Qabs_case; intros; lra.
Qed.

(** [round] keeps 28 significant digits: the result is a coefficient [k]
    of 28 digits (or [10 ^ 28], after a carry) at the exponent of the last
    digit kept, it is within half a unit of that digit of the exact
    number, and on a tie the coefficient is even. *)
Lemma Decimal_round_spec (q : Q) :
  ¬ (q == 0)%Q →
  let e := Decimal.adjusted q - (Decimal.prec - 1) in
  ∃ k : Z,
    (Decimal.round q == inject_Z k * 10 ^ e)%Q
    ∧ 10 ^ (Decimal.prec - 1) ≤ Z.abs k ≤ 10 ^ Decimal.prec
    ∧ (Qabs (Decimal.round q - q) <= (1 # 2) * 10 ^ e)%Q
    ∧ ((Qabs (Decimal.round q - q) == (1 # 2) * 10 ^ e)%Q →
       Z.even k = true).
Proof.
  intros Hq e. unfold Decimal.round.
  destruct (Qeq_bool q 0) eqn:H0; [by apply Qeq_bool_iff in H0|].
  cbn zeta. fold e. set (y := (q / 10 ^ e)%Q).
  exists (Decimal.round_half_even y).
  assert (Hpos : (0 < 10 ^ e)%Q) by (by apply Qpower_0_lt).
  assert (Hy : (q == y * 10 ^ e)%Q).
  { unfold y. field. lra. }
  assert (Hdiff : (Qred (inject_Z (Decimal.round_half_even y) * 10 ^ e) - q
                   == (inject_Z (Decimal.round_half_even y) - y) * 10 ^ e)%Q).
  { rewrite Qred_correct. rewrite Hy at 1. ring. }
  assert (Habs : (Qabs (Qred (inject_Z (Decimal.round_half_even y) * 10 ^ e) - q)
                  == Qabs (inject_Z (Decimal.round_half_even y) - y) * 10 ^ e)%Q).
  { rewrite Hdiff, Qabs_Qmult. rewrite (Qabs_pos (10 ^ e)) by lra. done. }
  pose proof (Decimal_round_half_even_near y) as Hnear.
  split; [apply Qred_correct|]. split; [|split].
  - destruct (Decimal_adjusted_spec q Hq) as [Hlo Hhi].
    assert (H10 : ¬ (10 == 0)%Q) by done.
    assert (E1 : (10 ^ Decimal.adjusted q == 10 ^ (Decimal.prec - 1) * 10 ^ e)%Q).
    { rewrite <- Qpower_plus by done. unfold e.
      by replace (Decimal.prec - 1 + (Decimal.adjusted q - (Decimal.prec - 1)))
        with (Decimal.adjusted q) by lia. }
    assert (E2 : (10 ^ (Decimal.adjusted q + 1) == 10 ^ Decimal.prec * 10 ^ e)%Q).
    { rewrite <- Qpower_plus by done. unfold e.
      by replace (Decimal.prec + (Decimal.adjusted q - (Decimal.prec - 1)))
        with (Decimal.adjusted q + 1) by lia. }
    assert (Hqy : (Qabs q == Qabs y * 10 ^ e)%Q).
    { rewrite Hy at 1. rewrite Qabs_Qmult, (Qabs_pos (10 ^ e)) by lra. done. }
    rewrite E1, Hqy in Hlo. rewrite E2, Hqy in Hhi.
    assert (Hylo : (10 ^ (Decimal.prec - 1) <= Qabs y)%Q).
    { apply Qnot_lt_le. intros Hc.
      generalize dependent (Qabs y). intros. 
      generalize dependent (10 ^ (Decimal.prec - 1))%Q. intros.
      generalize dependent (10 ^ e)%Q. intros. nra. }
    assert (Hyhi : (Qabs y < 10 ^ Decimal.prec)%Q).
    { apply Qnot_le_lt. intros Hc.
      generalize dependent (Qabs y). intros.
      generalize dependent (10 ^ Decimal.prec)%Q. intros.
      generalize dependent (10 ^ e)%Q. intros. nra. }
    pose proof (Qabs_triangle_reverse (inject_Z (Decimal.round_half_even y)) y).
    pose proof (Qabs_triangle_reverse y (inject_Z (Decimal.round_half_even y))).
    assert (Hsym : (Qabs (y - inject_Z (Decimal.round_half_even y))
                    == Qabs (inject_Z (Decimal.round_half_even y) - y))%Q).
    { rewrite <- Qabs_opp. apply Qabs_wd. ring. }
    assert (Hk : (Qabs (inject_Z (Decimal.round_half_even y))
                  == inject_Z (Z.abs (Decimal.round_half_even y)))%Q).
    { unfold Qabs, inject_Z. done. }
    rewrite <- (Qpower_10_inject (Decimal.prec - 1)) in Hylo by done.
    rewrite <- (Qpower_10_inject Decimal.prec) in Hyhi by done.
    split.
    + apply Znot_gt_le. intros Hc.
      assert (Z.abs (Decimal.round_half_even y) + 1 ≤ 10 ^ (Decimal.prec - 1))
        as Hc' by lia.
      rewrite Zle_Qle in Hc'.
      rewrite inject_Z_plus in Hc'. change (inject_Z 1) with 1%Q in Hc'.
      lra.
    + apply Znot_gt_le. intros Hc.
      assert (10 ^ Decimal.prec + 1 ≤ Z.abs (Decimal.round_half_even y))
        as Hc' by lia.
      rewrite Zle_Qle in Hc'.
      rewrite inject_Z_plus in Hc'. change (inject_Z 1) with 1%Q in Hc'.
      lra.
  - rewrite Habs. 
    generalize dependent (Qabs (inject_Z (Decimal.round_half_even y) - y)).
    intros. generalize dependent (10 ^ e)%Q. intros. nra.
  - rewrite Habs. intros Htie. apply Decimal_round_half_even_tie.
    generalize dependent (Qabs (inject_Z (Decimal.round_half_even y) - y)).
    intros. generalize dependent (10 ^ e)%Q. intros. nra.
Qed.

(** The product of [calculate_total] on the scenario, and on a price of 28
    digits whose exact double has 29: the total is rounded to 28
    significant digits and differs from the exact product. *)
Example decimal_mul_rounds :
  Decimal.mul 125 40 = 5000%Q
  ∧ Decimal.mul 9.999999999999999999999999999 2 = 20%Q
  ∧ ¬ (9.999999999999999999999999999 * inject_Z 2 == 20)%Q
  ∧ Decimal.mul 1.0000000000000000000000000005 1 = 1%Q
  ∧ (Decimal.mul 1.0000000000000000000000000015 1
     == 1.000000000000000000000000002)%Q.
Proof.
  split; [by vm_compute|]. split; [by vm_compute|].
  split; [intros H; vm_compute in H; discriminate|].
  split; by vm_compute.
Qed.

(** X23.  With an order repository that gives back what was saved, a
    shortage processed with a success confirmation can be read back
    through [GetOrderUseCase] under the returned order id: the order read
    is ORDERED, for the shortage quantity, at the selected offer's unit
    price, with the confirmation's external id.  Its total price, which is
    also the [estimated_cost] of the result, is the [Decimal] product of
    unit price and quantity, and its expected delivery is the estimated
    delivery of the confirmation when the confirmation carries one. *)
Theorem process_shortage_then_get_order {R S A : Type}
    {orders : PurchaseOrderRepository R} {directory : SupplierRepository S}
    {adapter : SupplierAdapter A}
    (dto : ProcessShortageDTO.t) (uuid : string) (now : datetime)
    (order_repo : R) (supplier_repo : S) (supplier_adapter : A)
    (supplier : Supplier.t) (info : SupplierMaterial.t)
    (confirmation : OrderConfirmation.t) (adapter' : A) :
  (∀ o (r : R), order_get_by_id (PurchaseOrder.id o) (order_save o r)
                = Some o) →
  let material_id := ProcessShortageDTO.material_id dto in
  let suppliers := get_for_material material_id supplier_repo in
  SupplierSelector.select_best_supplier material_id suppliers
    (ProcessShortageUseCase.supplier_materials_of suppliers supplier_repo)
  = Some (supplier, info) →
  place_order supplier
    (ProcessShortageUseCase.new_order dto supplier info uuid now)
    supplier_adapter = (Ok confirmation, adapter') →
  OrderConfirmation.is_success confirmation = true →
  ∃ res repo' read,
    ProcessShortageUseCase.execute dto uuid now order_repo supplier_repo
      supplier_adapter = (Ok res, repo', adapter')
    ∧ ProcessShortageResultDTO.order_id res = Some uuid
    ∧ GetOrderUseCase.execute uuid repo' = Some read
    ∧ OrderDTO.id read = uuid
    ∧ OrderDTO.material_id read = material_id
    ∧ OrderDTO.material_name read = ProcessShortageDTO.material_name dto
    ∧ OrderDTO.supplier_id read = Supplier.id supplier
    ∧ OrderDTO.supplier_name read = Supplier.name supplier
    ∧ OrderDTO.quantity read = ProcessShortageDTO.shortage_quantity dto
    ∧ OrderDTO.unit_price read = SupplierMaterial.unit_price info
    ∧ OrderDTO.total_price read
      = Decimal.mul (SupplierMaterial.unit_price info)
          (ProcessShortageDTO.shortage_quantity dto)
    ∧ ProcessShortageResultDTO.estimated_cost res
      = Some (OrderDTO.total_price read)
    ∧ OrderDTO.status read = "ORDERED"
    ∧ OrderDTO.external_order_id read
      = Some (OrderConfirmation.external_order_id confirmation)
    ∧ OrderDTO.triggered_by_request_id read
      = ProcessShortageDTO.triggered_by_request_id dto
    ∧ (∀ eta, OrderConfirmation.estimated_delivery confirmation = Some eta →
              OrderDTO.expected_delivery read = Some eta).
Proof.
  intros Hlaw material_id suppliers Hsel Hplace Hok.
  unfold ProcessShortageUseCase.execute. fold material_id suppliers.
  destruct suppliers as [|s0 rest] eqn:Hsup; [discriminate Hsel|].
  rewrite Hsel, Hplace, Hok. cbn [negb].
  eexists _, _, _. split; [reflexivity|]. split; [done|].
  unfold GetOrderUseCase.execute.
  match goal with
  | |- context [order_save ?o order_repo] =>
      rewrite (Hlaw o order_repo : order_get_by_id uuid _ = _)
  end.
  split; [reflexivity|]. cbn.
  repeat (split; [reflexivity|]).
  by intros eta ->.
Qed.

Lemma process_shortage_then_get_order_witness :
  ∃ res repo' read,
    ProcessShortageUseCase.execute shortage_40 "o1" sample_now
      (∅ : gmap string PurchaseOrder.t) scenario_directory accepting_stub
    = (Ok res, repo',
       StubSupplierAdapter.mk false "STUB-0A1B2C3D" "2024-05-04T08:00:00"
         [("o1", "STUB-0A1B2C3D")])
    ∧ ProcessShortageResultDTO.order_id res = Some "o1"
    ∧ GetOrderUseCase.execute "o1" repo' = Some read
    ∧ OrderDTO.id read = "o1"
    ∧ OrderDTO.material_id read = "m1"
    ∧ OrderDTO.material_name read = "Cement"
    ∧ OrderDTO.supplier_id read = "s3"
    ∧ OrderDTO.supplier_name read = "Supplier s3"
    ∧ OrderDTO.quantity read = 40
    ∧ OrderDTO.unit_price read = 125%Q
    ∧ OrderDTO.total_price read = Decimal.mul 125 40
    ∧ ProcessShortageResultDTO.estimated_cost res
      = Some (OrderDTO.total_price read)
    ∧ OrderDTO.status read = "ORDERED"
    ∧ OrderDTO.external_order_id read = Some "STUB-0A1B2C3D"
    ∧ OrderDTO.triggered_by_request_id read = Some "req1"
    ∧ (∀ eta, Some "2024-05-04T08:00:00" = Some eta →
              OrderDTO.expected_delivery read = Some eta).
Proof.
  refine (process_shortage_then_get_order shortage_40 "o1" sample_now
            (∅ : gmap string PurchaseOrder.t) scenario_directory
            accepting_stub (supplier_ "s3" 4.8 true) (offer_ "s3" 125)
            (OrderConfirmation.mk "o1" "STUB-0A1B2C3D" "CONFIRMED"
               (Some "2024-05-04T08:00:00") None)
            (StubSupplierAdapter.mk false "STUB-0A1B2C3D"
               "2024-05-04T08:00:00" [("o1", "STUB-0A1B2C3D")])
            _ scenario_selection eq_refl eq_refl).
  intros o r. apply lookup_insert_eq.
Defined.

(** ** Order status updates *)

Lemma OrderStatus_roundtrip (s : OrderStatus) :
  OrderStatus_.of_value (OrderStatus_.value s) = Ok s.
Proof. by destruct s. Qed.

Lemma OrderStatus_of_value_Ok (v : string) (s : OrderStatus) :
  OrderStatus_.of_value v = Ok s → v = OrderStatus_.value s.
Proof.
  unfold OrderStatus_.of_value.
  repeat match goal with
         | |- context [String.eqb v ?c] => destruct (String.eqb_spec v c)
         end; intros [= <-] || discriminate; done.
Qed.

(** The text of [repr] on a plain word, on a text with an apostrophe, on a
    text with both quotes and on a text with a backslash and a line feed. *)
Example repr_examples :
  repr "delivered" = "'delivered'"
  ∧ repr "it's" = String "034" ("it's" +:+ String "034" "")
  ∧ repr (String "034" "a'b")
    = "'" +:+ String "034" ("a" +:+ String "092" "'b'")
  ∧ repr (String "092" (String "010" ""))
    = "'" +:+ String "092" (String "092" (String "092" "n'")).
Proof. by vm_compute. Qed.



(** X25.  A status update accepts every transition: for an existing order
    in any status and any target status, the order is stored with the
    target status and the returned order carries the value of that
    status; nothing else of the order changes but [updated_at]. *)
Theorem update_status_any_transition {R I : Type}
    {orders : PurchaseOrderRepository R}
    (order_id : string) (target : OrderStatus) (now : datetime)
    (order_repo : R) (client : option I) (order : PurchaseOrder.t) :
  order_get_by_id order_id order_repo = Some order →
  let stored :=
    PurchaseOrder.set_updated_at now (PurchaseOrder.set_status target order)
  in
  UpdateOrderStatusUseCase.execute order_id (OrderStatus_.value target) now
    order_repo client
  = (Ok (Some (_order_to_dto stored)), order_update stored order_repo,
     client)
  ∧ PurchaseOrder.status stored = target
  ∧ OrderDTO.status (_order_to_dto stored) = OrderStatus_.value target.
Proof.
  intros Hget. cbn zeta. split; [|done].
  destruct target.
  - unfold UpdateOrderStatusUseCase.execute. by rewrite Hget.
  - unfold UpdateOrderStatusUseCase.execute. by rewrite Hget.
  - by apply update_status_delivered.
  - by apply update_status_cancelled.
Qed.

Lemma update_status_any_transition_witness :
  UpdateOrderStatusUseCase.execute (I := Db) "o1" "PENDING" later
    (orders_with DELIVERED) None
  = (Ok (Some (_order_to_dto
                 (PurchaseOrder.set_updated_at later
                    (PurchaseOrder.set_status PENDING (order_o1 DELIVERED))))),
     order_update
       (PurchaseOrder.set_updated_at later
          (PurchaseOrder.set_status PENDING (order_o1 DELIVERED)))
       (orders_with DELIVERED), None)
  ∧ PurchaseOrder.status
      (PurchaseOrder.set_updated_at later
         (PurchaseOrder.set_status PENDING (order_o1 DELIVERED))) = PENDING
  ∧ OrderDTO.status
      (_order_to_dto
         (PurchaseOrder.set_updated_at later
            (PurchaseOrder.set_status PENDING (order_o1 DELIVERED))))
    = "PENDING".
Proof.
  apply (update_status_any_transition (I := Db) "o1" PENDING later
           (orders_with DELIVERED) None (order_o1 DELIVERED)).
  reflexivity.
Defined.

(** ** Manual orders *)

(** Creating an order for a supplier that the directory does not
    know raises [ValueError]; no price is asked, no order is placed and
    none is saved. *)
Theorem create_order_unknown_supplier {R S A : Type}
    {orders : PurchaseOrderRepository R} {lookup : SupplierLookup S}
    {adapter : SupplierAdapter A} {pricing : SupplierPricing A}
    (dto : CreateOrderDTO.t) (uuid : string) (now : datetime)
    (order_repo : R) (supplier_repo : S) (supplier_adapter : A) :
  supplier_get_by_id (CreateOrderDTO.supplier_id dto) supplier_repo = None →
  CreateOrderUseCase.execute dto uuid now order_repo supplier_repo
    supplier_adapter
  = (Raise (ValueError ("Supplier "
                         +:+ fmt_opt (CreateOrderDTO.supplier_id dto)
                         +:+ " not found")),
     order_repo, supplier_adapter).
Proof.
  intros Hget. unfold CreateOrderUseCase.execute. by rewrite Hget.
Qed.

Lemma create_order_unknown_supplier_witness :
  CreateOrderUseCase.execute (create_40 None) "o1" sample_now
    (∅ : gmap string PurchaseOrder.t) scenario_directory
    (QuotingAdapter.mk (Some 125%Q) true)
  = (Raise (ValueError "Supplier None not found"), ∅,
     QuotingAdapter.mk (Some 125%Q) true).
Proof.
  apply (create_order_unknown_supplier (create_40 None) "o1" sample_now
           (∅ : gmap string PurchaseOrder.t) scenario_directory
           (QuotingAdapter.mk (Some 125%Q) true)).
  reflexivity.
Defined.



(** * Reservation followed by an availability check *)

(** X27.  After the use case has reserved a non-negative quantity, the
    material loads with the same quantity and its available quantity is
    lower by exactly the quantity reserved; an availability check then
    reports that figure. *)
Theorem reserve_then_check (dto : ReserveMaterialDTO.t) (uuid : string)
    (now now2 : datetime) (db db' : Db) (res : ReservationResultDTO.t)
    (m : Material.t) (requested : Z) :
  0 ≤ ReserveMaterialDTO.quantity dto →
  SQLAlchemyMaterialRepository.get_by_id (ReserveMaterialDTO.material_id dto)
    db = Ok (Some m) →
  ReserveMaterialUseCase.execute dto uuid now db = (Ok res, db') →
  ReservationResultDTO.success res = true →
  ∃ m' r,
    SQLAlchemyMaterialRepository.get_by_id
      (ReserveMaterialDTO.material_id dto) db' = Ok (Some m')
    ∧ Material.quantity m' = Material.quantity m
    ∧ Material.available m'
      = Material.available m - ReserveMaterialDTO.quantity dto
    ∧ fst (CheckAvailabilityUseCase.execute (P := StubMessagePublisher.t)
             db' None
             (AvailabilityCheckDTO.mk (ReserveMaterialDTO.material_id dto)
                requested) None true now2) = Ok r
    ∧ AvailabilityResultDTO.available_quantity r
      = Material.available m - ReserveMaterialDTO.quantity dto.
Proof.
  intros Hq Hget. pose proof Hget as Hget0.
  apply get_by_id_Some in Hget as (model & Hrow & Hent).
  unfold ReserveMaterialUseCase.execute. rewrite Hget0.
  destruct (negb (Material.can_reserve m _)); [by intros [= <- <-]|].
  unfold SQLAlchemyMaterialRepository.reserve. rewrite Hrow.
  destruct (_ <? ReserveMaterialDTO.quantity dto) eqn:Hlt;
    [by intros [= <- <-]|].
  apply Z.ltb_ge in Hlt.
  destruct (truthy uuid); [|by intros [= <- <-]].
  intros [= <- <-] _.
  unfold _model_to_entity in Hent.
  destruct (MaterialUnit_.of_value (MaterialModel.unit model)) as [u|] eqn:Hu;
    [|discriminate].
  injection Hent as <-.
  set (m' := Material.mk (MaterialModel.id model) (MaterialModel.name model) u
               (default "" (MaterialModel.category model))
               (MaterialModel.quantity model)
               (MaterialModel.reserved model + ReserveMaterialDTO.quantity dto)
               (MaterialModel.min_threshold model)
               (MaterialModel.created_at model) now).
  assert (Hget' : SQLAlchemyMaterialRepository.get_by_id
                    (ReserveMaterialDTO.material_id dto)
                    (mkDb (<[ReserveMaterialDTO.material_id dto :=
                              MaterialModel.set_reserved
                                (MaterialModel.reserved model
                                 + ReserveMaterialDTO.quantity dto) now model]>
                             (materials db))
                          (stock_movements db)
                          (<[uuid := ReservationModel.mk uuid
                                       (ReserveMaterialDTO.material_id dto)
                                       (ReserveMaterialDTO.request_id dto)
                                       (ReserveMaterialDTO.quantity dto)
                                       "ACTIVE" now None]> (reservations db)))
                  = Ok (Some m')).
  { unfold SQLAlchemyMaterialRepository.get_by_id. cbn [materials].
    rewrite lookup_insert_eq. unfold _model_to_entity.
    cbn [MaterialModel.set_reserved MaterialModel.unit]. by rewrite Hu. }
  assert (Hav : Material.available m'
                = Z.max 0 (MaterialModel.quantity model
                           - MaterialModel.reserved model)
                  - ReserveMaterialDTO.quantity dto).
  { unfold Material.available, m'. cbn -[Z.max]. lia. }
  exists m'. eexists. split; [exact Hget'|]. split; [done|].
  split; [exact Hav|].
  rewrite (check_execute_found _ None
             (AvailabilityCheckDTO.mk (ReserveMaterialDTO.material_id dto)
                requested) None true now2 m' Hget').
  split; [reflexivity|]. exact Hav.
Qed.

Lemma reserve_then_check_witness :
  ∃ m' r,
    SQLAlchemyMaterialRepository.get_by_id "m1"
      (snd (ReserveMaterialUseCase.execute
              (ReserveMaterialDTO.mk "m1" 4 "req1") "res7" sample_now
              (cement_ledger 100 90))) = Ok (Some m')
    ∧ Material.quantity m' = 100
    ∧ Material.available m' = 10 - 4
    ∧ fst (CheckAvailabilityUseCase.execute (P := StubMessagePublisher.t)
             (snd (ReserveMaterialUseCase.execute
                     (ReserveMaterialDTO.mk "m1" 4 "req1") "res7" sample_now
                     (cement_ledger 100 90)))
             None (AvailabilityCheckDTO.mk "m1" 50) None true later) = Ok r
    ∧ AvailabilityResultDTO.available_quantity r = 10 - 4.
Proof.
  refine (reserve_then_check (ReserveMaterialDTO.mk "m1" 4 "req1") "res7"
            sample_now later (cement_ledger 100 90) _ _
            (cement_entity 100 90) 50 _ (cement_get_by_id 100 90)
            eq_refl eq_refl).
  cbn. lia.
Defined.
